(** * PyIRIDocker: the three driver scripts, embedded and verified

    The repository holds three command-line scripts around the PyIRI
    ionospheric model:

    - [pyiri_runner.py]      (Single/Global Runner),
    - [pyiri_year_daily.py]  (Year Daily Generator),
    - [pyiri_year_plot.py]   (Year Monthly Generator).

    The scripts are glue code: they call the model, look at the shape of the
    arrays that come back, index them, and hand the result to the plotting
    package or to a CSV file.  The embedding below therefore consists of

    - [NumPy]: n-dimensional arrays as a shape plus row-major data, with
      basic indexing, [reshape], [flatten] and the trapezoid rule;
    - [Py]: a state-and-exception monad in which a Python function body with
      [try]/[except], in-place list appends and [print] is transcribed;
    - [Calendar]: the proleptic Gregorian ordinal of [datetime];
    - [Runner], [YearDaily], [YearPlot]: the three [main] functions.

    Floating-point numbers: array elements of the runner are kept abstract
    (any type with the arithmetic of the class [Arith]); no algebraic law is
    assumed of it, so the results speak about which elements are combined
    in which order, not about rounding.  The year generators compare and
    clip values; they are modelled over the real numbers, with a separate
    NaN cell for the entries the scripts fill in after a failure. *)

From Stdlib Require Import String Ascii.
From Stdlib Require Import QArith.
From Stdlib Require Import Reals Lra.
From Stdlib Require Import ZArith Lia Bool Arith PeanoNat List.
Import ListNotations.

Close Scope Q_scope.
Close Scope R_scope.
Open Scope nat_scope.

Set Implicit Arguments.

(** ** Python exceptions that the scripts can meet *)

Inductive exn : Type :=
| IndexError                      (* an index outside an axis, or too many indices *)
| ValueError (msg : string)       (* reshape of the wrong size, explicit raise *)
| ModelError (msg : string).      (* anything raised inside the PyIRI call *)

(** * NumPy arrays *)

Module NumPy.

Section Arrays.
Context {F : Type}.

(** An array is its shape and its elements in row-major (C) order. *)
Record ndarray : Type := mk_nd { shape : list nat; data : list F }.

Definition prod_shape (sh : list nat) : nat := fold_right Nat.mul 1 sh.

Definition ndim (a : ndarray) : nat := length (shape a).
Definition size (a : ndarray) : nat := prod_shape (shape a).

(** The representation invariant of an array. *)
Definition wf (a : ndarray) : Prop := length (data a) = size a.
Definition wfb (a : ndarray) : bool := length (data a) =? size a.

Definition scalar (x : F) : ndarray := mk_nd [] [x].
Definition array1 (xs : list F) : ndarray := mk_nd [length xs] xs.

(** The [i]-th consecutive block of [p] elements. *)
Definition block (i p : nat) (d : list F) : list F := firstn p (skipn (i * p) d).

(** *** Basic indexing: [a[i, :, -1]] and the like *)

Inductive index : Type :=
| At (z : Z)      (* an integer, negative ones count from the end *)
| All.            (* the full slice [:] *)

Definition norm_index (z : Z) (n : nat) : option nat :=
  if ((0 <=? z) && (z <? Z.of_nat n))%Z then Some (Z.to_nat z)
  else if ((- Z.of_nat n <=? z) && (z <? 0))%Z then Some (Z.to_nat (z + Z.of_nat n))
  else None.

(** Shape of [a[ix]]; [None] is NumPy's IndexError.  Bounds are checked
    on the shape alone, as NumPy does, also for empty arrays. *)
Fixpoint getitem_shape (sh : list nat) (ix : list index) {struct ix} : option (list nat) :=
  match ix, sh with
  | [], _ => Some sh
  | _ :: _, [] => None
  | At z :: ix', n :: sh' =>
      match norm_index z n with
      | Some _ => getitem_shape sh' ix'
      | None => None
      end
  | All :: ix', n :: sh' => option_map (cons n) (getitem_shape sh' ix')
  end.

Fixpoint getitem_data (sh : list nat) (ix : list index) (d : list F) {struct ix}
  : list F :=
  match ix, sh with
  | [], _ => d
  | _ :: _, [] => d
  | At z :: ix', n :: sh' =>
      match norm_index z n with
      | Some i => getitem_data sh' ix' (block i (prod_shape sh') d)
      | None => []
      end
  | All :: ix', n :: sh' =>
      flat_map (fun i => getitem_data sh' ix' (block i (prod_shape sh') d)) (seq 0 n)
  end.

Definition getitem (a : ndarray) (ix : list index) : exn + ndarray :=
  match getitem_shape (shape a) ix with
  | Some sh' => inr (mk_nd sh' (getitem_data (shape a) ix (data a)))
  | None => inl IndexError
  end.

(** [a[:n]]: the first [n] entries along axis 0 (a slice never raises). *)
Definition take (n : nat) (a : ndarray) : ndarray :=
  match shape a with
  | [] => a
  | m :: sh' => mk_nd (Nat.min n m :: sh') (firstn (n * prod_shape sh') (data a))
  end.

(** [a.reshape(sh)] *)
Definition reshape (a : ndarray) (sh : list nat) : exn + ndarray :=
  if size a =? prod_shape sh then inr (mk_nd sh (data a))
  else inl (ValueError "cannot reshape array").

(** [a.flatten()] *)
Definition flatten (a : ndarray) : ndarray := mk_nd [size a] (data a).

(** [a.T] of a two-axis array (the only transposes the scripts take). *)
Definition transpose (a : ndarray) : ndarray :=
  match shape a with
  | [n; m] =>
      mk_nd [m; n]
        (flat_map (fun j => flat_map (fun i => block (i * m + j) 1 (data a)) (seq 0 n))
                  (seq 0 m))
  | _ => a
  end.

(** *** Reading one element (specification side) *)

Fixpoint offset (sh : list nat) (ix : list nat) : nat :=
  match sh, ix with
  | _ :: sh', i :: ix' => i * prod_shape sh' + offset sh' ix'
  | _, _ => 0
  end.

Definition get (d0 : F) (a : ndarray) (ix : list nat) : F :=
  nth (offset (shape a) ix) (data a) d0.

(** The row [a[h, :]] and the pick [a[h, :, last]], element by element. *)
Definition row_at (d0 : F) (a : ndarray) (h : nat) (n1 : nat) : list F :=
  map (fun j => get d0 a [h; j]) (seq 0 n1).


(** A multi-index within a shape. *)
Definition valid (ix : list nat) (sh : list nat) : Prop := Forall2 lt ix sh.

(** The index in [a] that entry [jx] of [a[ix]] comes from. *)
Fixpoint source (sh : list nat) (ix : list index) (jx : list nat) {struct ix}
  : list nat :=
  match ix, sh with
  | [], _ => jx
  | _ :: _, [] => []
  | At z :: ix', n :: sh' =>
      match norm_index z n with
      | Some i => i :: source sh' ix' jx
      | None => []
      end
  | All :: ix', n :: sh' =>
      match jx with
      | j :: jx' => j :: source sh' ix' jx'
      | [] => []
      end
  end.

(** Where sample [a] along axis [k] of the output entry [jx] of a
    reduction sits in the input. *)
Definition insert_at (k a : nat) (jx : list nat) : list nat :=
  firstn k jx ++ a :: skipn k jx.


End Arrays.

Arguments ndarray F : clear implicits.

(** *** Arithmetic on elements

    What the scripts need of float arithmetic: a zero, [+], [*], [/], the
    conversion of an integer and decimal literals [m * 10^e]. *)

Class Arith (F : Type) : Type := {
  fzero : F;
  fadd : F -> F -> F;
  fmul : F -> F -> F;
  fdiv : F -> F -> F;
  of_int : Z -> F;
  lit : Z -> Z -> F
}.

Section Numeric.
Context {F : Type} {AF : Arith F}.

(** Element-wise combination of two equally shaped blocks. *)
Fixpoint map2 (f : F -> F -> F) (u v : list F) : list F :=
  match u, v with
  | x :: u', y :: v' => f x y :: map2 f u' v'
  | _, _ => []
  end.

(** [a * c] for a Python or NumPy scalar [c]. *)
Definition scale (a : ndarray F) (c : F) : ndarray F :=
  mk_nd (shape a) (map (fun x => fmul x c) (data a)).

(** One trapezoid: [dx * (y1 + y0) / 2.0]. *)
Definition trapezoid_term (dx y1 y0 : F) : F :=
  fdiv (fmul dx (fadd y1 y0)) (lit 2 0).

(** [add.reduce]: the first term, then the others added from the left;
    the identity for no term at all. *)
Definition add_reduce (ts : list F) : F :=
  match ts with
  | [] => fzero
  | t :: ts' => fold_left fadd ts' t
  end.

Definition add_reduce_blocks (p : nat) (bs : list (list F)) : list F :=
  match bs with
  | [] => repeat fzero p
  | b :: bs' => fold_left (map2 fadd) bs' b
  end.

Definition remove_axis (k : nat) (sh : list nat) : list nat :=
  firstn k sh ++ skipn (S k) sh.

(** [np.trapezoid(y, axis=k, dx=dx)] on the data: along axis [k] the
    slices [y[1:]] and [y[:-1]] are combined element-wise and the terms
    summed along that axis. *)
Fixpoint trapezoid_data (dx : F) (sh : list nat) (k : nat) (d : list F) : list F :=
  match sh with
  | [] => d
  | n :: sh' =>
      let p := prod_shape sh' in
      match k with
      | 0 =>
          add_reduce_blocks p
            (map (fun a => map2 (trapezoid_term dx) (block (S a) p d) (block a p d))
                 (seq 0 (n - 1)))
      | S k' => flat_map (fun i => trapezoid_data dx sh' k' (block i p d)) (seq 0 n)
      end
  end.

Definition trapezoid (a : ndarray F) (axis : nat) (dx : F) : ndarray F :=
  mk_nd (remove_axis axis (shape a)) (trapezoid_data dx (shape a) axis (data a)).

(** The trapezoid rule on one list of samples (specification side). *)
Definition trapz_1d (dx : F) (ys : list F) : F :=
  add_reduce
    (map (fun a => trapezoid_term dx (nth (S a) ys fzero) (nth a ys fzero))
         (seq 0 (length ys - 1))).

End Numeric.

(** [np.arange(start, stop, step)] on integers, [step > 0]. *)
Definition arange (start stop step : Z) : list Z :=
  map (fun i => (start + step * Z.of_nat i)%Z)
      (seq 0 (Z.to_nat ((stop - start + step - 1) / step))).

End NumPy.

(** * Python function bodies: state, exceptions, [try]/[except] *)

Module Py.

Section Monad.
Context {S : Type}.

(** A computation runs on the mutable state [S] (the output written so
    far, the lists being appended to) and ends with a value or with a
    raised exception.  The state survives the exception: what was
    appended before a [raise] is still there in the handler. *)
Definition M (A : Type) : Type := S -> S * (exn + A).

Definition ret {A} (a : A) : M A := fun s => (s, inr a).

Definition bind {A B} (m : M A) (k : A -> M B) : M B :=
  fun s =>
    match m s with
    | (s', inr a) => k a s'
    | (s', inl e) => (s', inl e)
    end.

Definition raise {A} (e : exn) : M A := fun s => (s, inl e).

(** A pure operation that may raise (indexing, reshape, a model call). *)
Definition lift {A} (r : exn + A) : M A := fun s => (s, r).

Definition modify (f : S -> S) : M unit := fun s => (f s, inr tt).

Definition gets {A} (f : S -> A) : M A := fun s => (s, inr (f s)).

(** [try: body except Exception as e: handler e] *)
Definition try_except {A} (body : M A) (handler : exn -> M A) : M A :=
  fun s =>
    match body s with
    | (s', inl e) => handler e s'
    | (s', inr a) => (s', inr a)
    end.

(** [for x in xs: body x] *)
Fixpoint for_each {X} (xs : list X) (body : X -> M unit) : M unit :=
  match xs with
  | [] => ret tt
  | x :: xs' => bind (body x) (fun _ => for_each xs' body)
  end.

End Monad.

Arguments M S A : clear implicits.

(** What a stage hands back to [main]: go on, or [return] from [main]. *)
Inductive flow (A : Type) : Type :=
| Next (a : A)
| Return.
Arguments Return {A}.

Declare Scope py_scope.
Delimit Scope py_scope with py.
Notation "x <- c1 ;; c2" := (bind c1 (fun x => c2))
  (at level 61, c1 at next level, right associativity) : py_scope.
Notation "' pat <- c1 ;; c2" := (bind c1 (fun x => match x with pat => c2 end))
  (at level 61, pat pattern, c1 at next level, right associativity) : py_scope.
Notation "c1 ;; c2" := (bind c1 (fun _ => c2))
  (at level 61, right associativity) : py_scope.


(** [l[i]] on a Python list or one-axis array, [0 <= i]. *)
Definition list_index {A} (l : list A) (i : nat) : exn + A :=
  match nth_error l i with
  | Some x => inr x
  | None => inl IndexError
  end.

End Py.

(** * pyiri_runner.py: the Single/Global Runner *)

Module Runner.
Import NumPy Py.
Local Open Scope py_scope.

(** Who provides a function the script calls. *)
Inductive library : Type := PyIRI | Numpy | Matplotlib.

Section Script.
Context {F : Type} {AF : Arith F}.

(** The command-line flags that steer the control flow. *)
Record Args : Type := {
  global_map : bool;
  hour : Z;
  parameters : list string;
  daily : bool;
  profiles : bool;
  vtec : bool
}.

(** A dictionary of the model ([f2], [e_peak]) with the keys the script reads. *)
Record dict : Type := { fo : ndarray F; hm : ndarray F; Nm : ndarray F }.

(** What is outside the script: the answers of the two PyIRI entry
    points, the NumPy version, and the shape of the mesh [alon_2d]
    that [np.meshgrid] builds from [--resolution]. *)
Record World : Type := {
  IRI_density_1day : exn + (dict * dict * ndarray F);
  IRI_monthly_mean_par : exn + (dict * dict);
  np_has_trapezoid : bool;
  grid : nat * nat
}.

Definition grid_shape (w : World) : list nat := [fst (grid w); snd (grid w)].
Definition grid_size (w : World) : nat := fst (grid w) * snd (grid w).

(** The lines the script prints. *)
Inductive message : Type :=
| MsgOutputDir
| MsgCreatingGrid
| MsgGridSize
| MsgRunning
| MsgUsingDaily
| MsgCalcComplete
| MsgDebugShapes (fo_shape : list nat) (edp_shape : option (list nat))
| MsgCalcFailed (e : exn)
| MsgCreatingGlobal
| MsgUnexpectedShape (sh : list nat)
| MsgErrorExtracting (e : exn) (sh : list nat)
| MsgPlotSaved (name : string)
| MsgCalcVtec
| MsgEdpShape (sh : list nat)
| MsgIntegrating (axis : nat)
| MsgCannotDetermine (n : nat)
| MsgUnexpectedEdp (sh : list nat)
| MsgTecShape (sh : list nat) (g : list nat)
| MsgSizeWarning (tec_size g_size : nat)
| MsgVtecFailed (e : exn)
| MsgCreatingTimeSeries
| MsgCreatingProfiles
| MsgCannotDetermineProfile (sh : list nat)
| MsgDensityShape (sh : list nat)
| MsgProfileFailed (e : exn)
| MsgListing
| MsgDone.

(** The calls that leave the script. *)
Inductive extcall : Type :=
| ml_IRI_density_1day
| ml_IRI_monthly_mean_par
| np_trapezoid (y : ndarray F) (axis : nat) (dx : F)
| np_trapz (y : ndarray F) (axis : nat) (dx : F)
| plt_contourf (z : ndarray F)
| ax_plot (y : ndarray F)
| ax_contourf (z : ndarray F)
| ax_text
| plt_savefig (name : string).

Definition provider (c : extcall) : library :=
  match c with
  | ml_IRI_density_1day | ml_IRI_monthly_mean_par => PyIRI
  | np_trapezoid _ _ _ | np_trapz _ _ _ => Numpy
  | plt_contourf _ | ax_plot _ | ax_contourf _ | ax_text | plt_savefig _ => Matplotlib
  end.

(** A call that integrates its argument. *)
Definition is_integration (c : extcall) : bool :=
  match c with
  | np_trapezoid _ _ _ | np_trapz _ _ _ => true
  | _ => false
  end.

Definition is_model_call (c : extcall) : bool :=
  match c with
  | ml_IRI_density_1day | ml_IRI_monthly_mean_par => true
  | _ => false
  end.

Inductive event : Type :=
| Print (m : message)
| Call (c : extcall).

Definition St : Type := list event.

Definition emit (e : event) : M St unit := modify (fun l => l ++ [e]).
Definition say (m : message) : M St unit := emit (Print m).
Definition call (c : extcall) : M St unit := emit (Call c).

(** ['foF2' in args.parameters or 'all' in args.parameters] *)
Definition wants (name : string) (args : Args) : bool :=
  existsb (String.eqb name) (parameters args)
  || existsb (String.eqb "all") (parameters args).

(** [ahr = np.arange(0, 24, 1)], [aalt = np.arange(60, 1000 + 10, 10)] *)
Definition ahr : list Z := arange 0 24 1.
Definition aalt : list Z := arange 60 (1000 + 10) 10.

Definition axis_len (a : ndarray F) (k : nat) : nat := nth k (shape a) 0.

(** Lines 68-92: the body of the first [try]. *)
Definition calculate_body (args : Args) (w : World)
  : M St (flow (dict * dict * option (ndarray F) * bool)) :=
  r <- (if daily args || profiles args || vtec args then
          say MsgUsingDaily ;;
          call ml_IRI_density_1day ;;
          '(f2, e_peak, edp) <- lift (IRI_density_1day w) ;;
          ret (f2, e_peak, Some edp, true)
        else
          call ml_IRI_monthly_mean_par ;;
          '(f2, e_peak) <- lift (IRI_monthly_mean_par w) ;;
          ret (f2, e_peak, None, false)) ;;
  say MsgCalcComplete ;;
  (let '(f2, _, edp, _) := r in
   say (MsgDebugShapes (shape (fo f2)) (option_map shape edp))) ;;
  ret (Next r).

(** Lines 94-96 *)
Definition calculate_handler (e : exn)
  : M St (flow (dict * dict * option (ndarray F) * bool)) :=
  say (MsgCalcFailed e) ;; ret Return.

(** Lines 67-96: the model call and its handler. *)
Definition calculate (args : Args) (w : World)
  : M St (flow (dict * dict * option (ndarray F) * bool)) :=
  try_except (calculate_body args w) calculate_handler.

(** Lines 108-126: the body of the extraction [try]. *)
Definition extract_global_body (args : Args) (w : World) (f2 : dict)
  : M St (flow (ndarray F * ndarray F * ndarray F)) :=
  r <- (if ndim (fo f2) =? 2 then
          fo_data <- lift (getitem (fo f2) [At (hour args); All]) ;;
          hm_data <- lift (getitem (hm f2) [At (hour args); All]) ;;
          nm_data <- lift (getitem (Nm f2) [At (hour args); All]) ;;
          ret (Next (fo_data, hm_data, nm_data))
        else if ndim (fo f2) =? 3 then
          fo_data <- lift (getitem (fo f2) [At (hour args); All; At (-1)]) ;;
          hm_data <- lift (getitem (hm f2) [At (hour args); All; At (-1)]) ;;
          nm_data <- lift (getitem (Nm f2) [At (hour args); All; At (-1)]) ;;
          ret (Next (fo_data, hm_data, nm_data))
        else
          say (MsgUnexpectedShape (shape (fo f2))) ;;
          ret Return) ;;
  match r with
  | Return => ret Return
  | Next (fo_data, hm_data, nm_data) =>
      fo_2d <- lift (reshape fo_data (grid_shape w)) ;;
      hm_2d <- lift (reshape hm_data (grid_shape w)) ;;
      nm_2d <- lift (reshape nm_data (grid_shape w)) ;;
      ret (Next (fo_2d, hm_2d, nm_2d))
  end.

(** Lines 128-131 *)
Definition extract_global_handler (f2 : dict) (e : exn)
  : M St (flow (ndarray F * ndarray F * ndarray F)) :=
  say (MsgErrorExtracting e (shape (fo f2))) ;; ret Return.

(** Lines 107-131: the hour's data of the three parameters on the mesh. *)
Definition extract_global (args : Args) (w : World) (f2 : dict)
  : M St (flow (ndarray F * ndarray F * ndarray F)) :=
  try_except (extract_global_body args w f2) (extract_global_handler f2).

(** Lines 134-191, one parameter: the filled contour map and its file. *)
Definition plot_global (args : Args) (name : string) (z : ndarray F) : M St unit :=
  if wants name args then
    call (plt_contourf z) ;;
    call (plt_savefig name) ;;
    say (MsgPlotSaved name)
  else ret tt.

(** [np.trapezoid] where NumPy has it, [np.trapz] otherwise. *)
Definition integration_call (w : World) (y : ndarray F) (axis : nat) (dx : F) : extcall :=
  if np_has_trapezoid w then np_trapezoid y axis dx else np_trapz y axis dx.

Definition integrate (w : World) (y : ndarray F) (axis : nat) (dx : F)
  : M St (ndarray F) :=
  call (integration_call w y axis dx) ;;
  ret (trapezoid y axis dx).

Definition alt_step : Z := (nth 1 aalt 0 - nth 0 aalt 0)%Z.

(** [dx = alt_step * 1000]: the altitude step in metres. *)
Definition alt_dx : F := of_int (alt_step * 1000).

(** Specification side: the TEC in TECU of one column of densities. *)
Definition tecu (samples : list F) : F :=
  fmul (trapz_1d alt_dx samples) (lit 1 (-16)).

(** Lines 197-242: the per-location TEC in TECU. *)
Definition vtec_tec_data (args : Args) (w : World) (edp : ndarray F)
  : M St (ndarray F) :=
  let dx := alt_dx in
  say (MsgEdpShape (shape edp)) ;;
  tec_data <-
    (if ndim edp =? 3 then
       if axis_len edp 1 =? length aalt then
         say (MsgIntegrating 1) ;;
         tec_values <- integrate w edp 1 dx ;;
         lift (getitem tec_values [At (hour args); All])
       else if axis_len edp 2 =? length aalt then
         say (MsgIntegrating 2) ;;
         tec_values <- integrate w edp 2 dx ;;
         lift (getitem tec_values [At (hour args); All])
       else
         say (MsgCannotDetermine (length aalt)) ;;
         raise (ValueError "Cannot determine altitude axis")
     else if ndim edp =? 2 then
       if axis_len edp 1 =? length aalt then integrate w edp 1 dx
       else integrate w edp 0 dx
     else
       say (MsgUnexpectedEdp (shape edp)) ;;
       raise (ValueError "Cannot process EDP data")) ;;
  ret (scale tec_data (lit 1 (-16))).

(** Lines 247-254: make the TEC data fit the mesh. *)
Definition fit_to_grid (w : World) (tec_data : ndarray F) : M St (ndarray F) :=
  if negb (size tec_data =? grid_size w) then
    say (MsgSizeWarning (size tec_data) (grid_size w)) ;;
    if grid_size w <? size tec_data then ret (take (grid_size w) tec_data)
    else raise (ValueError "TEC data too small")
  else ret tec_data.

(** Lines 197-274: the body of the vTEC [try]. *)
Definition vtec_body (args : Args) (w : World) (edp : ndarray F) : M St unit :=
  tec_data <- vtec_tec_data args w edp ;;
  say (MsgTecShape (shape tec_data) (grid_shape w)) ;;
  tec_data <- fit_to_grid w tec_data ;;
  tec_2d <- lift (reshape tec_data (grid_shape w)) ;;
  call (plt_contourf tec_2d) ;;
  call (plt_savefig "vTEC") ;;
  say (MsgPlotSaved "vTEC").

(** Lines 276-277 *)
Definition vtec_handler (e : exn) : M St unit := say (MsgVtecFailed e).

(** Lines 194-277: the vTEC stage. *)
Definition vtec_stage (args : Args) (w : World) (edp : ndarray F) : M St unit :=
  say MsgCalcVtec ;;
  try_except (vtec_body args w edp) vtec_handler.

(** Lines 101-277: the global-plot stage. *)
Definition global_stage (args : Args) (w : World)
    (f2 : dict) (edp : option (ndarray F)) (has_edp : bool) : M St (flow unit) :=
  say MsgCreatingGlobal ;;
  r <- extract_global args w f2 ;;
  match r with
  | Return => ret Return
  | Next (fo_2d, hm_2d, nm_2d) =>
      plot_global args "foF2" fo_2d ;;
      plot_global args "hmF2" hm_2d ;;
      plot_global args "NmF2" nm_2d ;;
      match edp with
      | Some edp' => if vtec args && has_edp then vtec_stage args w edp' else ret tt
      | None => ret tt
      end ;;
      ret (Next tt)
  end.

(** Lines 286-303: the time series of the single location. *)
Definition extract_single (f2 e_peak : dict)
  : M St (ndarray F * ndarray F * ndarray F * ndarray F) :=
  let ix :=
    if ndim (fo f2) =? 2 then [All; At 0]
    else if ndim (fo f2) =? 3 then [All; At 0; At (-1)]
    else [All] in
  fo_time <- lift (getitem (fo f2) ix) ;;
  hm_time <- lift (getitem (hm f2) ix) ;;
  nm_time <- lift (getitem (Nm f2) ix) ;;
  e_nm_time <- lift (getitem (Nm e_peak) ix) ;;
  ret (fo_time, hm_time, nm_time, e_nm_time).

(** Lines 280-342: the single-location stage; no [try] around it. *)
Definition single_stage (f2 e_peak : dict) : M St unit :=
  say MsgCreatingTimeSeries ;;
  '(fo_time, hm_time, nm_time, e_nm_time) <- extract_single f2 e_peak ;;
  call (ax_plot fo_time) ;;
  call (ax_plot hm_time) ;;
  call (ax_plot nm_time) ;;
  call (ax_plot e_nm_time) ;;
  call (plt_savefig "timeseries") ;;
  say (MsgPlotSaved "timeseries").

(** Lines 351-372: the profile at the hour and the time-altitude section. *)
Definition extract_profiles (args : Args) (edp : ndarray F)
  : M St (option (ndarray F) * option (ndarray F)) :=
  if ndim edp =? 3 then
    if axis_len edp 1 =? length aalt then
      p <- lift (getitem edp [At (hour args); All; At 0]) ;;
      c <- lift (getitem edp [All; All; At 0]) ;;
      ret (Some (flatten p), Some (transpose c))
    else if axis_len edp 2 =? length aalt then
      p <- lift (getitem edp [At (hour args); At 0; All]) ;;
      c <- lift (getitem edp [All; At 0; All]) ;;
      ret (Some (flatten p), Some (transpose c))
    else
      say (MsgCannotDetermineProfile (shape edp)) ;;
      ret (None, None)
  else if ndim edp =? 2 then
    if axis_len edp 0 =? length ahr then
      p <- lift (getitem edp [At (hour args); All]) ;;
      ret (Some (flatten p), Some (transpose edp))
    else
      p <- lift (getitem edp [At 0; All]) ;;
      ret (Some (flatten p), None)
  else
    p <- lift (getitem edp [All]) ;;
    ret (Some (flatten p), None).

(** Lines 348-409: the body of the profile [try]. *)
Definition profiles_body (args : Args) (edp : ndarray F) : M St unit :=
  '(density_profile, edp_cross) <- extract_profiles args edp ;;
  match density_profile with
  | Some p => say (MsgDensityShape (shape p)) ;; call (ax_plot p)
  | None => call ax_text
  end ;;
  match edp_cross with
  | Some c =>
      if (1 <? axis_len c 0) && (1 <? axis_len c 1) then call (ax_contourf c)
      else call ax_text
  | None => call ax_text
  end ;;
  call (plt_savefig "profiles") ;;
  say (MsgPlotSaved "profiles").

(** Lines 411-412 *)
Definition profiles_handler (e : exn) : M St unit := say (MsgProfileFailed e).

(** Lines 345-412: the profile stage. *)
Definition profiles_stage (args : Args) (edp : ndarray F) : M St unit :=
  say MsgCreatingProfiles ;;
  try_except (profiles_body args edp) profiles_handler.

(** Lines 98-426: what follows a successful model call. *)
Definition stages (args : Args) (w : World)
    (r : flow (dict * dict * option (ndarray F) * bool)) : M St unit :=
  match r with
  | Return => ret tt
  | Next (f2, e_peak, edp, has_edp) =>
      r' <- (if global_map args then global_stage args w f2 edp has_edp
             else single_stage f2 e_peak ;; ret (Next tt)) ;;
      match r' with
      | Return => ret tt
      | Next _ =>
          match edp with
          | Some edp' =>
              if profiles args && has_edp then profiles_stage args edp' else ret tt
          | None => ret tt
          end ;;
          say MsgListing ;;
          say MsgDone
      end
  end.

(** [main()] *)
Definition main (args : Args) (w : World) : M St unit :=
  say MsgOutputDir ;;
  (if global_map args then say MsgCreatingGrid else ret tt) ;;
  say MsgGridSize ;;
  say MsgRunning ;;
  r <- calculate args w ;;
  stages args w r.

(** One run of the script from an empty terminal. *)
Definition run (args : Args) (w : World) : St * (exn + unit) := main args w [].

(** The figures a run has written, by name. *)
Definition saved (l : St) : list string :=
  flat_map (fun e => match e with Call (plt_savefig n) => [n] | _ => [] end) l.

Definition calls (l : St) : list extcall :=
  flat_map (fun e => match e with Call c => [c] | _ => [] end) l.

Definition printed (l : St) : list message :=
  flat_map (fun e => match e with Print m => [m] | _ => [] end) l.

(** A computation that only adds to the terminal and call log, and what
    it adds satisfies [P]. *)
Definition keeps {A} (P : St -> Prop) (m : M St A) : Prop :=
  forall s, exists l, fst (m s) = s ++ l /\ P l.

(** How often the model was called, and the integrations asked for. *)
Definition model_calls (l : St) : nat := length (filter is_model_call (calls l)).
Definition integrations (l : St) : list extcall := filter is_integration (calls l).

End Script.

Arguments Args : clear implicits.
Arguments message : clear implicits.

End Runner.

(** * The calendar of Python's [datetime] *)

Module Calendar.
Local Open Scope Z_scope.

Definition MINYEAR : Z := 1.
Definition MAXYEAR : Z := 9999.

Definition is_leap (year : Z) : bool :=
  (year mod 4 =? 0) && (negb (year mod 100 =? 0) || (year mod 400 =? 0)).

Definition days_before_year (year : Z) : Z :=
  let y := year - 1 in y * 365 + y / 4 - y / 100 + y / 400.

Definition DAYS_IN_MONTH : list Z := [31; 28; 31; 30; 31; 30; 31; 31; 30; 31; 30; 31].
Definition DAYS_BEFORE_MONTH : list Z :=
  [0; 31; 59; 90; 120; 151; 181; 212; 243; 273; 304; 334].

Definition days_in_month (year month : Z) : Z :=
  if (month =? 2) && is_leap year then 29
  else nth (Z.to_nat (month - 1)) DAYS_IN_MONTH 0.

Definition days_before_month (year month : Z) : Z :=
  nth (Z.to_nat (month - 1)) DAYS_BEFORE_MONTH 0
  + (if (2 <? month) && is_leap year then 1 else 0).

(** The proleptic Gregorian ordinal: 1 January of year 1 is day 1. *)
Definition ymd2ord (year month day : Z) : Z :=
  days_before_year year + days_before_month year month + day.

Definition valid_date (year month day : Z) : bool :=
  (MINYEAR <=? year) && (year <=? MAXYEAR)
  && (1 <=? month) && (month <=? 12)
  && (1 <=? day) && (day <=? days_in_month year month).

(** [datetime(year, month, day)], as its ordinal; ValueError outside the
    calendar.  Differences of dates are differences of ordinals. *)
Definition datetime (year month day : Z) : exn + Z :=
  if valid_date year month day then inr (ymd2ord year month day)
  else inl (ValueError "date out of range").

(** [datetime(year, month, day, hour)] *)
Definition datetime_at (year month day hour : Z) : exn + (Z * Z) :=
  if valid_date year month day && (0 <=? hour) && (hour <=? 23)
  then inr (ymd2ord year month day, hour)
  else inl (ValueError "date or hour out of range").

Definition days_in_year (year : Z) : nat := if is_leap year then 366%nat else 365%nat.

End Calendar.

(** * Strings of the operating system and of [format] *)

Module Text.
Local Open Scope string_scope.

Definition nl : string := String (ascii_of_nat 10) EmptyString.

Fixpoint ends_with_sep (s : string) : bool :=
  match s with
  | EmptyString => false
  | String c EmptyString => Ascii.eqb c "/"
  | String _ s' => ends_with_sep s'
  end.

(** [os.path.join(a, b)] of [posixpath]. *)
Definition os_path_join (a b : string) : string :=
  if String.prefix "/" b then b
  else if (String.eqb a "") || ends_with_sep a then a ++ b
  else a ++ "/" ++ b.

End Text.

(** * Arithmetic instances *)

Module Instances.
Import NumPy.

#[export] Instance R_Arith : Arith R := {
  fzero := 0%R;
  fadd := Rplus;
  fmul := Rmult;
  fdiv := Rdiv;
  of_int := IZR;
  lit m e := (IZR m * powerRZ 10 e)%R
}.

#[export] Instance Q_Arith : Arith Q := {
  fzero := 0%Q;
  fadd := Qplus;
  fmul := Qmult;
  fdiv := Qdiv;
  of_int := inject_Z;
  lit m e := (inject_Z m * Qpower 10 e)%Q
}.

End Instances.

(** * What the two year generators share: cells, events, formatting *)

Module Year.
Import NumPy Py.

(** An entry of a per-day series: what the model gave, or [np.nan]. *)
Inductive cell : Type :=
| NaN
| Val (a : ndarray R).

(** Formatting is Python's: [strftime], [str] and the format
    specifications [.1f], [.2e], [.3e].  The latter refuse an array that
    is not a scalar, so they may raise. *)
Record Format : Type := {
  strftime : Z -> string;
  str_float : R -> string;
  str_int : Z -> string;
  fmt_f1 : R -> string;
  fmt_e : nat -> cell -> exn + string
}.

Inductive message : Type :=
| MsgMonth (month : Z)
| MsgShape (sh : list nat)
| MsgOk
| MsgError (month : Z) (e : exn)
| MsgPlotSaved
| MsgDataSaved (path : string).

Inductive extcall : Type :=
| ml_IRI_density_1day (date : Z) (f107 : R)
| ml_IRI_monthly_mean_par (month : Z)
| ax_fill_between (i : nat)
| ax_plot
| plt_savefig (path : string).

Inductive event : Type :=
| Print (m : message)
| Call (c : extcall)
| FsOpen (path : string)
| FsWrite (path : string) (text : string).

Definition is_model_call (e : event) : bool :=
  match e with
  | Call (ml_IRI_density_1day _ _) | Call (ml_IRI_monthly_mean_par _) => true
  | _ => false
  end.


(** [np.clip(x, lo, hi)] *)
Definition clip (x lo hi : R) : R := Rmin (Rmax x lo) hi.

(** [np.mean] of a list. *)
Definition mean (l : list R) : R := (fold_left Rplus l 0 / INR (length l))%R.

(** [float(x.flatten()[0])], resp. [float(x)] of a NumPy scalar. *)
Definition to_float (a : ndarray R) : exn + R := list_index (data a) 0.

End Year.

(** * pyiri_year_daily.py: the Year Daily Generator *)

Module YearDaily.
Import NumPy Py Calendar Text Year Instances.
Local Open Scope py_scope.

(** The random draws of [np.random], in the order the script asks. *)
Record Rng : Type := {
  choice : nat -> nat -> list nat;    (* np.random.choice(days, n, replace=False) *)
  randint : nat -> nat;               (* the k-th np.random.randint(2, 6) *)
  uniform : nat -> R;                 (* the k-th np.random.uniform(30, 80) *)
  randn : nat -> R                    (* entry t of np.random.randn(days) *)
}.

(** [flares[k] += x] *)
Definition add_at (k : nat) (x : R) (l : list R) : list R :=
  firstn k l ++ match skipn k l with
                | y :: r => (y + x)%R :: r
                | [] => []
                end.

(** Lines 52-54: one flare decaying over [duration] days. *)
Definition flare (days fd duration : nat) (amplitude : R) (flares : list R) : list R :=
  fold_left
    (fun fl i =>
       if fd + i <? days
       then add_at (fd + i) (amplitude * exp (- INR i / 2))%R fl
       else fl)
    (seq 0 duration) flares.

(** Lines 45-54 *)
Definition flares_of (rng : Rng) (days : nat) : list R :=
  let n_flares := days / 30 in
  let flare_days := choice rng days n_flares in
  fold_left
    (fun fl kfd => flare days (snd kfd) (randint rng (fst kfd)) (uniform rng (fst kfd)) fl)
    (combine (seq 0 (length flare_days)) flare_days)
    (repeat 0%R days).

Definition annual (t : nat) : R := (20 * sin (2 * PI * INR t / (36525 / 100)))%R.
Definition rotation (t : nat) : R := (15 * sin (2 * PI * INR t / 27))%R.

(** Line 60, before clipping. *)
Definition f107_raw (rng : Rng) (days t : nat) : R :=
  (110 + annual t + rotation t + nth t (flares_of rng days) 0 + 5 * randn rng t)%R.

(** Lines 23-65.  Dates are ordinals. *)
Definition generate_f107_timeseries (rng : Rng) (year : Z) : exn + (list Z * list R) :=
  match datetime year 1 1, datetime year 12 31 with
  | inr start_date, inr end_date =>
      let days := Z.to_nat (end_date - start_date + 1) in
      let dates := map (fun i => (start_date + Z.of_nat i)%Z) (seq 0 days) in
      let f107 := map (fun t => clip (f107_raw rng days t) 70 250) (seq 0 days) in
      inr (dates, f107)
  | inl e, _ => inl e
  | _, inl e => inl e
  end.

Record Args : Type := {
  year : Z;
  lat : R;
  lon : R;
  hour : Z;
  output : string;
  use_edp : bool
}.

(** The model: the array [f2['Nm']] it returns, or what it raises. *)
Record Model : Type := {
  IRI_density_1day : Z -> R -> exn + ndarray R;
  IRI_monthly_mean_par : Z -> exn + ndarray R
}.

Record St : Type := {
  log : list event;
  nmf2_values : list cell;
  nmf2_min : list cell;
  nmf2_max : list cell
}.

Definition init : St := {| log := []; nmf2_values := []; nmf2_min := []; nmf2_max := [] |}.

Definition emit (e : event) : M St unit :=
  modify (fun s => {| log := log s ++ [e]; nmf2_values := nmf2_values s;
                      nmf2_min := nmf2_min s; nmf2_max := nmf2_max s |}).
Definition say (m : message) : M St unit := emit (Print m).
Definition call (c : extcall) : M St unit := emit (Call c).

(** The three [append]s of one day. *)
Definition append3 (v mn mx : cell) : M St unit :=
  modify (fun s => {| log := log s; nmf2_values := nmf2_values s ++ [v];
                      nmf2_min := nmf2_min s ++ [mn]; nmf2_max := nmf2_max s ++ [mx] |}).

(** Lines 112-117: the indices of the dates in [month_start, month_end). *)
Definition month_days_of (dates : list Z) (month_start month_end : Z) : list nat :=
  map fst
    (filter (fun id => (month_start <=? snd id)%Z && (snd id <? month_end)%Z)
            (combine (seq 0 (length dates)) dates)).

(** Lines 142-145 *)
Definition extract_nm (Nm : ndarray R) : exn + ndarray R :=
  if 2 <=? ndim Nm then getitem Nm [At 0; At 0]
  else if 0 <? ndim Nm then getitem Nm [At 0]
  else inr Nm.

(** Lines 157-169: the monthly value and its bounds. *)
Definition extract_monthly (Nm : ndarray R) : exn + (ndarray R * ndarray R * ndarray R) :=
  if ndim Nm =? 3 then
    match getitem Nm [At 0; At 0; At 1], getitem Nm [At 0; At 0; At 0],
          getitem Nm [At 0; At 0; At (-1)] with
    | inr nm_avg, inr nm_min, inr nm_max => inr (nm_avg, nm_min, nm_max)
    | inl e, _, _ => inl e
    | _, inl e, _ => inl e
    | _, _, inl e => inl e
    end
  else
    match (if ndim Nm =? 2 then getitem Nm [At 0; At 0]
           else if 0 <? ndim Nm then getitem Nm [At 0] else inr Nm) with
    | inr nm_avg => inr (nm_avg, scale nm_avg (7 / 10)%R, scale nm_avg (13 / 10)%R)
    | inl e => inl e
    end.

(** Line 174, before clipping. *)
Definition raw_scale (day_f107 avg_f107 : R) : R :=
  if Rlt_dec 70 avg_f107 then ((day_f107 - 70) / (avg_f107 - 70))%R else 1%R.

(** Lines 174-175 *)
Definition daily_scale (day_f107 avg_f107 : R) : R :=
  clip (raw_scale day_f107 avg_f107) (1 / 2) 2.

(** Lines 132-149: one model call per day of the month. *)
Definition edp_days (model : Model) (dates : list Z) (f107_values : list R)
    (month_days : list nat) : M St unit :=
  for_each month_days (fun day_idx =>
    let day_f107 := nth day_idx f107_values 0%R in
    date <- lift (list_index dates day_idx) ;;
    call (ml_IRI_density_1day date day_f107) ;;
    Nm <- lift (IRI_density_1day model date day_f107) ;;
    nm <- lift (extract_nm Nm) ;;
    append3 (Val nm) (Val (scale nm (8 / 10)%R)) (Val (scale nm (12 / 10)%R))).

(** Lines 152-179: one model call for the month, scaled day by day. *)
Definition monthly_days (model : Model) (month : Z) (f107_values : list R)
    (month_days : list nat) (avg_f107 : R) : M St unit :=
  call (ml_IRI_monthly_mean_par month) ;;
  Nm <- lift (IRI_monthly_mean_par model month) ;;
  r <- lift (extract_monthly Nm) ;;
  let '(nm_avg, nm_min, nm_max) := r in
  for_each month_days (fun day_idx =>
    let day_f107 := nth day_idx f107_values 0%R in
    append3 (Val (scale nm_avg (daily_scale day_f107 avg_f107))) (Val nm_min) (Val nm_max)).

(** Lines 186-189 *)
Definition fill_nan (month_days : list nat) : M St unit :=
  for_each month_days (fun _ => append3 NaN NaN NaN).

(** Lines 103-189: the body of the loop over the months. *)
Definition month_block (args : Args) (model : Model)
    (dates : list Z) (f107_values : list R) (month : Z) : M St unit :=
  say (MsgMonth month) ;;
  month_start <- lift (datetime (year args) month 1) ;;
  month_end <- lift (if (month =? 12)%Z then datetime (year args + 1) 1 1
                     else datetime (year args) (month + 1) 1) ;;
  let month_days := month_days_of dates month_start month_end in
  let month_f107 := map (fun i => nth i f107_values 0%R) month_days in
  match month_days with
  | [] => ret tt
  | _ :: _ =>
      let avg_f107 := mean month_f107 in
      try_except
        ((if use_edp args then edp_days model dates f107_values month_days
          else monthly_days model month f107_values month_days avg_f107) ;;
         say MsgOk)
        (fun e => say (MsgError month e) ;; fill_nan month_days)
  end.

Definition months : list Z := map Z.of_nat (seq 1 12).

(** Lines 102-189 *)
Definition month_loop (args : Args) (model : Model)
    (dates : list Z) (f107_values : list R) : M St unit :=
  for_each months (month_block args model dates f107_values).

Definition isnan (c : cell) : bool := match c with NaN => true | Val _ => false end.

(** Lines 214-233: the coloured bands, one per date but the last. *)
Definition bands (dates : list Z) : M St unit :=
  for_each (seq 0 (length dates - 1)) (fun i =>
    vs <- gets nmf2_values ;;
    v <- lift (list_index vs i) ;;
    if isnan v then ret tt
    else
      mns <- gets nmf2_min ;;
      _ <- lift (list_index mns i) ;;
      mxs <- gets nmf2_max ;;
      _ <- lift (list_index mxs i) ;;
      call (ax_fill_between i)).

Definition location_name (fmt : Format) (args : Args) : string :=
  (str_float fmt (lat args) ++ "N_" ++ str_float fmt (lon args) ++ "E")%string.

Definition suffix (args : Args) : string := if use_edp args then "_daily"%string else ""%string.

Definition csv_name (fmt : Format) (args : Args) : string :=
  ("year_data_" ++ location_name fmt args ++ "_" ++ str_int fmt (year args)
   ++ suffix args ++ ".csv")%string.

Definition plot_name (fmt : Format) (args : Args) : string :=
  ("year_plot_" ++ location_name fmt args ++ "_" ++ str_int fmt (year args)
   ++ suffix args ++ ".png")%string.

Definition csv_path (fmt : Format) (args : Args) : string :=
  os_path_join (output args) (csv_name fmt args).

Definition csv_header : string := ("Date,F107,NmF2,NmF2_Min,NmF2_Max" ++ nl)%string.

(** Lines 282-283: one row. *)
Definition csv_row (fmt : Format) (dates : list Z) (f107_values : list R) (i : nat)
  : M St string :=
  date <- lift (list_index dates i) ;;
  f <- lift (list_index f107_values i) ;;
  vs <- gets nmf2_values ;;
  v <- lift (list_index vs i) ;;
  sv <- lift (fmt_e fmt 3 v) ;;
  mns <- gets nmf2_min ;;
  mn <- lift (list_index mns i) ;;
  smn <- lift (fmt_e fmt 3 mn) ;;
  mxs <- gets nmf2_max ;;
  mx <- lift (list_index mxs i) ;;
  smx <- lift (fmt_e fmt 3 mx) ;;
  ret (strftime fmt date ++ "," ++ fmt_f1 fmt f ++ "," ++ sv ++ "," ++ smn ++ ","
       ++ smx ++ nl)%string.

(** Lines 278-284 *)
Definition write_csv (fmt : Format) (args : Args)
    (dates : list Z) (f107_values : list R) : M St unit :=
  let path := csv_path fmt args in
  emit (FsOpen path) ;;
  emit (FsWrite path csv_header) ;;
  for_each (seq 0 (length dates)) (fun i =>
    row <- csv_row fmt dates f107_values i ;;
    emit (FsWrite path row)) ;;
  say (MsgDataSaved path).

(** [main()] *)
Definition main (fmt : Format) (args : Args) (rng : Rng) (model : Model) : M St unit :=
  df <- lift (generate_f107_timeseries rng (year args)) ;;
  let '(dates, f107_values) := df in
  month_loop args model dates f107_values ;;
  bands dates ;;
  call ax_plot ;;
  call (plt_savefig (os_path_join (output args) (plot_name fmt args))) ;;
  say MsgPlotSaved ;;
  write_csv fmt args dates f107_values.

End YearDaily.

(** * pyiri_year_plot.py: the Year Monthly Generator *)

Module YearPlot.
Import NumPy Py Calendar Text Year Instances.
Local Open Scope py_scope.

Record Args : Type := {
  year : Z;
  lat : R;
  lon : R;
  hour : Z;
  output : string;
  f107_constant : option R
}.

Record Rng : Type := { randn : Z -> R }.    (* the draw of np.random.randn() in a month *)

Record Model : Type := { IRI_monthly_mean_par : Z -> exn + ndarray R }.

(** The five lists of results, and the locals [nm_min_val] and
    [nm_max_val], which stay bound from one month to the next. *)
Record St : Type := {
  log : list event;
  all_dates : list (Z * Z);
  all_f107 : list R;
  all_nmf2 : list cell;
  model_min : list cell;
  model_max : list cell;
  nm_min_val : option (ndarray R);
  nm_max_val : option (ndarray R)
}.

Definition init : St :=
  {| log := []; all_dates := []; all_f107 := []; all_nmf2 := [];
     model_min := []; model_max := []; nm_min_val := None; nm_max_val := None |}.

Definition emit (e : event) : M St unit :=
  modify (fun s => {| log := log s ++ [e]; all_dates := all_dates s; all_f107 := all_f107 s;
                      all_nmf2 := all_nmf2 s; model_min := model_min s;
                      model_max := model_max s; nm_min_val := nm_min_val s;
                      nm_max_val := nm_max_val s |}).
Definition say (m : message) : M St unit := emit (Print m).
Definition call (c : extcall) : M St unit := emit (Call c).

Definition append_date (d : Z * Z) : M St unit :=
  modify (fun s => {| log := log s; all_dates := all_dates s ++ [d]; all_f107 := all_f107 s;
                      all_nmf2 := all_nmf2 s; model_min := model_min s;
                      model_max := model_max s; nm_min_val := nm_min_val s;
                      nm_max_val := nm_max_val s |}).
Definition append_f107 (f : R) : M St unit :=
  modify (fun s => {| log := log s; all_dates := all_dates s; all_f107 := all_f107 s ++ [f];
                      all_nmf2 := all_nmf2 s; model_min := model_min s;
                      model_max := model_max s; nm_min_val := nm_min_val s;
                      nm_max_val := nm_max_val s |}).
Definition append_nmf2 (c : cell) : M St unit :=
  modify (fun s => {| log := log s; all_dates := all_dates s; all_f107 := all_f107 s;
                      all_nmf2 := all_nmf2 s ++ [c]; model_min := model_min s;
                      model_max := model_max s; nm_min_val := nm_min_val s;
                      nm_max_val := nm_max_val s |}).
Definition append_min (c : cell) : M St unit :=
  modify (fun s => {| log := log s; all_dates := all_dates s; all_f107 := all_f107 s;
                      all_nmf2 := all_nmf2 s; model_min := model_min s ++ [c];
                      model_max := model_max s; nm_min_val := nm_min_val s;
                      nm_max_val := nm_max_val s |}).
Definition append_max (c : cell) : M St unit :=
  modify (fun s => {| log := log s; all_dates := all_dates s; all_f107 := all_f107 s;
                      all_nmf2 := all_nmf2 s; model_min := model_min s;
                      model_max := model_max s ++ [c]; nm_min_val := nm_min_val s;
                      nm_max_val := nm_max_val s |}).
Definition set_min_val (a : ndarray R) : M St unit :=
  modify (fun s => {| log := log s; all_dates := all_dates s; all_f107 := all_f107 s;
                      all_nmf2 := all_nmf2 s; model_min := model_min s;
                      model_max := model_max s; nm_min_val := Some a;
                      nm_max_val := nm_max_val s |}).
Definition set_max_val (a : ndarray R) : M St unit :=
  modify (fun s => {| log := log s; all_dates := all_dates s; all_f107 := all_f107 s;
                      all_nmf2 := all_nmf2 s; model_min := model_min s;
                      model_max := model_max s; nm_min_val := nm_min_val s;
                      nm_max_val := Some a |}).

Definition float_cell (x : R) : cell := Val (scalar x).

(** Lines 93-98 *)
Definition month_f107_of (args : Args) (rng : Rng) (month : Z) : R :=
  let varying :=
    clip (110 + 30 * sin (2 * PI * IZR (month - 1) / 12) + 10 * randn rng month)%R 70 200 in
  match f107_constant args with
  | Some c => if Req_dec_T c 0 then varying else c
  | None => varying
  end.

(** Lines 108-129: [nm_data], and the bounds where the branch binds them. *)
Definition extract (Nm : ndarray R) : M St (ndarray R) :=
  let nm_shape := shape Nm in
  say (MsgShape nm_shape) ;;
  if length nm_shape =? 3 then
    nm_data <- lift (if 1 <? nth 2 nm_shape 0 then getitem Nm [At 0; At 0; At 1]
                     else getitem Nm [At 0; At 0; At 0]) ;;
    mn <- lift (getitem Nm [At 0; At 0; At 0]) ;;
    set_min_val mn ;;
    mx <- lift (if 1 <? nth 2 nm_shape 0 then getitem Nm [At 0; At 0; At (-1)]
                else inr (scale nm_data (13 / 10)%R)) ;;
    set_max_val mx ;;
    ret nm_data
  else if length nm_shape =? 2 then
    if nth 1 nm_shape 0 =? 1 then lift (getitem Nm [At 0; At 0])
    else
      nm_data <- lift (if 1 <? nth 1 nm_shape 0 then getitem Nm [At 0; At 1]
                       else getitem Nm [At 0; At 0]) ;;
      mn <- lift (getitem Nm [At 0; At 0]) ;;
      set_min_val mn ;;
      mx <- lift (if 1 <? nth 1 nm_shape 0 then getitem Nm [At 0; At (-1)]
                  else inr (scale nm_data (13 / 10)%R)) ;;
      set_max_val mx ;;
      ret nm_data
  else
    nm_data <- lift (if 0 <? length nm_shape then getitem Nm [At 0] else inr Nm) ;;
    set_min_val (scale nm_data (7 / 10)%R) ;;
    set_max_val (scale nm_data (13 / 10)%R) ;;
    ret nm_data.

(** Lines 133-155: what one day stores. *)
Definition store_day (args : Args) (month : Z) (month_f107 : R) (nm_data : ndarray R)
    (day : Z) : M St unit :=
  date <- lift (datetime_at (year args) month day (hour args)) ;;
  append_date date ;;
  append_f107 month_f107 ;;
  x <- lift (to_float nm_data) ;;
  append_nmf2 (float_cell x) ;;
  mn <- gets nm_min_val ;;
  mx <- gets nm_max_val ;;
  match mn, mx with
  | Some a, Some b =>
      lo <- lift (to_float a) ;;
      append_min (float_cell lo) ;;
      hi <- lift (to_float b) ;;
      append_max (float_cell hi)
  | _, _ =>
      append_min (float_cell (x * (7 / 10))%R) ;;
      append_max (float_cell (x * (13 / 10))%R)
  end.

(** Lines 160-166: what one day of a failed month stores. *)
Definition store_nan (args : Args) (month : Z) (month_f107 : R) (day : Z) : M St unit :=
  date <- lift (datetime_at (year args) month day (hour args)) ;;
  append_date date ;;
  append_f107 month_f107 ;;
  append_nmf2 NaN ;;
  append_min NaN ;;
  append_max NaN.

Definition days_of (days_in_month : Z) : list Z :=
  map Z.of_nat (seq 1 (Z.to_nat days_in_month)).

(** Lines 80-166: the body of the loop over the months. *)
Definition month_block (args : Args) (rng : Rng) (model : Model) (month : Z) : M St unit :=
  say (MsgMonth month) ;;
  next_month <- lift (if (month =? 12)%Z then datetime (year args + 1) 1 1
                      else datetime (year args) (month + 1) 1) ;;
  this_month <- lift (datetime (year args) month 1) ;;
  let days_in_month := (next_month - this_month)%Z in
  let month_f107 := month_f107_of args rng month in
  try_except
    (call (ml_IRI_monthly_mean_par month) ;;
     Nm <- lift (IRI_monthly_mean_par model month) ;;
     nm_data <- extract Nm ;;
     for_each (days_of days_in_month) (store_day args month month_f107 nm_data))
    (fun e =>
       say (MsgError month e) ;;
       for_each (days_of days_in_month) (store_nan args month month_f107)).

Definition months : list Z := map Z.of_nat (seq 1 12).

Definition month_loop (args : Args) (rng : Rng) (model : Model) : M St unit :=
  for_each months (month_block args rng model).

Definition location_name (fmt : Format) (args : Args) : string :=
  (str_float fmt (lat args) ++ "N_" ++ str_float fmt (lon args) ++ "E")%string.

Definition plot_name (fmt : Format) (args : Args) : string :=
  ("year_plot_" ++ location_name fmt args ++ "_" ++ str_int fmt (year args) ++ ".png")%string.

Definition csv_name (fmt : Format) (args : Args) : string :=
  ("year_data_" ++ location_name fmt args ++ "_" ++ str_int fmt (year args) ++ ".csv")%string.

Definition csv_path (fmt : Format) (args : Args) : string :=
  os_path_join (output args) (csv_name fmt args).

Definition csv_header : string := ("Date,F107,NmF2,Model_Min,Model_Max" ++ nl)%string.

(** Lines 238-239: one row. *)
Definition csv_row (fmt : Format) (i : nat) : M St string :=
  ds <- gets all_dates ;;
  date <- lift (list_index ds i) ;;
  fs <- gets all_f107 ;;
  f <- lift (list_index fs i) ;;
  vs <- gets all_nmf2 ;;
  v <- lift (list_index vs i) ;;
  sv <- lift (fmt_e fmt 2 v) ;;
  mns <- gets model_min ;;
  mn <- lift (list_index mns i) ;;
  smn <- lift (fmt_e fmt 2 mn) ;;
  mxs <- gets model_max ;;
  mx <- lift (list_index mxs i) ;;
  smx <- lift (fmt_e fmt 2 mx) ;;
  ret (strftime fmt (fst date) ++ "," ++ fmt_f1 fmt f ++ "," ++ sv ++ "," ++ smn ++ ","
       ++ smx ++ nl)%string.

(** Lines 234-240 *)
Definition write_csv (fmt : Format) (args : Args) : M St unit :=
  let path := csv_path fmt args in
  emit (FsOpen path) ;;
  emit (FsWrite path csv_header) ;;
  ds <- gets all_dates ;;
  for_each (seq 0 (length ds)) (fun i =>
    row <- csv_row fmt i ;;
    emit (FsWrite path row)) ;;
  say (MsgDataSaved path).

(** Lines 183-204: the two panels; [model_min[0]] and [model_max[0]] are read. *)
Definition plot (fmt : Format) (args : Args) : M St unit :=
  mns <- gets model_min ;;
  _ <- lift (list_index mns 0) ;;
  mxs <- gets model_max ;;
  _ <- lift (list_index mxs 0) ;;
  call ax_plot ;;
  call (plt_savefig (os_path_join (output args) (plot_name fmt args))) ;;
  say MsgPlotSaved.

(** [main()] *)
Definition main (fmt : Format) (args : Args) (rng : Rng) (model : Model) : M St unit :=
  month_loop args rng model ;;
  plot fmt args ;;
  write_csv fmt args.

End YearPlot.

(** * Concrete inputs used by the examples below *)

Module Examples.
Import NumPy Runner Instances.

Definition qs (zs : list Z) : list Q := map inject_Z zs.








(** A model answer on a 2 x 2 mesh, two hours. *)
Definition two_by_four : ndarray Q := mk_nd [2; 4] (qs [1; 2; 3; 4; 5; 6; 7; 8]%Z).

Definition f2_global : dict := {| fo := two_by_four; hm := two_by_four; Nm := two_by_four |}.

Definition args_global : Args :=
  {| global_map := true; hour := 1; parameters := ["all"%string];
     daily := false; profiles := false; vtec := true |}.

(** A density array with two axes, neither as long as [aalt]. *)
Definition edp_cols : ndarray Q :=
  mk_nd [3; 4] (qs [1; 2; 3; 4; 5; 6; 7; 8; 9; 10; 11; 12]%Z).


(** A density array as the model gives it: [time, altitude, location]. *)
Definition edp_day : ndarray Q := mk_nd [2; 95; 4] (qs (map Z.of_nat (seq 0 760))).

Definition world_of (edp : ndarray Q) (g : nat * nat) : World :=
  {| IRI_density_1day := inr (f2_global, f2_global, edp);
     IRI_monthly_mean_par := inr (f2_global, f2_global);
     np_has_trapezoid := true;
     grid := g |}.


End Examples.

Module YearExamples.
Import NumPy Year.

(** Draws of the random generator: a flare on each of the first days of
    the year, three days long, amplitude 50, and no daily noise. *)
Definition calm_rng : YearDaily.Rng :=
  {| YearDaily.choice := fun _ n => seq 0 n;
     YearDaily.randint := fun _ => 3;
     YearDaily.uniform := fun _ => 50%R;
     YearDaily.randn := fun _ => 0%R |}.

(** A run of the Year Daily Generator with [--use-edp]. *)
Definition edp_args (y : Z) : YearDaily.Args :=
  {| YearDaily.year := y; YearDaily.lat := 40%R; YearDaily.lon := (-100)%R;
     YearDaily.hour := 12; YearDaily.output := "/app/output";
     YearDaily.use_edp := true |}.

(** A model that raises on 2 January of the year and works on every
    other day. *)
Definition fails_on_jan_2 (y : Z) : YearDaily.Model :=
  {| YearDaily.IRI_density_1day :=
       fun date _ =>
         if (date =? Calendar.ymd2ord y 1 2)%Z then inl (ModelError "no convergence")
         else inr (mk_nd [1; 1] [1%R]);
     YearDaily.IRI_monthly_mean_par := fun _ => inr (mk_nd [1; 1; 2] [1%R; 2%R]) |}.

(** A run of the Year Monthly Generator with its defaults. *)
Definition plot_args : YearPlot.Args :=
  {| YearPlot.year := 2022; YearPlot.lat := 40%R; YearPlot.lon := (-100)%R;
     YearPlot.hour := 12; YearPlot.output := "/app/output";
     YearPlot.f107_constant := None |}.

Definition still_rng : YearPlot.Rng := {| YearPlot.randn := fun _ => 0%R |}.

(** A model whose [f2['Nm']] is [[[1, 2, 4]]] in every month: minimum 1,
    mean 2, maximum 4 over the solar levels. *)
Definition Nm_levels : ndarray R := mk_nd [1; 1; 3] [1%R; 2%R; 4%R].

Definition levels_model : YearPlot.Model :=
  {| YearPlot.IRI_monthly_mean_par := fun _ => inr Nm_levels |}.

(** A formatter that writes every field as one letter. *)
Definition letters : Format :=
  {| strftime := fun _ => "d"%string; str_float := fun _ => "x"%string;
     str_int := fun _ => "y"%string; fmt_f1 := fun _ => "f"%string;
     fmt_e := fun _ _ => inr "e"%string |}.



(** A model whose [f2['Nm']] is [[5]]: one hour, one column. *)
Definition Nm_column : ndarray R := mk_nd [1; 1] [5%R].

Definition column_model : YearPlot.Model :=
  {| YearPlot.IRI_monthly_mean_par := fun _ => inr Nm_column |}.

(** The same single level on three axes, for the Year Monthly Generator. *)
Definition one_level_plot_model : YearPlot.Model :=
  {| YearPlot.IRI_monthly_mean_par := fun _ => inr (mk_nd [1; 1; 1] [3%R]) |}.

(** A run with [--f107-constant 150]. *)
Definition constant_args : YearPlot.Args :=
  {| YearPlot.year := 2022; YearPlot.lat := 40%R; YearPlot.lon := (-100)%R;
     YearPlot.hour := 12; YearPlot.output := "/app/output";
     YearPlot.f107_constant := Some 150%R |}.

(** The last year of [datetime], in each generator. *)
Definition plot_args_9999 : YearPlot.Args :=
  {| YearPlot.year := 9999; YearPlot.lat := 40%R; YearPlot.lon := (-100)%R;
     YearPlot.hour := 12; YearPlot.output := "/app/output";
     YearPlot.f107_constant := None |}.

(** A run of the Year Daily Generator without [--use-edp]. *)
Definition monthly_args (y : Z) : YearDaily.Args :=
  {| YearDaily.year := y; YearDaily.lat := 40%R; YearDaily.lon := (-100)%R;
     YearDaily.hour := 12; YearDaily.output := "/app/output";
     YearDaily.use_edp := false |}.

(** A model whose [f2['Nm']] has one solar level only. *)
Definition Nm_one_level : ndarray R := mk_nd [1; 1; 1] [3%R].

Definition one_level_model : YearDaily.Model :=
  {| YearDaily.IRI_density_1day := fun _ _ => inr Nm_one_level;
     YearDaily.IRI_monthly_mean_par := fun _ => inr Nm_one_level |}.


End YearExamples.

(** * More of the scripts: the mesh of the runner, the bands of the year plot *)

Module RunnerGrid.
Import NumPy.
Local Open Scope Z_scope.

(** Lines 47-48 of [pyiri_runner.py], for a resolution of a whole number
    of degrees: [np.arange(-180, 180, dlon)] and
    [np.arange(-90, 90 + dlat, dlat)]. *)
Definition lons (resolution : Z) : list Z := arange (-180) 180 resolution.
Definition lats (resolution : Z) : list Z := arange (-90) (90 + resolution) resolution.

(** [np.meshgrid(xs, ys)]: two arrays of shape [(len(ys), len(xs))]; the
    first repeats [xs] in every row, the second holds [ys[i]] all along
    row [i]. *)
Definition meshgrid (xs ys : list Z) : ndarray Z * ndarray Z :=
  (mk_nd [length ys; length xs] (flat_map (fun _ => xs) ys),
   mk_nd [length ys; length xs] (flat_map (fun y => repeat y (length xs)) ys)).

(** Lines 49-51 *)
Definition alon_2d (resolution : Z) : ndarray Z :=
  fst (meshgrid (lons resolution) (lats resolution)).
Definition alat_2d (resolution : Z) : ndarray Z :=
  snd (meshgrid (lons resolution) (lats resolution)).
Definition alon (resolution : Z) : ndarray Z := flatten (alon_2d resolution).
Definition alat (resolution : Z) : ndarray Z := flatten (alat_2d resolution).

(** [alon_2d.shape], as a pair. *)
Definition grid_of (resolution : Z) : nat * nat :=
  (length (lats resolution), length (lons resolution)).

End RunnerGrid.

Module YearDailyBands.
Local Open Scope R_scope.



End YearDailyBands.

(** * Notions used to state the properties *)

Module CalendarNotions.
Import Calendar.
Local Open Scope Z_scope.

(** The first day of the month after [month], as the scripts compute it. *)
Definition next_month_start (year month : Z) : exn + Z :=
  if month =? 12 then datetime (year + 1) 1 1 else datetime year (month + 1) 1.

Local Close Scope Z_scope.

(** The dates of a year, as [generate_f107_timeseries] lists them. *)
Definition dates_of (y : Z) : list Z :=
  map (fun i => (ymd2ord y 1 1 + Z.of_nat i)%Z) (seq 0 (days_in_year y)).

(** Index of the first day of a month in the year, and its length. *)
Definition month_off (y month : Z) : nat := Z.to_nat (ymd2ord y month 1 - ymd2ord y 1 1).
Definition month_len (y month : Z) : nat := Z.to_nat (days_in_month y month).

End CalendarNotions.

Module RunnerNotions.
Import NumPy Py Runner.

Section Logs.
Context {F : Type} {AF : Arith F}.

(** What a run leaves in the log. *)
Definition no_model_call (l : @St F) : Prop := model_calls l = 0.
Definition one_model_call (l : @St F) : Prop :=
  model_calls l = 1 /\ integrations l = [] /\ saved l = [].
Definition no_integration (l : @St F) : Prop := integrations l = [].

(** The vTEC figure is in the log only after an integration call. *)
Definition plots_after_integrating (l : @St F) : Prop :=
  In "vTEC"%string (saved l) -> integrations l <> [].

(** What the flags of a run ask for, figure by figure. *)
Definition asked (args : Args) (n : string) : Prop :=
  (global_map args = true /\ wants n args = true
   /\ (n = "foF2" \/ n = "hmF2" \/ n = "NmF2")%string)
  \/ (global_map args = true /\ vtec args = true /\ n = "vTEC"%string)
  \/ (global_map args = false /\ n = "timeseries"%string)
  \/ (profiles args = true /\ n = "profiles"%string).

(** Every figure in the log was asked for. *)
Definition saves_only_asked (args : Args) (l : @St F) : Prop :=
  forall n, In n (saved l) -> asked args n.


End Logs.

End RunnerNotions.

Module YearDailyNotions.
Import NumPy Py Calendar Year YearDaily Instances CalendarNotions.

(** The three series have each grown by [n] entries. *)
Definition grown (n : nat) (st st' : St) : Prop :=
  length (nmf2_values st') = length (nmf2_values st) + n
  /\ length (nmf2_min st') = length (nmf2_min st) + n
  /\ length (nmf2_max st') = length (nmf2_max st) + n.

(** The series of two states are the same lists. *)
Definition same_series (st st' : St) : Prop :=
  nmf2_values st' = nmf2_values st /\ nmf2_min st' = nmf2_min st
  /\ nmf2_max st' = nmf2_max st.

(** The day [i] of the year passes the model call and the extraction. *)
Definition day_ok (model : Model) (dates : list Z) (f107_values : list R) (i : nat) : bool :=
  match list_index dates i with
  | inr date =>
      match IRI_density_1day model date (nth i f107_values 0%R) with
      | inr Nm => match extract_nm Nm with inr _ => true | inl _ => false end
      | inl _ => false
      end
  | inl _ => false
  end.

(** Lines 133-149, one day. *)
Definition edp_day (model : Model) (dates : list Z) (f107_values : list R) (day_idx : nat)
  : M St unit :=
  let day_f107 := nth day_idx f107_values 0%R in
  bind (lift (list_index dates day_idx)) (fun date =>
  bind (call (ml_IRI_density_1day date day_f107)) (fun _ =>
  bind (lift (IRI_density_1day model date day_f107)) (fun Nm =>
  bind (lift (extract_nm Nm)) (fun nm =>
  append3 (Val nm) (Val (scale nm (8 / 10)%R)) (Val (scale nm (12 / 10)%R)))))).

(** Lines 125-181, the [try] part of a month, on the days [days]. *)
Definition month_work (args : Args) (model : Model) (f107_values : list R) (month : Z)
    (days : list nat) : M St unit :=
  bind (if use_edp args then edp_days model (dates_of (year args)) f107_values days
        else monthly_days model month f107_values days
               (mean (map (fun i => nth i f107_values 0%R) days)))
       (fun _ => say MsgOk).

(** Lines 183-189, the [except] part. *)
Definition month_except (month : Z) (days : list nat) (e : exn) : M St unit :=
  bind (say (MsgError month e)) (fun _ => fill_nan days).

(** What [month_block] is once the dates of the month are found. *)
Definition month_try (args : Args) (model : Model) (f107_values : list R) (month : Z)
  : M St unit :=
  let days := seq (month_off (year args) month) (month_len (year args) month) in
  try_except (month_work args model f107_values month days) (month_except month days).

(** What each month adds when the model raises on 2 January under
    [--use-edp]: January leaves the entries of 1 January in place and
    then adds one NaN for each of its 31 days. *)
Definition entries_when_jan_2_fails (y month : Z) : nat :=
  if (month =? 1)%Z then 1 + month_len y month else month_len y month.

(** Lines 105-117: the indices in [dates] of the days of a month. *)
Definition month_indices (y month : Z) : exn + list nat :=
  match datetime y month 1, next_month_start y month with
  | inr month_start, inr month_end =>
      inr (month_days_of (dates_of y) month_start month_end)
  | inl e, _ => inl e
  | _, inl e => inl e
  end.

End YearDailyNotions.

Module YearPlotNotions.
Import NumPy Py Calendar Year YearPlot Instances CalendarNotions.

(** Between two states: the dates [ds] were appended, and with each of
    them the flux [f] and the cells [v], [mn], [mx]. *)
Definition stored (ds : list (Z * Z)) (f : R) (v mn mx : cell) (st st' : St) : Prop :=
  all_dates st' = all_dates st ++ ds
  /\ all_f107 st' = all_f107 st ++ repeat f (length ds)
  /\ all_nmf2 st' = all_nmf2 st ++ repeat v (length ds)
  /\ model_min st' = model_min st ++ repeat mn (length ds)
  /\ model_max st' = model_max st ++ repeat mx (length ds).

(** The five lists are as they were. *)
Definition same_series (st st' : St) : Prop :=
  all_dates st' = all_dates st /\ all_f107 st' = all_f107 st
  /\ all_nmf2 st' = all_nmf2 st /\ model_min st' = model_min st
  /\ model_max st' = model_max st.

(** The bound locals are as they were. *)
Definition same_locals (st st' : St) : Prop :=
  nm_min_val st' = nm_min_val st /\ nm_max_val st' = nm_max_val st.

(** The entry of [all_nmf2] that a day stores from [nm_data]. *)
Definition value_cell (nm_data : ndarray R) : cell :=
  match to_float nm_data with
  | inr x => float_cell x
  | inl _ => NaN
  end.

(** The two bound cells of a day, lines 144-155: from the locals when
    both are bound, from the value otherwise. *)
Definition day_cells (x : R) (mn mx : option (ndarray R)) : option (cell * cell) :=
  match mn, mx with
  | Some a, Some b =>
      match to_float a, to_float b with
      | inr lo, inr hi => Some (float_cell lo, float_cell hi)
      | _, _ => None
      end
  | _, _ => Some (float_cell (x * (7 / 10))%R, float_cell (x * (13 / 10))%R)
  end.

(** The dates of the days [l] of a month, at the hour asked for. *)
Definition stamps (args : Args) (month : Z) (l : list Z) : list (Z * Z) :=
  map (fun day => (ymd2ord (year args) month day, hour args)) l.

(** Lines 100-155, the [try] part of a month. *)
Definition month_body (args : Args) (rng : Rng) (model : Model) (month : Z) : M St unit :=
  bind (call (ml_IRI_monthly_mean_par month)) (fun _ =>
  bind (lift (IRI_monthly_mean_par model month)) (fun Nm =>
  bind (extract Nm) (fun nm_data =>
  for_each (days_of (days_in_month (year args) month))
    (store_day args month (month_f107_of args rng month) nm_data)))).

(** Lines 157-166, the [except] part. *)
Definition month_handler (args : Args) (rng : Rng) (month : Z) (e : exn) : M St unit :=
  bind (say (MsgError month e)) (fun _ =>
  for_each (days_of (days_in_month (year args) month))
    (store_nan args month (month_f107_of args rng month))).

(** Lines 100-166: the [try] statement of a month. *)
Definition month_try (args : Args) (rng : Rng) (model : Model) (month : Z) : M St unit :=
  try_except (month_body args rng model month) (month_handler args rng month).

(** The lists never overtake one another: [all_f107] is as long as
    [all_dates], and [all_nmf2], [model_min] and [model_max] follow in
    this order, none longer than the one before. *)
Definition in_step (st : St) : Prop :=
  length (all_f107 st) = length (all_dates st)
  /\ length (all_nmf2 st) <= length (all_dates st)
  /\ length (model_min st) <= length (all_nmf2 st)
  /\ length (model_max st) <= length (model_min st).

(** A computation that keeps a property of the state, however it ends. *)
Definition preserves {A} (I : St -> Prop) (m : M St A) : Prop :=
  forall st, I st -> I (fst (m st)).

(** The model's answer for a month holds the three levels [lo], [x] and
    [hi] at its first hour and location. *)
Definition levels (model : Model) (month : Z) (x lo hi : R) : Prop :=
  exists (Nm nm_data a b : ndarray R) (s0 s1 s2 : nat),
    IRI_monthly_mean_par model month = inr Nm
    /\ shape Nm = [s0; s1; s2] /\ 1 < s2
    /\ getitem Nm [At 0; At 0; At 1] = inr nm_data
    /\ getitem Nm [At 0; At 0; At 0] = inr a
    /\ getitem Nm [At 0; At 0; At (-1)] = inr b
    /\ to_float nm_data = inr x /\ to_float a = inr lo /\ to_float b = inr hi.

(** A computation whose end state is related to its start state,
    however it ends. *)
Definition follows {A} (Rl : St -> St -> Prop) (m : M St A) : Prop :=
  forall st, Rl st (fst (m st)).

(** [all_f107] has only got copies of [f] appended. *)
Definition only_f107 (f : R) (st st' : St) : Prop :=
  exists k, all_f107 st' = all_f107 st ++ repeat f k.

(** The days of a year at the hour asked for, as [all_dates] holds them. *)
Definition year_stamps (args : Args) : list (Z * Z) :=
  map (fun i => ((ymd2ord (year args) 1 1 + Z.of_nat i)%Z, hour args))
      (seq 0 (days_in_year (year args))).

End YearPlotNotions.

Module YearCsvNotions.
Import Year.


End YearCsvNotions.

(** * Facts about arrays *)

Module NumPyFacts.
Import NumPy.

Section Blocks.
Context {F : Type}.
Implicit Types (d : list F) (sh : list nat).

Lemma nth_block i p j d (d0 : F) :
  j < p -> nth j (block i p d) d0 = nth (i * p + j) d d0.
Proof.
  intros Hj. unfold block.
  rewrite nth_firstn.
  destruct (Nat.ltb_spec j p); [| lia].
  now rewrite nth_skipn.
Qed.

Lemma length_block i p d :
  (S i) * p <= length d -> length (block i p d) = p.
Proof.
  intros H. unfold block. rewrite length_firstn, length_skipn. simpl in H. lia.
Qed.

Lemma length_block_le i p d : length (block i p d) <= p.
Proof. unfold block. rewrite length_firstn. lia. Qed.

Lemma length_chunks (f : nat -> list F) q n s :
  (forall i, s <= i < s + n -> length (f i) = q) ->
  length (flat_map f (seq s n)) = n * q.
Proof.
  revert s. induction n as [| n IH]; intros s Hf; simpl; [reflexivity |].
  rewrite length_app, IH, Hf; try lia.
  intros i Hi. apply Hf. lia.
Qed.

Lemma nth_chunks (f : nat -> list F) q n s i o (d0 : F) :
  (forall k, s <= k < s + n -> length (f k) = q) ->
  i < n -> o < q ->
  nth (i * q + o) (flat_map f (seq s n)) d0 = nth o (f (s + i)) d0.
Proof.
  revert s i. induction n as [| n IH]; intros s i Hf Hi Ho; [lia |].
  simpl. destruct i as [| i].
  - rewrite app_nth1 by (rewrite Hf; lia).
    simpl. now rewrite Nat.add_0_r.
  - rewrite app_nth2 by (rewrite Hf; lia).
    rewrite Hf by lia.
    replace (S i * q + o - q) with (i * q + o) by lia.
    rewrite IH; try lia.
    + f_equal. f_equal. lia.
    + intros k Hk. apply Hf. lia.
Qed.

Lemma offset_lt sh ix : valid ix sh -> offset sh ix < prod_shape sh.
Proof.
  intros H. induction H as [| i n ix sh Hi _ IH]; simpl; [lia |].
  nia.
Qed.

Lemma block_whole d p : length d = p -> block 0 p d = d.
Proof.
  intros H. unfold block. simpl. apply firstn_all2. lia.
Qed.

End Blocks.

Section Indexing.
Context {F : Type}.
Implicit Types (d : list F) (sh : list nat).

Lemma norm_index_lt z n i : norm_index z n = Some i -> i < n.
Proof.
  unfold norm_index.
  destruct ((0 <=? z) && (z <? Z.of_nat n))%Z eqn:E1.
  - intros [= <-]. apply andb_prop in E1 as [A B]. lia.
  - destruct ((- Z.of_nat n <=? z) && (z <? 0))%Z eqn:E2; [| discriminate].
    intros [= <-]. apply andb_prop in E2 as [A B]. lia.
Qed.



Lemma norm_index_none z n :
  norm_index z n = None <-> (z < - Z.of_nat n \/ Z.of_nat n <= z)%Z.
Proof.
  unfold norm_index.
  destruct ((0 <=? z) && (z <? Z.of_nat n))%Z eqn:E1.
  - apply andb_prop in E1 as [A B]. split; [discriminate | lia].
  - destruct ((- Z.of_nat n <=? z) && (z <? 0))%Z eqn:E2.
    + apply andb_prop in E2 as [A B]. split; [discriminate | lia].
    + split; [intros _ | reflexivity].
      apply andb_false_iff in E1, E2. lia.
Qed.

Lemma source_valid ix : forall sh sh' jx,
  getitem_shape sh ix = Some sh' -> valid jx sh' -> valid (source sh ix jx) sh.
Proof.
  induction ix as [| [z |] ix IH]; intros sh sh' jx Hs Hv.
  - simpl in *. now injection Hs as <-.
  - destruct sh as [| n sh]; [discriminate |]. simpl in *.
    destruct (norm_index z n) as [i |] eqn:E; [| discriminate].
    constructor; [now apply norm_index_lt in E | eapply IH; eassumption].
  - destruct sh as [| n sh]; [discriminate |]. simpl in *.
    destruct (getitem_shape sh ix) as [sh0 |] eqn:E; [| discriminate].
    injection Hs as <-. inversion Hv; subst.
    constructor; [assumption | eapply IH; eassumption].
Qed.

Lemma length_getitem_data ix : forall sh sh' d,
  getitem_shape sh ix = Some sh' -> length d = prod_shape sh ->
  length (getitem_data sh ix d) = prod_shape sh'.
Proof.
  induction ix as [| [z |] ix IH]; intros sh sh' d Hs Hd.
  - simpl in *. now injection Hs as <-.
  - destruct sh as [| n sh]; [discriminate |]. simpl in *.
    destruct (norm_index z n) as [i |] eqn:E; [| discriminate].
    apply IH; [assumption |]. apply length_block.
    apply norm_index_lt in E. rewrite Hd. nia.
  - destruct sh as [| n sh]; [discriminate |]. simpl in *.
    destruct (getitem_shape sh ix) as [sh0 |] eqn:E; [| discriminate].
    injection Hs as <-. simpl.
    apply length_chunks. intros i Hi.
    apply IH; [assumption |]. apply length_block. rewrite Hd. nia.
Qed.

(** Indexing picks the elements of the source positions. *)
Lemma nth_getitem_data (d0 : F) ix : forall sh sh' d jx,
  getitem_shape sh ix = Some sh' -> length d = prod_shape sh -> valid jx sh' ->
  nth (offset sh' jx) (getitem_data sh ix d) d0
  = nth (offset sh (source sh ix jx)) d d0.
Proof.
  induction ix as [| [z |] ix IH]; intros sh sh' d jx Hs Hd Hv.
  - simpl in *. now injection Hs as <-.
  - destruct sh as [| n sh]; [discriminate |]. simpl in *.
    destruct (norm_index z n) as [i |] eqn:E; [| discriminate].
    pose proof (norm_index_lt _ _ E) as Hi.
    rewrite (IH sh sh' _ jx); try assumption.
    + apply nth_block. apply offset_lt. eapply source_valid; eauto.
    + apply length_block. rewrite Hd. nia.
  - destruct sh as [| n sh]; [discriminate |]. simpl in *.
    destruct (getitem_shape sh ix) as [sh0 |] eqn:E; [| discriminate].
    injection Hs as <-. inversion Hv as [| j n' jx' sh0' Hj Hv']; subst.
    simpl.
    rewrite (nth_chunks _ (q := prod_shape sh0)); try assumption.
    + simpl. rewrite (IH sh sh0 _ jx'); try assumption.
      * apply nth_block. apply offset_lt. eapply source_valid; eauto.
      * apply length_block. rewrite Hd. nia.
    + intros k Hk. eapply length_getitem_data; eauto.
      apply length_block. rewrite Hd. nia.
    + now apply offset_lt.
Qed.

End Indexing.

End NumPyFacts.

Module TrapezoidFacts.
Import NumPy NumPyFacts.

Section Trapezoid.
Context {F : Type} {AF : Arith F}.
Implicit Types (d u v : list F) (sh : list nat).

Lemma length_map2 (f : F -> F -> F) u v :
  length (map2 f u v) = Nat.min (length u) (length v).
Proof.
  revert v. induction u as [| x u IH]; intros [| y v]; simpl; auto.
Qed.

Lemma nth_map2 (f : F -> F -> F) u v o (d0 : F) :
  o < length u -> o < length v ->
  nth o (map2 f u v) d0 = f (nth o u d0) (nth o v d0).
Proof.
  revert v o. induction u as [| x u IH]; intros [| y v] [| o]; simpl; intros; try lia; auto.
  apply IH; lia.
Qed.

Lemma length_fold_map2 p (bs : list (list F)) : forall b,
  length b = p -> Forall (fun b' => length b' = p) bs ->
  length (fold_left (map2 fadd) bs b) = p.
Proof.
  induction bs as [| c bs IH]; intros b Hb Hbs; simpl; [assumption |].
  inversion Hbs; subst. apply IH; [| assumption].
  rewrite length_map2. lia.
Qed.

Lemma nth_fold_map2 p o (bs : list (list F)) : forall b,
  o < p -> length b = p -> Forall (fun b' => length b' = p) bs ->
  nth o (fold_left (map2 fadd) bs b) fzero
  = fold_left fadd (map (fun b' => nth o b' fzero) bs) (nth o b fzero).
Proof.
  induction bs as [| c bs IH]; intros b Ho Hb Hbs; simpl; [reflexivity |].
  inversion Hbs; subst.
  rewrite IH; try assumption.
  - rewrite nth_map2 by lia. reflexivity.
  - rewrite length_map2. lia.
Qed.

Lemma length_add_reduce_blocks p (bs : list (list F)) :
  Forall (fun b => length b = p) bs -> length (add_reduce_blocks p bs) = p.
Proof.
  intros H. destruct bs as [| b bs]; simpl.
  - apply repeat_length.
  - inversion H; subst. now apply length_fold_map2.
Qed.

Lemma nth_add_reduce_blocks p o (bs : list (list F)) :
  o < p -> Forall (fun b => length b = p) bs ->
  nth o (add_reduce_blocks p bs) fzero = add_reduce (map (fun b => nth o b fzero) bs).
Proof.
  intros Ho H. destruct bs as [| b bs]; simpl.
  - apply nth_repeat.
  - inversion H; subst. now apply nth_fold_map2 with (p := length b).
Qed.

Lemma trapezoid_blocks_length dx n p d :
  length d = n * p ->
  Forall (fun b => length b = p)
    (map (fun a => map2 (trapezoid_term dx) (block (S a) p d) (block a p d))
         (seq 0 (n - 1))).
Proof.
  intros Hd. apply Forall_forall. intros b Hb.
  apply in_map_iff in Hb as [a [<- Ha]]. apply in_seq in Ha.
  rewrite length_map2, !length_block; try lia; rewrite Hd; nia.
Qed.

Lemma remove_axis_S k n sh : remove_axis (S k) (n :: sh) = n :: remove_axis k sh.
Proof. reflexivity. Qed.

Lemma remove_axis_0 n sh : remove_axis 0 (n :: sh) = sh.
Proof. reflexivity. Qed.

Lemma length_trapezoid_data dx k : forall sh d,
  k < length sh -> length d = prod_shape sh ->
  length (trapezoid_data dx sh k d) = prod_shape (remove_axis k sh).
Proof.
  induction k as [| k IH]; intros [| n sh] d Hk Hd; simpl in Hk; try lia.
  - rewrite remove_axis_0. simpl.
    apply length_add_reduce_blocks. apply trapezoid_blocks_length. exact Hd.
  - rewrite remove_axis_S. simpl.
    apply length_chunks. intros i Hi.
    apply IH; [lia |]. apply length_block. simpl in Hd. rewrite Hd. nia.
Qed.

Lemma insert_at_valid k : forall sh jx a,
  k < length sh -> valid jx (remove_axis k sh) -> a < nth k sh 0 ->
  valid (insert_at k a jx) sh.
Proof.
  induction k as [| k IH]; intros [| n sh] jx a Hk Hv Ha; simpl in Hk; try lia.
  - rewrite remove_axis_0 in Hv. simpl in Ha. unfold insert_at. simpl.
    now constructor.
  - rewrite remove_axis_S in Hv. inversion Hv; subst.
    unfold insert_at. simpl. constructor; [assumption |].
    apply IH; [lia | assumption | exact Ha].
Qed.

Lemma nth_map_seq (f : nat -> F) n a (d0 : F) :
  a < n -> nth a (map f (seq 0 n)) d0 = f a.
Proof.
  intros Ha.
  rewrite (nth_indep _ d0 (f 0)) by (rewrite length_map, length_seq; lia).
  rewrite map_nth, seq_nth by lia. reflexivity.
Qed.

(** The vectorised rule is the one-dimensional rule at every position. *)
Lemma nth_trapezoid_data dx k : forall sh d jx,
  k < length sh -> length d = prod_shape sh -> valid jx (remove_axis k sh) ->
  nth (offset (remove_axis k sh) jx) (trapezoid_data dx sh k d) fzero
  = trapz_1d dx (map (fun a => nth (offset sh (insert_at k a jx)) d fzero)
                     (seq 0 (nth k sh 0))).
Proof.
  induction k as [| k IH]; intros [| n sh] d jx Hk Hd Hv; simpl in Hk; try lia.
  - rewrite remove_axis_0 in *. simpl in Hd.
    change (nth 0 (n :: sh) 0) with n.
    pose proof (offset_lt Hv) as Ho.
    cbn [trapezoid_data].
    rewrite (nth_add_reduce_blocks (p := prod_shape sh)) by
      (try assumption; now apply trapezoid_blocks_length).
    unfold trapz_1d. rewrite length_map, length_seq, map_map.
    f_equal. apply map_ext_in. intros a Ha. apply in_seq in Ha.
    assert (Hb : forall b, b < n -> length (block b (prod_shape sh) d) = prod_shape sh).
    { intros b Hb. apply length_block. rewrite Hd.
      apply Nat.mul_le_mono_r. lia. }
    rewrite nth_map2 by (rewrite Hb; lia).
    rewrite !nth_block by assumption.
    rewrite !nth_map_seq by lia. reflexivity.
  - rewrite remove_axis_S in *. simpl in Hd.
    inversion Hv as [| i n' jx' sh' Hi Hv']; subst.
    cbn [trapezoid_data offset nth].
    rewrite (nth_chunks _ (q := prod_shape (remove_axis k sh))).
    + simpl. rewrite IH; try lia; try assumption.
      * f_equal. apply map_ext_in. intros a Ha. apply in_seq in Ha.
        rewrite nth_block; [reflexivity |].
        apply offset_lt. apply insert_at_valid; try lia; assumption.
      * apply length_block. rewrite Hd. nia.
    + intros j Hj. apply length_trapezoid_data; [lia |].
      apply length_block. rewrite Hd. nia.
    + assumption.
    + now apply offset_lt.
Qed.

End Trapezoid.

End TrapezoidFacts.

Module RunnerFacts.
Import NumPy NumPyFacts TrapezoidFacts Py Runner.

Ltac run_py :=
  unfold say, call, emit;
  unfold bind, ret, lift, raise, try_except, modify, gets;
  cbn beta iota.

Section Facts.
Context {F : Type} {AF : Arith F}.
Variable d0 : F.

(** A one-axis result of indexing, entry by entry. *)
Lemma getitem_data_1d sh ix m (d : list F) :
  getitem_shape sh ix = Some [m] -> length d = prod_shape sh ->
  getitem_data sh ix d
  = map (fun j => nth (offset sh (source sh ix [j])) d d0) (seq 0 m).
Proof.
  intros Hs Hd.
  pose proof (length_getitem_data ix sh d Hs Hd) as Hl. simpl in Hl.
  apply nth_ext with (d := d0) (d' := d0).
  - rewrite length_map, length_seq. lia.
  - intros j Hj.
    assert (Hv : valid [j] [m]) by (repeat constructor; lia).
    pose proof (nth_getitem_data d0 ix sh d Hs Hd Hv) as E.
    simpl in E. rewrite Nat.mul_1_r, Nat.add_0_r in E. rewrite E.
    rewrite nth_map_seq by lia. reflexivity.
Qed.

(** [a[hour, :]] of a two-axis array is its row [hour]. *)
Lemma getitem_row (a : ndarray F) hr n0 n1 h :
  shape a = [n0; n1] -> wf a -> norm_index hr n0 = Some h ->
  getitem a [At hr; All] = inr (mk_nd [n1] (row_at d0 a h n1)).
Proof.
  intros Hs Hw Hh. unfold getitem, wf, size in *. rewrite Hs in *.
  cbn [getitem_shape]. rewrite Hh. cbn [option_map getitem_shape].
  f_equal. f_equal.
  rewrite (getitem_data_1d [n0; n1] [At hr; All] (m := n1)); try assumption.
  - unfold row_at, get. rewrite Hs. apply map_ext. intros j.
    cbn [source]. rewrite Hh. reflexivity.
  - cbn [getitem_shape]. rewrite Hh. reflexivity.
Qed.


(** Indexing beyond axis 0 raises. *)
Lemma getitem_out_of_range (a : ndarray F) hr n0 sh ix :
  shape a = n0 :: sh -> norm_index hr n0 = None ->
  getitem a (At hr :: ix) = inl IndexError.
Proof.
  intros Hs Hh. unfold getitem. rewrite Hs. cbn [getitem_shape]. now rewrite Hh.
Qed.

End Facts.
End RunnerFacts.

Module RunnerShape.
Import NumPy NumPyFacts TrapezoidFacts Py Runner RunnerFacts.

Section Facts.
Context {F : Type} {AF : Arith F}.
Variable d0 : F.


Lemma reshape_row (xs : list F) n g :
  n = fst g * snd g ->
  reshape (mk_nd [n] xs) [fst g; snd g] = inr (mk_nd [fst g; snd g] xs).
Proof.
  intros ->. unfold reshape, size. simpl.
  rewrite !Nat.mul_1_r, Nat.eqb_refl. reflexivity.
Qed.

Lemma saved_app (l l' : @St F) : saved (l ++ l') = saved l ++ saved l'.
Proof. unfold saved. apply flat_map_app. Qed.

Lemma calls_app (l l' : @St F) : calls (l ++ l') = calls l ++ calls l'.
Proof. unfold calls. apply flat_map_app. Qed.

Lemma printed_app (l l' : @St F) : printed (l ++ l') = printed l ++ printed l'.
Proof. unfold printed. apply flat_map_app. Qed.


Lemma extract_global_2 (args : Args) (w : @World F) (f2 : @dict F) (s : @St F) n0 n1 h :
  wf (fo f2) -> wf (hm f2) -> wf (Nm f2) ->
  shape (hm f2) = shape (fo f2) -> shape (Nm f2) = shape (fo f2) ->
  shape (fo f2) = [n0; n1] -> norm_index (hour args) n0 = Some h ->
  n1 = grid_size w ->
  extract_global args w f2 s
  = (s, inr (Next (mk_nd (grid_shape w) (row_at d0 (fo f2) h n1),
                   mk_nd (grid_shape w) (row_at d0 (hm f2) h n1),
                   mk_nd (grid_shape w) (row_at d0 (Nm f2) h n1)))).
Proof.
  intros Wf Wh Wn Sh Sn Hs Hh Hg. unfold extract_global, extract_global_body, extract_global_handler. run_py.
  unfold ndim. rewrite Hs. cbn [length Nat.eqb].
  rewrite Hs in Sh, Sn.
  rewrite (getitem_row d0 (hour args) Hs Wf Hh).
  rewrite (getitem_row d0 (hour args) Sh Wh Hh).
  rewrite (getitem_row d0 (hour args) Sn Wn Hh).
  unfold grid_shape. rewrite !reshape_row by exact Hg. reflexivity.
Qed.



Lemma extract_global_bad_hour (args : Args) (w : @World F) (f2 : @dict F) (s : @St F) n0 sh :
  shape (fo f2) = n0 :: sh -> norm_index (hour args) n0 = None ->
  length sh = 1 \/ length sh = 2 ->
  extract_global args w f2 s
  = (s ++ [Print (MsgErrorExtracting IndexError (shape (fo f2)))], inr Return).
Proof.
  intros Hs Hh Hl. unfold extract_global, extract_global_body, extract_global_handler. run_py.
  unfold ndim. rewrite Hs. cbn [length].
  destruct Hl as [-> | ->]; cbn [Nat.eqb];
    rewrite (getitem_out_of_range (fo f2) (hour args) _ Hs Hh); rewrite <- Hs; reflexivity.
Qed.


End Facts.
End RunnerShape.

Module RunnerShapeClaims.
Import NumPy NumPyFacts TrapezoidFacts Py Runner RunnerFacts RunnerShape Examples Instances.

Section Claims.
Context {F : Type} {AF : Arith F}.
Variable d0 : F.



End Claims.



End RunnerShapeClaims.

Module RunnerVtec.
Import NumPy NumPyFacts TrapezoidFacts Py Runner RunnerFacts RunnerShape.

Section Facts.
Context {F : Type} {AF : Arith F}.

Lemma trapezoid_wf (a : ndarray F) k dx :
  k < ndim a -> wf a -> wf (trapezoid a k dx).
Proof.
  intros Hk Hw. unfold wf, size, trapezoid. simpl.
  now apply length_trapezoid_data.
Qed.

(** A one-axis result of the rule, entry by entry. *)
Lemma trapezoid_data_1d dx k sh m (d : list F) :
  k < length sh -> length d = prod_shape sh -> remove_axis k sh = [m] ->
  trapezoid_data dx sh k d
  = map (fun j => trapz_1d dx (map (fun a => nth (offset sh (insert_at k a [j])) d fzero)
                                   (seq 0 (nth k sh 0))))
        (seq 0 m).
Proof.
  intros Hk Hd Hr.
  pose proof (@length_trapezoid_data _ _ dx k sh d Hk Hd) as Hl. rewrite Hr in Hl. simpl in Hl.
  apply nth_ext with (d := fzero) (d' := fzero).
  - rewrite length_map, length_seq. lia.
  - intros j Hj.
    assert (Hv : valid [j] (remove_axis k sh)) by (rewrite Hr; repeat constructor; lia).
    pose proof (@nth_trapezoid_data _ _ dx k sh d [j] Hk Hd Hv) as E.
    rewrite Hr in E. simpl offset in E. rewrite Nat.mul_1_r, Nat.add_0_r in E.
    rewrite E, nth_map_seq by lia. reflexivity.
Qed.

(** Three axes, rule along axis 1, then the row of the hour. *)
Lemma trapezoid_row_axis1 (a : ndarray F) dx hr n0 n1 n2 h :
  shape a = [n0; n1; n2] -> wf a -> norm_index hr n0 = Some h ->
  getitem (trapezoid a 1 dx) [At hr; All]
  = inr (mk_nd [n2]
           (map (fun j => trapz_1d dx (map (fun k => get fzero a [h; k; j]) (seq 0 n1)))
                (seq 0 n2))).
Proof.
  intros Hs Hw Hh.
  assert (Hsh : shape (trapezoid a 1 dx) = [n0; n2]) by (unfold trapezoid; now rewrite Hs).
  assert (Hwf : wf (trapezoid a 1 dx))
    by (apply trapezoid_wf; [unfold ndim; rewrite Hs; simpl; lia | assumption]).
  rewrite (getitem_row fzero hr Hsh Hwf Hh).
  f_equal. f_equal. unfold row_at. apply map_ext_in. intros j Hj. apply in_seq in Hj.
  pose proof (norm_index_lt _ _ Hh) as Hlt.
  unfold get. rewrite Hsh. unfold trapezoid. cbn [data]. rewrite Hs.
  assert (Hv : valid [h; j] (remove_axis 1 [n0; n1; n2]))
    by (repeat constructor; lia).
  pose proof (@nth_trapezoid_data _ _ dx 1 [n0; n1; n2] (data a) [h; j]) as E.
  change (remove_axis 1 [n0; n1; n2]) with [n0; n2] in E.
  rewrite E; [reflexivity | simpl; lia | | assumption].
  unfold wf, size in Hw. now rewrite Hs in Hw.
Qed.

(** Three axes, rule along axis 2, then the row of the hour. *)
Lemma trapezoid_row_axis2 (a : ndarray F) dx hr n0 n1 n2 h :
  shape a = [n0; n1; n2] -> wf a -> norm_index hr n0 = Some h ->
  getitem (trapezoid a 2 dx) [At hr; All]
  = inr (mk_nd [n1]
           (map (fun j => trapz_1d dx (map (fun k => get fzero a [h; j; k]) (seq 0 n2)))
                (seq 0 n1))).
Proof.
  intros Hs Hw Hh.
  assert (Hsh : shape (trapezoid a 2 dx) = [n0; n1]) by (unfold trapezoid; now rewrite Hs).
  assert (Hwf : wf (trapezoid a 2 dx))
    by (apply trapezoid_wf; [unfold ndim; rewrite Hs; simpl; lia | assumption]).
  rewrite (getitem_row fzero hr Hsh Hwf Hh).
  f_equal. f_equal. unfold row_at. apply map_ext_in. intros j Hj. apply in_seq in Hj.
  pose proof (norm_index_lt _ _ Hh) as Hlt.
  unfold get. rewrite Hsh. unfold trapezoid. cbn [data]. rewrite Hs.
  assert (Hv : valid [h; j] (remove_axis 2 [n0; n1; n2]))
    by (repeat constructor; lia).
  pose proof (@nth_trapezoid_data _ _ dx 2 [n0; n1; n2] (data a) [h; j]) as E.
  change (remove_axis 2 [n0; n1; n2]) with [n0; n1] in E.
  rewrite E; [reflexivity | simpl; lia | | assumption].
  unfold wf, size in Hw. now rewrite Hs in Hw.
Qed.

(** Two axes, rule along axis 1: one value per row. *)
Lemma trapezoid_2d_axis1 (a : ndarray F) dx n0 n1 :
  shape a = [n0; n1] -> wf a ->
  trapezoid a 1 dx
  = mk_nd [n0]
      (map (fun i => trapz_1d dx (map (fun k => get fzero a [i; k]) (seq 0 n1))) (seq 0 n0)).
Proof.
  intros Hs Hw. unfold trapezoid. rewrite Hs. f_equal.
  unfold wf, size in Hw. rewrite Hs in Hw.
  rewrite (@trapezoid_data_1d dx 1 [n0; n1] n0); [| simpl; lia | assumption | reflexivity].
  unfold get. rewrite Hs. reflexivity.
Qed.

(** Two axes, rule along axis 0: one value per column. *)
Lemma trapezoid_2d_axis0 (a : ndarray F) dx n0 n1 :
  shape a = [n0; n1] -> wf a ->
  trapezoid a 0 dx
  = mk_nd [n1]
      (map (fun j => trapz_1d dx (map (fun k => get fzero a [k; j]) (seq 0 n0))) (seq 0 n1)).
Proof.
  intros Hs Hw. unfold trapezoid. rewrite Hs. f_equal.
  unfold wf, size in Hw. rewrite Hs in Hw.
  rewrite (@trapezoid_data_1d dx 0 [n0; n1] n1); [| simpl; lia | assumption | reflexivity].
  unfold get. rewrite Hs. reflexivity.
Qed.

Lemma scale_map (xs : list F) m (c : F) (f : nat -> F) :
  scale (mk_nd [m] (map f (seq 0 m))) c = mk_nd [m] (map (fun j => fmul (f j) c) (seq 0 m)).
Proof. unfold scale. simpl. now rewrite map_map. Qed.

End Facts.
End RunnerVtec.

Module RunnerVtecClaims.
Import NumPy NumPyFacts TrapezoidFacts Py Runner RunnerFacts RunnerShape RunnerVtec.
Import Examples Instances.

Section Claims.
Context {F : Type} {AF : Arith F}.

Lemma eqb_false_of_neq a b : a <> b -> (a =? b) = false.
Proof. intros H. now apply Nat.eqb_neq. Qed.

Lemma eqb_true_of_eq a b : a = b -> (a =? b) = true.
Proof. intros H. now apply Nat.eqb_eq. Qed.

(** C3 (as amended).  The per-location TEC the vTEC stage computes from a
    well-formed [edp], [len(aalt)] being the number of altitudes and
    [dx = (aalt[1] - aalt[0]) * 1000]:
    - three axes [n0, n1, n2] with [n1 = len(aalt)]: for every location [j]
      the trapezoid rule over the samples [edp[h, :, j]] of the hour [h],
      times [1e-16];
    - three axes with only [n2 = len(aalt)]: the same over [edp[h, j, :]];
    - three axes with neither [n1] nor [n2] equal to [len(aalt)]: ValueError;
    - two axes [n0, n1] with [n1 = len(aalt)]: the rule over every row
      [edp[i, :]], no hour being selected;
    - two axes with [n1 <> len(aalt)]: the rule over every column
      [edp[:, j]], whatever [n0] is, and no error;
    - any other number of axes: ValueError. *)
Theorem vtec_is_trapezoid_integral (args : Args) (w : @World F) (edp : ndarray F) (s : @St F) :
  wf edp ->
  (forall n0 n1 n2 h,
      shape edp = [n0; n1; n2] -> n1 = length aalt ->
      norm_index (hour args) n0 = Some h ->
      vtec_tec_data args w edp s
      = (s ++ [Print (MsgEdpShape (shape edp)); Print (MsgIntegrating 1);
               Call (integration_call w edp 1 alt_dx)],
         inr (mk_nd [n2]
                (map (fun j => tecu (map (fun k => get fzero edp [h; k; j]) (seq 0 n1)))
                     (seq 0 n2)))))
  /\ (forall n0 n1 n2 h,
      shape edp = [n0; n1; n2] -> n1 <> length aalt -> n2 = length aalt ->
      norm_index (hour args) n0 = Some h ->
      vtec_tec_data args w edp s
      = (s ++ [Print (MsgEdpShape (shape edp)); Print (MsgIntegrating 2);
               Call (integration_call w edp 2 alt_dx)],
         inr (mk_nd [n1]
                (map (fun j => tecu (map (fun k => get fzero edp [h; j; k]) (seq 0 n2)))
                     (seq 0 n1)))))
  /\ (forall n0 n1 n2,
      shape edp = [n0; n1; n2] -> n1 <> length aalt -> n2 <> length aalt ->
      vtec_tec_data args w edp s
      = (s ++ [Print (MsgEdpShape (shape edp)); Print (MsgCannotDetermine (length aalt))],
         inl (ValueError "Cannot determine altitude axis")))
  /\ (forall n0 n1,
      shape edp = [n0; n1] -> n1 = length aalt ->
      vtec_tec_data args w edp s
      = (s ++ [Print (MsgEdpShape (shape edp)); Call (integration_call w edp 1 alt_dx)],
         inr (mk_nd [n0]
                (map (fun i => tecu (map (fun k => get fzero edp [i; k]) (seq 0 n1)))
                     (seq 0 n0)))))
  /\ (forall n0 n1,
      shape edp = [n0; n1] -> n1 <> length aalt ->
      vtec_tec_data args w edp s
      = (s ++ [Print (MsgEdpShape (shape edp)); Call (integration_call w edp 0 alt_dx)],
         inr (mk_nd [n1]
                (map (fun j => tecu (map (fun k => get fzero edp [k; j]) (seq 0 n0)))
                     (seq 0 n1)))))
  /\ (ndim edp <> 3 -> ndim edp <> 2 ->
      vtec_tec_data args w edp s
      = (s ++ [Print (MsgEdpShape (shape edp)); Print (MsgUnexpectedEdp (shape edp))],
         inl (ValueError "Cannot process EDP data"))).
Proof.
  intros Hw.
  split; [| split; [| split; [| split; [| split]]]].
  - intros n0 n1 n2 h Hs Hn Hh.
    unfold vtec_tec_data, integrate. run_py.
    unfold ndim, axis_len. rewrite Hs. cbn [length nth Nat.eqb].
    rewrite (eqb_true_of_eq Hn).
    rewrite (trapezoid_row_axis1 alt_dx (hour args) Hs Hw Hh).
    rewrite scale_map by exact []. rewrite <- !app_assoc. reflexivity.
  - intros n0 n1 n2 h Hs Hn1 Hn2 Hh.
    unfold vtec_tec_data, integrate. run_py.
    unfold ndim, axis_len. rewrite Hs. cbn [length nth Nat.eqb].
    rewrite (eqb_false_of_neq Hn1), (eqb_true_of_eq Hn2).
    rewrite (trapezoid_row_axis2 alt_dx (hour args) Hs Hw Hh).
    rewrite scale_map by exact []. rewrite <- !app_assoc. reflexivity.
  - intros n0 n1 n2 Hs Hn1 Hn2.
    unfold vtec_tec_data, integrate. run_py.
    unfold ndim, axis_len. rewrite Hs. cbn [length nth Nat.eqb].
    rewrite (eqb_false_of_neq Hn1), (eqb_false_of_neq Hn2).
    rewrite <- !app_assoc. reflexivity.
  - intros n0 n1 Hs Hn.
    unfold vtec_tec_data, integrate. run_py.
    unfold ndim, axis_len. rewrite Hs. cbn [length nth Nat.eqb].
    rewrite (eqb_true_of_eq Hn).
    rewrite (trapezoid_2d_axis1 alt_dx Hs Hw).
    rewrite scale_map by exact []. rewrite <- !app_assoc. reflexivity.
  - intros n0 n1 Hs Hn.
    unfold vtec_tec_data, integrate. run_py.
    unfold ndim, axis_len. rewrite Hs. cbn [length nth Nat.eqb].
    rewrite (eqb_false_of_neq Hn).
    rewrite (trapezoid_2d_axis0 alt_dx Hs Hw).
    rewrite scale_map by exact []. rewrite <- !app_assoc. reflexivity.
  - intros H3 H2.
    unfold vtec_tec_data, integrate. run_py.
    rewrite (eqb_false_of_neq H3), (eqb_false_of_neq H2).
    rewrite <- !app_assoc. reflexivity.
Qed.

End Claims.
End RunnerVtecClaims.

(** * Control flow of the runner: what can leave [main], what is logged *)

Module RunnerFlow.
Import NumPy Py Runner RunnerFacts RunnerShape.

Section Totality.
Context {S : Type}.





(** What the [try] statement does with the outcome of its body. *)
Lemma try_except_caught {A} (body : M S A) (handler : exn -> M S A) s s' e :
  body s = (s', inl e) -> try_except body handler s = handler e s'.
Proof. intros E. unfold try_except. now rewrite E. Qed.

Lemma try_except_passed {A} (body : M S A) (handler : exn -> M S A) s s' a :
  body s = (s', inr a) -> try_except body handler s = (s', inr a).
Proof. intros E. unfold try_except. now rewrite E. Qed.

End Totality.


Section Logs.
Context {F : Type} {AF : Arith F}.
Variable P : @St F -> Prop.
Hypothesis P_nil : P [].
Hypothesis P_app : forall l l', P l -> P l' -> P (l ++ l').

Lemma keeps_ret {A} (a : A) : keeps P (ret a).
Proof. intros s. exists []. simpl. now rewrite app_nil_r. Qed.

Lemma keeps_raise {A} e : keeps P (raise e : M St A).
Proof. intros s. exists []. simpl. now rewrite app_nil_r. Qed.

Lemma keeps_lift {A} (r : exn + A) : keeps P (lift r).
Proof. intros s. exists []. simpl. now rewrite app_nil_r. Qed.

Lemma keeps_emit e : P [e] -> keeps P (emit e).
Proof. intros H s. now exists [e]. Qed.

Lemma keeps_bind {A B} (m : M St A) (k : A -> M St B) :
  keeps P m -> (forall a, keeps P (k a)) -> keeps P (bind m k).
Proof.
  intros Hm Hk s. destruct (Hm s) as (l & E & Hl). unfold bind.
  destruct (m s) as [s' [e | a]]; simpl in E; subst s'.
  - now exists l.
  - destruct (Hk a (s ++ l)) as (l' & E' & Hl').
    exists (l ++ l'). rewrite E', app_assoc. auto.
Qed.

Lemma keeps_try_except {A} (body : M St A) (handler : exn -> M St A) :
  keeps P body -> (forall e, keeps P (handler e)) -> keeps P (try_except body handler).
Proof.
  intros Hb Hh s. destruct (Hb s) as (l & E & Hl). unfold try_except.
  destruct (body s) as [s' [e | a]]; simpl in E; subst s'.
  - destruct (Hh e (s ++ l)) as (l' & E' & Hl').
    exists (l ++ l'). rewrite E', app_assoc. auto.
  - now exists l.
Qed.

End Logs.

Ltac keeps_step :=
  lazymatch goal with
  | |- keeps _ (ret _) => apply keeps_ret; assumption
  | |- keeps _ (raise _) => apply keeps_raise; assumption
  | |- keeps _ (lift _) => apply keeps_lift; assumption
  | |- keeps _ (try_except _ _) => apply keeps_try_except; [assumption | | intros ?]
  | |- keeps _ (bind _ _) => apply keeps_bind; [assumption | | intros ?]
  | |- keeps _ (if ?b then _ else _) => destruct b
  | |- keeps _ (match ?x with _ => _ end) => destruct x
  end.

End RunnerFlow.

Module RunnerFlowFacts.
Import NumPy Py Runner RunnerFacts RunnerShape RunnerFlow.
Import RunnerNotions.

Section Facts.
Context {F : Type} {AF : Arith F}.




Lemma model_calls_app (l l' : @St F) :
  model_calls (l ++ l') = model_calls l + model_calls l'.
Proof.
  unfold model_calls. now rewrite calls_app, filter_app, length_app.
Qed.

Lemma no_model_call_app (l l' : @St F) :
  no_model_call l -> no_model_call l' -> no_model_call (l ++ l').
Proof. unfold no_model_call. rewrite model_calls_app. lia. Qed.

Lemma keeps_weaken {A} (P Q : @St F -> Prop) (m : M St A) :
  (forall l, P l -> Q l) -> keeps P m -> keeps Q m.
Proof.
  intros H Hm s. destruct (Hm s) as (l & E & Hl). exists l. auto.
Qed.

(** Sequencing when the two parts satisfy different properties. *)
Lemma keeps_bind2 {A B} (P1 P2 P : @St F -> Prop) (m : M St A) (k : A -> M St B) :
  keeps P1 m -> (forall a, keeps P2 (k a)) ->
  (forall l, P1 l -> P l) -> (forall l l', P1 l -> P2 l' -> P (l ++ l')) ->
  keeps P (bind m k).
Proof.
  intros Hm Hk H1 H12 s. destruct (Hm s) as (l & E & Hl). unfold bind.
  destruct (m s) as [s' [e | a]]; simpl in E; subst s'.
  - exists l. auto.
  - destruct (Hk a (s ++ l)) as (l' & E' & Hl').
    exists (l ++ l'). rewrite E', app_assoc. auto.
Qed.

Ltac quiet :=
  unfold say, call;
  repeat lazymatch goal with
    | |- keeps _ (emit _) =>
        apply keeps_emit;
        first [ reflexivity
              | unfold integration_call; destruct (np_has_trapezoid _); reflexivity ]
    | _ => keeps_step
    end.

Lemma calculate_calls_once (args : Args) (w : @World F) :
  keeps one_model_call (calculate args w).
Proof.
  intros s. unfold calculate, calculate_body, calculate_handler. run_py.
  destruct (daily args || profiles args || vtec args).
  - destruct (IRI_density_1day w) as [e | [[f2 ep] edp]]; cbn;
      eexists; (split; [rewrite <- ?app_assoc; reflexivity | repeat split]).
  - destruct (IRI_monthly_mean_par w) as [e | [f2 ep]]; cbn;
      eexists; (split; [rewrite <- ?app_assoc; reflexivity | repeat split]).
Qed.

Lemma stages_quiet (args : Args) (w : @World F)
    (r : flow (dict * dict * option (ndarray F) * bool)) :
  keeps no_model_call (stages args w r).
Proof.
  pose proof (eq_refl : @no_model_call F []) as P_nil.
  pose proof no_model_call_app as P_app.
  unfold stages, global_stage, extract_global, extract_global_body, extract_global_handler,
    plot_global, vtec_stage, vtec_body, vtec_handler, vtec_tec_data, integrate, fit_to_grid,
    single_stage, extract_single, profiles_stage, profiles_body, profiles_handler,
    extract_profiles.
  quiet.
Qed.

(** The log of [main]: four lines, the model call, the stages. *)
Lemma main_log (args : Args) (w : @World F) :
  exists l0 l1 l2,
    fst (run args w) = l0 ++ l1 ++ l2
    /\ calls l0 = [] /\ saved l0 = []
    /\ fst (calculate args w l0) = l0 ++ l1
    /\ one_model_call l1
    /\ (l2 = [] \/ exists r, snd (calculate args w l0) = inr r
                            /\ fst (stages args w r (l0 ++ l1)) = (l0 ++ l1) ++ l2).
Proof.
  unfold run, main.
  set (g := global_map args).
  assert (Hl0 : exists l0 : @St F,
             (calls l0 = [] /\ saved l0 = [])
             /\ forall k : flow (dict * dict * option (ndarray F) * bool) -> M St unit,
                 bind (say MsgOutputDir)
                   (fun _ => bind (if g then say MsgCreatingGrid else ret tt)
                     (fun _ => bind (say MsgGridSize)
                       (fun _ => bind (say MsgRunning)
                         (fun _ => bind (calculate args w) k)))) []
                 = bind (calculate args w) k l0).
  { destruct g; eexists; (split; [| intros k; reflexivity]); split; reflexivity. }
  destruct Hl0 as (l0 & [H0 H0'] & Hk). rewrite Hk. clear Hk.
  exists l0. unfold bind.
  destruct (calculate_calls_once args w l0) as (l1 & E1 & H1).
  destruct (calculate args w l0) as [s1 [e | r]] eqn:Ec; simpl in E1; subst s1.
  - exists l1, []. cbn [fst snd]. rewrite app_nil_r.
    split; [reflexivity |]. split; [assumption |]. split; [assumption |].
    split; [reflexivity |]. split; [assumption |]. now left.
  - destruct (stages_quiet args w r (l0 ++ l1)) as (l2 & E2 & H2).
    exists l1, l2. cbn [fst snd]. rewrite E2, <- app_assoc.
    split; [reflexivity |]. split; [assumption |]. split; [assumption |].
    split; [reflexivity |]. split; [assumption |].
    right. exists r. split; [reflexivity |]. now rewrite app_assoc.
Qed.


End Facts.
End RunnerFlowFacts.

Module RunnerVtecStage.
Import NumPy NumPyFacts TrapezoidFacts Py Runner RunnerFacts RunnerShape RunnerVtec.
Import RunnerFlow Examples Instances.

Section Facts.
Context {F : Type} {AF : Arith F}.



Lemma reshape_1d_fails (xs : list F) n g :
  n <> fst g * snd g ->
  reshape (mk_nd [n] xs) [fst g; snd g] = inl (ValueError "cannot reshape array").
Proof.
  intros H. unfold reshape, size. simpl. rewrite !Nat.mul_1_r.
  apply Nat.eqb_neq in H. now rewrite H.
Qed.

End Facts.

Section Claims.
Context {F : Type} {AF : Arith F}.


End Claims.


End RunnerVtecStage.

Module RunnerIntegration.
Import NumPy NumPyFacts TrapezoidFacts Py Runner RunnerFacts RunnerShape RunnerVtec.
Import RunnerNotions.
Import RunnerFlow RunnerFlowFacts RunnerVtecClaims Examples Instances.

(** C3 witness: the model's layout [time, altitude, location] with 95
    altitudes and four locations, hour 1. *)
Lemma vtec_is_trapezoid_integral_witness :
  wf edp_day
  /\ snd (vtec_tec_data args_global (world_of edp_day (2, 2)) edp_day [])
     = inr (mk_nd [4]
              (map (fun j => tecu (map (fun k => get 0%Q edp_day [1; k; j]) (seq 0 95)))
                   (seq 0 4))).
Proof.
  assert (Hw : wf edp_day) by reflexivity.
  split; [exact Hw |].
  rewrite (proj1 (vtec_is_trapezoid_integral args_global (world_of edp_day (2, 2)) [] Hw)
             2 95 4 1 eq_refl eq_refl eq_refl).
  reflexivity.
Defined.

(** C3 counterexample: a two-axis density array of shape [3, 4]; no axis
    has the 95 entries of [aalt], and yet the stage integrates (along
    axis 0) and writes the vTEC figure. *)
Lemma vtec_two_axes_integrates_without_altitude_axis :
  ndim edp_cols = 2
  /\ length aalt = 95
  /\ axis_len edp_cols 0 = 3
  /\ axis_len edp_cols 1 = 4
  /\ snd (vtec_stage args_global (world_of edp_cols (2, 2)) edp_cols []) = inr tt
  /\ saved (fst (vtec_stage args_global (world_of edp_cols (2, 2)) edp_cols []))
     = ["vTEC"%string]
  /\ integrations (fst (vtec_stage args_global (world_of edp_cols (2, 2)) edp_cols []))
     = [np_trapezoid edp_cols 0 alt_dx].
Proof. repeat split; vm_compute; reflexivity. Qed.

Ltac simple_term x :=
  lazymatch x with
  | context [match _ with _ => _ end] => fail
  | context [if _ then _ else _] => fail
  | _ => idtac
  end.

Ltac split_all :=
  repeat (match goal with
          | |- context [match ?x with _ => _ end] => simple_term x; destruct x eqn:?
          | |- context [if ?b then _ else _] => simple_term b; destruct b eqn:?
          end; cbn beta iota).

Section Facts.
Context {F : Type} {AF : Arith F}.

Lemma integration_by_numpy (c : @extcall F) :
  is_integration c = true -> provider c = Numpy.
Proof. destruct c; simpl; intros H; try discriminate H; reflexivity. Qed.



Lemma integrations_app (l l' : @St F) :
  integrations (l ++ l') = integrations l ++ integrations l'.
Proof. unfold integrations. now rewrite calls_app, filter_app. Qed.

Lemma no_integration_app (l l' : @St F) :
  no_integration l -> no_integration l' -> no_integration (l ++ l').
Proof. unfold no_integration. rewrite integrations_app. now intros -> ->. Qed.

Lemma plots_after_integrating_app (l l' : @St F) :
  plots_after_integrating l -> plots_after_integrating l' ->
  plots_after_integrating (l ++ l').
Proof.
  unfold plots_after_integrating. rewrite saved_app, integrations_app.
  intros H H' Hin. apply in_app_or in Hin as [Hin | Hin].
  - specialize (H Hin). destruct (integrations l); [congruence | discriminate].
  - specialize (H' Hin). destruct (integrations l'); [congruence |].
    intros E. apply app_eq_nil in E as [_ E]. discriminate E.
Qed.

Lemma vtec_stage_plots_after_integrating (args : Args) (w : @World F) (edp : ndarray F) :
  keeps plots_after_integrating (vtec_stage args w edp).
Proof.
  intros s.
  unfold vtec_stage, vtec_body, vtec_handler, vtec_tec_data, integrate, fit_to_grid,
    integration_call.
  run_py. split_all;
    (eexists; split; [cbn [fst]; rewrite <- ?app_assoc; reflexivity |]);
    unfold plots_after_integrating; cbn; intros H;
    repeat (destruct H as [H | H]; try discriminate H); try contradiction;
    discriminate.
Qed.

Ltac pai_event :=
  unfold plots_after_integrating; cbn; intros H;
  repeat (destruct H as [H | H]; try discriminate H); contradiction.

Lemma stages_plot_after_integrating (args : Args) (w : @World F)
    (r : flow (dict * dict * option (ndarray F) * bool)) :
  keeps plots_after_integrating (stages args w r).
Proof.
  assert (P_nil : @plots_after_integrating F []) by (intros []).
  pose proof plots_after_integrating_app as P_app.
  unfold stages, global_stage, extract_global, extract_global_body, extract_global_handler,
    plot_global, single_stage, extract_single, profiles_stage, profiles_body,
    profiles_handler, extract_profiles.
  unfold say, call.
  repeat lazymatch goal with
    | |- keeps _ (vtec_stage _ _ _) => apply vtec_stage_plots_after_integrating
    | |- keeps _ (emit _) => apply keeps_emit; pai_event
    | _ => keeps_step
    end.
Qed.

(** Without [--vtec], or for a single location, nothing is integrated. *)
Lemma stages_no_integration (args : Args) (w : @World F)
    (r : flow (dict * dict * option (ndarray F) * bool)) :
  vtec args = false \/ global_map args = false ->
  keeps no_integration (stages args w r).
Proof.
  intros Hc.
  pose proof (eq_refl : @no_integration F []) as P_nil.
  pose proof no_integration_app as P_app.
  unfold stages, global_stage, extract_global, extract_global_body, extract_global_handler,
    plot_global, single_stage, extract_single, profiles_stage, profiles_body,
    profiles_handler, extract_profiles.
  unfold say, call.
  destruct Hc as [Hc | Hc]; rewrite Hc; cbn [andb];
    repeat lazymatch goal with
      | |- keeps _ (emit _) => apply keeps_emit; reflexivity
      | _ => keeps_step
      end.
Qed.

End Facts.

Section Claims.
Context {F : Type} {AF : Arith F}.

(** C4 (as amended).  No PyIRI or Matplotlib call of the runner
    integrates: every integration in a run is a call of NumPy's
    trapezoid rule ([np.trapezoid], or [np.trapz] on an older NumPy) that
    the runner itself makes, with the axis and spacing it has chosen.  A
    vTEC figure is written only after such a call, and without [--vtec]
    or for a single location no integration takes place at all. *)
Theorem vtec_integration_is_numpy_call (args : Args) (w : @World F) :
  (forall c, In c (integrations (fst (run args w))) -> provider c = Numpy)
  /\ (In "vTEC"%string (saved (fst (run args w))) -> integrations (fst (run args w)) <> [])
  /\ (vtec args = false \/ global_map args = false ->
      integrations (fst (run args w)) = []).
Proof.
  destruct (main_log args w) as (l0 & l1 & l2 & E & H0 & H0' & Ec & (_ & H1 & H1') & H2).
  assert (I0 : integrations l0 = []) by (unfold integrations; now rewrite H0).
  rewrite E. rewrite !integrations_app, !saved_app, I0, H0', H1, H1'. cbn [app].
  split; [| split].
  - intros c Hc. apply integration_by_numpy.
    unfold integrations in Hc. now apply filter_In in Hc.
  - intros Hin.
    destruct H2 as [-> | (r & _ & E2)]; [destruct Hin |].
    destruct (stages_plot_after_integrating args w r (l0 ++ l1)) as (l2' & E2' & H2').
    rewrite E2 in E2'. apply app_inv_head in E2'. subst l2'. now apply H2'.
  - intros Hc.
    destruct H2 as [-> | (r & _ & E2)]; [reflexivity |].
    destruct (stages_no_integration args w r Hc (l0 ++ l1)) as (l2' & E2' & H2').
    rewrite E2 in E2'. apply app_inv_head in E2'. now subst l2'.
Qed.

End Claims.

(** C4 counterexample: a global run with [--vtec].  The run makes one
    integration call; its provider is NumPy, neither the model library
    nor the plotting package, and the vTEC figure is written from it. *)
Lemma runner_integrates_with_numpy :
  map provider (integrations (fst (run args_global (world_of edp_day (2, 2))))) = [Numpy]
  /\ integrations (fst (run args_global (world_of edp_day (2, 2))))
     = [np_trapezoid edp_day 1 alt_dx]
  /\ saved (fst (run args_global (world_of edp_day (2, 2))))
     = ["foF2"; "hmF2"; "NmF2"; "vTEC"]%string
  /\ Numpy <> PyIRI /\ Numpy <> Matplotlib.
Proof.
  repeat split; try discriminate; vm_compute; reflexivity.
Qed.

End RunnerIntegration.

(** * The calendar *)

Module CalendarFacts.
Import Calendar.
Import CalendarNotions.
Local Open Scope Z_scope.

(** Look up the month tables at a literal month. *)
Ltac month_tables :=
  repeat match goal with
         | |- context [nth (Z.to_nat ?z) ?l ?d] =>
             let v := eval vm_compute in (nth (Z.to_nat z) l d) in
             change (nth (Z.to_nat z) l d) with v
         | |- context [(?a =? ?b)%Z] =>
             let v := eval vm_compute in (a =? b)%Z in
             change (a =? b)%Z with v
         | |- context [(?a <? ?b)%Z] =>
             let v := eval vm_compute in (a <? b)%Z in
             change (a <? b)%Z with v
         end;
  cbn [andb orb negb].

Lemma div_step (y d : Z) :
  0 < d -> y / d - (y - 1) / d = if y mod d =? 0 then 1 else 0.
Proof.
  intros Hd. destruct (Z.eqb_spec (y mod d) 0) as [E | E].
  - assert (H1 : y = d * (y / d)) by (pose proof (Z.div_mod y d); lia).
    assert (H2 : (y - 1) / d = y / d - 1).
    { symmetry. apply Z.div_unique with (r := d - 1); lia. }
    lia.
  - assert (H2 : (y - 1) / d = y / d).
    { symmetry. apply Z.div_unique with (r := y mod d - 1).
      - pose proof (Z.mod_pos_bound y d Hd). lia.
      - pose proof (Z.div_mod y d). lia. }
    lia.
Qed.

Lemma mod_4_of_100 (y : Z) : y mod 100 = 0 -> y mod 4 = 0.
Proof.
  intros H. pose proof (Z.div_mod y 100 ltac:(lia)) as E. rewrite H in E.
  replace y with ((y / 100 * 25) * 4) by lia. apply Z.mod_mul. lia.
Qed.

Lemma mod_100_of_400 (y : Z) : y mod 400 = 0 -> y mod 100 = 0.
Proof.
  intros H. pose proof (Z.div_mod y 400 ltac:(lia)) as E. rewrite H in E.
  replace y with ((y / 400 * 4) * 100) by lia. apply Z.mod_mul. lia.
Qed.

Lemma leap_year_length (year : Z) :
  days_before_year (year + 1) - days_before_year year
  = if is_leap year then 366 else 365.
Proof.
  unfold days_before_year, is_leap. cbv zeta.
  replace (year + 1 - 1) with year by lia.
  pose proof (@div_step year 4 ltac:(lia)) as H4.
  pose proof (@div_step year 100 ltac:(lia)) as H100.
  pose proof (@div_step year 400 ltac:(lia)) as H400.
  pose proof (@mod_4_of_100 year) as A. pose proof (@mod_100_of_400 year) as B.
  destruct (Z.eqb_spec (year mod 4) 0), (Z.eqb_spec (year mod 100) 0),
    (Z.eqb_spec (year mod 400) 0); cbn [negb andb orb]; lia.
Qed.

Lemma valid_first_of_month (year month : Z) :
  1 <= year <= 9999 -> 1 <= month <= 12 -> valid_date year month 1 = true.
Proof.
  intros Hy Hm. unfold valid_date, MINYEAR, MAXYEAR, days_in_month.
  rewrite (proj2 (Z.leb_le 1 year)), (proj2 (Z.leb_le year 9999)) by lia.
  assert (E : month = 1 \/ month = 2 \/ month = 3 \/ month = 4 \/ month = 5 \/ month = 6
              \/ month = 7 \/ month = 8 \/ month = 9 \/ month = 10 \/ month = 11
              \/ month = 12) by lia.
  repeat (destruct E as [-> | E]; [month_tables; destruct (is_leap year); reflexivity |]).
  subst. month_tables. destruct (is_leap year); reflexivity.
Qed.

Lemma datetime_first_of_month (year month : Z) :
  1 <= year <= 9999 -> 1 <= month <= 12 ->
  datetime year month 1 = inr (ymd2ord year month 1).
Proof.
  intros Hy Hm. unfold datetime. now rewrite valid_first_of_month.
Qed.

Lemma datetime_last_of_year (year : Z) :
  1 <= year <= 9999 -> datetime year 12 31 = inr (ymd2ord year 12 31).
Proof.
  intros Hy. unfold datetime, valid_date, MINYEAR, MAXYEAR, days_in_month.
  rewrite (proj2 (Z.leb_le 1 year)), (proj2 (Z.leb_le year 9999)) by lia.
  reflexivity.
Qed.

(** The year from 1 January to 31 December. *)
Lemma year_span (year : Z) :
  Z.to_nat (ymd2ord year 12 31 - ymd2ord year 1 1 + 1) = days_in_year year.
Proof.
  unfold ymd2ord, days_before_month, days_in_year. month_tables.
  destruct (is_leap year); lia.
Qed.


Lemma month_span (year month : Z) :
  1 <= year <= 9998 -> 1 <= month <= 12 ->
  next_month_start year month
  = inr (ymd2ord year month 1 + days_in_month year month).
Proof.
  intros Hy Hm. unfold next_month_start.
  destruct (Z.eqb_spec month 12) as [-> | Hne].
  - rewrite datetime_first_of_month by lia. f_equal.
    unfold ymd2ord. pose proof (leap_year_length year) as L.
    unfold days_before_month, days_in_month. month_tables.
    destruct (is_leap year); lia.
  - rewrite datetime_first_of_month by lia. f_equal.
    unfold ymd2ord, days_before_month, days_in_month.
    assert (E : month = 1 \/ month = 2 \/ month = 3 \/ month = 4 \/ month = 5 \/ month = 6
                \/ month = 7 \/ month = 8 \/ month = 9 \/ month = 10 \/ month = 11) by lia.
    repeat (destruct E as [-> | E]; [month_tables; destruct (is_leap year); lia |]).
    subst. month_tables. destruct (is_leap year); lia.
Qed.

Lemma days_in_month_pos (year month : Z) :
  1 <= month <= 12 -> 28 <= days_in_month year month <= 31.
Proof.
  intros Hm. unfold days_in_month.
  assert (E : month = 1 \/ month = 2 \/ month = 3 \/ month = 4 \/ month = 5 \/ month = 6
              \/ month = 7 \/ month = 8 \/ month = 9 \/ month = 10 \/ month = 11
              \/ month = 12) by lia.
  repeat (destruct E as [-> | E]; [month_tables; destruct (is_leap year); lia |]).
  subst. month_tables. destruct (is_leap year); lia.
Qed.

(** Offsets of the months inside the year. *)
Lemma month_offset (year month : Z) :
  1 <= month <= 12 ->
  0 <= ymd2ord year month 1 - ymd2ord year 1 1
  /\ ymd2ord year month 1 - ymd2ord year 1 1 + days_in_month year month
     <= Z.of_nat (days_in_year year).
Proof.
  intros Hm. unfold ymd2ord, days_before_month, days_in_month, days_in_year.
  assert (E : month = 1 \/ month = 2 \/ month = 3 \/ month = 4 \/ month = 5 \/ month = 6
              \/ month = 7 \/ month = 8 \/ month = 9 \/ month = 10 \/ month = 11
              \/ month = 12) by lia.
  repeat (destruct E as [-> | E]; [month_tables; destruct (is_leap year); lia |]).
  subst. month_tables. destruct (is_leap year); lia.
Qed.

End CalendarFacts.

(** * The Year Daily Generator: the synthetic F10.7 series *)

Module YearDailySeries.
Import NumPy Py Calendar CalendarFacts Year YearDaily Instances YearExamples.
Import CalendarNotions YearDailyNotions.

Lemma clip_bounds (x lo hi : R) : (lo <= hi)%R -> (lo <= clip x lo hi <= hi)%R.
Proof.
  intros H. unfold clip, Rmin, Rmax.
  destruct (Rle_dec x lo); destruct (Rle_dec _ hi); lra.
Qed.

Lemma clip_inside (x lo hi : R) : (lo <= x <= hi)%R -> clip x lo hi = x.
Proof.
  intros H. unfold clip, Rmin, Rmax.
  destruct (Rle_dec x lo); destruct (Rle_dec _ hi); lra.
Qed.



(** What [generate_f107_timeseries] returns in a year of the calendar. *)
Lemma generate_f107_timeseries_value (rng : Rng) (year : Z) :
  (1 <= year <= 9999)%Z ->
  generate_f107_timeseries rng year
  = inr (map (fun i => (ymd2ord year 1 1 + Z.of_nat i)%Z) (seq 0 (days_in_year year)),
         map (fun t => clip (f107_raw rng (days_in_year year) t) 70 250)
             (seq 0 (days_in_year year))).
Proof.
  intros Hy. unfold generate_f107_timeseries.
  rewrite datetime_first_of_month, datetime_last_of_year by lia.
  now rewrite year_span.
Qed.



(** Lines 171-179: the loop of the monthly-mean path stores, for the day
    [i], the monthly value times the factor of that day. *)
Lemma monthly_loop_values (nm_avg nm_min nm_max : ndarray R) (f107_values : list R)
    (avg_f107 : R) (l : list nat) : forall st,
  exists st',
    for_each l (fun day_idx =>
                  append3 (Val (scale nm_avg
                                  (daily_scale (nth day_idx f107_values 0%R) avg_f107)))
                    (Val nm_min) (Val nm_max)) st = (st', inr tt)
    /\ nmf2_values st'
       = nmf2_values st
         ++ map (fun i => Val (scale nm_avg (daily_scale (nth i f107_values 0%R) avg_f107))) l.
Proof.
  induction l as [| i l IH]; intros st.
  - exists st. split; [reflexivity |]. cbn. now rewrite app_nil_r.
  - cbn [for_each]. unfold bind at 1. unfold append3 at 1, modify at 1.
    match goal with |- context [for_each l _ ?s] => destruct (IH s) as (st' & E & V) end.
    exists st'. split; [exact E |]. rewrite V. cbn [nmf2_values map].
    rewrite <- app_assoc. reflexivity.
Qed.

Lemma monthly_days_values (model : Model) (month : Z) (f107_values : list R)
    (days : list nat) (avg_f107 : R) (Nm nm_avg nm_min nm_max : ndarray R) st :
  IRI_monthly_mean_par model month = inr Nm ->
  extract_monthly Nm = inr (nm_avg, nm_min, nm_max) ->
  exists st',
    monthly_days model month f107_values days avg_f107 st = (st', inr tt)
    /\ nmf2_values st'
       = nmf2_values st
         ++ map (fun i => Val (scale nm_avg (daily_scale (nth i f107_values 0%R) avg_f107)))
              days.
Proof.
  intros HN HE. unfold monthly_days.
  unfold bind at 1. unfold call, emit, modify.
  unfold bind at 1. unfold lift at 1. rewrite HN.
  unfold bind at 1. unfold lift at 1. rewrite HE.
  match goal with
  | |- context [for_each days _ ?s] =>
      destruct (monthly_loop_values nm_avg nm_min nm_max f107_values avg_f107 days s)
        as (st' & E & V)
  end.
  exists st'. split; [exact E |]. exact V.
Qed.

(** C9.  The factor applied to the monthly NmF2 of a day: 1 when the
    monthly mean of F10.7 is at most 70, the division being taken only
    with a positive denominator; otherwise the ratio, and in both cases
    clipped to [0.5, 2]; so the day's value lies between half and twice
    the monthly value.  The monthly-mean path stores for each day the
    monthly value times that factor. *)
Theorem daily_scale_is_clipped (day_f107 avg_f107 nm : R) :
  ((avg_f107 <= 70)%R ->
     raw_scale day_f107 avg_f107 = 1%R /\ daily_scale day_f107 avg_f107 = 1%R)
  /\ ((70 < avg_f107)%R ->
     raw_scale day_f107 avg_f107 = ((day_f107 - 70) / (avg_f107 - 70))%R
     /\ (0 < avg_f107 - 70)%R
     /\ daily_scale day_f107 avg_f107
        = clip ((day_f107 - 70) / (avg_f107 - 70)) (1 / 2) 2)
  /\ (1 / 2 <= daily_scale day_f107 avg_f107 <= 2)%R
  /\ (Rmin (1 / 2 * nm) (2 * nm) <= nm * daily_scale day_f107 avg_f107
      <= Rmax (1 / 2 * nm) (2 * nm))%R
  /\ data (scale (scalar nm) (daily_scale day_f107 avg_f107))
     = [(nm * daily_scale day_f107 avg_f107)%R]
  /\ (forall (model : Model) (month : Z) (f107_values : list R) (days : list nat)
             (Nm nm_avg nm_min nm_max : ndarray R) (st : St),
        IRI_monthly_mean_par model month = inr Nm ->
        extract_monthly Nm = inr (nm_avg, nm_min, nm_max) ->
        exists st',
          monthly_days model month f107_values days avg_f107 st = (st', inr tt)
          /\ nmf2_values st'
             = nmf2_values st
               ++ map (fun i => Val (scale nm_avg
                                       (daily_scale (nth i f107_values 0%R) avg_f107)))
                    days).
Proof.
  assert (B : (1 / 2 <= daily_scale day_f107 avg_f107 <= 2)%R)
    by (unfold daily_scale; apply clip_bounds; lra).
  split; [| split; [| split; [| split; [| split]]]].
  - intros H. unfold daily_scale, raw_scale.
    destruct (Rlt_dec 70 avg_f107); [lra |].
    split; [reflexivity |]. apply clip_inside. lra.
  - intros H. unfold daily_scale, raw_scale.
    destruct (Rlt_dec 70 avg_f107); [| lra].
    repeat split; lra.
  - exact B.
  - unfold Rmin, Rmax. destruct (Rle_dec (1 / 2 * nm) (2 * nm)); nra.
  - reflexivity.
  - intros model month f107_values days Nm nm_avg nm_min nm_max st HN HE.
    now apply monthly_days_values with (Nm := Nm) (nm_min := nm_min) (nm_max := nm_max).
Qed.

End YearDailySeries.

(** * The Year Daily Generator: the loop over the months *)

Module YearDailyLoop.
Import NumPy Py Calendar CalendarFacts Year YearDaily Instances.
Import CalendarNotions YearDailyNotions.

Ltac run_py :=
  unfold say, call, emit, append3;
  unfold bind, ret, lift, raise, try_except, modify, gets;
  cbn beta iota.


Lemma grown_refl st : grown 0 st st.
Proof. unfold grown. lia. Qed.

Lemma grown_trans a b st st' st'' :
  grown a st st' -> grown b st' st'' -> grown (a + b) st st''.
Proof. unfold grown. lia. Qed.

Lemma emit_grown e st : exists st', emit e st = (st', inr tt) /\ grown 0 st st'.
Proof. eexists. split; [reflexivity |]. unfold grown. simpl. lia. Qed.

Lemma append3_grown v mn mx st :
  exists st', append3 v mn mx st = (st', inr tt) /\ grown 1 st st'.
Proof.
  eexists. split; [reflexivity |]. unfold grown. simpl. rewrite !length_app. simpl. lia.
Qed.

(** ** The days of a month among the dates of the year *)

Lemma filter_none {A} (p : A -> bool) (l : list A) :
  (forall x, In x l -> p x = false) -> filter p l = [].
Proof.
  induction l as [| x l IH]; intros H; simpl; [reflexivity |].
  rewrite (H x) by now left. apply IH. intros y Hy. apply H. now right.
Qed.

Lemma filter_range a b n :
  a + b <= n ->
  filter (fun i => (a <=? i) && (i <? a + b)) (seq 0 n) = seq a b.
Proof.
  revert a b. induction n as [| n IH]; intros a b H.
  - assert (b = 0) by lia. subst. reflexivity.
  - destruct b as [| b].
    + change (seq a 0) with (@nil nat). apply filter_none. intros i _.
      destruct (Nat.leb_spec a i), (Nat.ltb_spec i (a + 0)); try lia; reflexivity.
    + rewrite seq_S, filter_app. cbn [filter]. rewrite Nat.add_0_l.
      destruct (Nat.leb_spec a n), (Nat.ltb_spec n (a + S b)); cbn [andb]; try lia.
      * assert (n = a + b) by lia. subst n.
        rewrite (seq_S b a). f_equal.
        rewrite <- (IH a b) by lia.
        apply filter_ext_in. intros i Hi. apply in_seq in Hi.
        destruct (Nat.leb_spec a i), (Nat.ltb_spec i (a + b)), (Nat.ltb_spec i (a + S b));
          try lia; reflexivity.
      * rewrite app_nil_r. apply IH. lia.
Qed.

Lemma combine_seq_map (f : nat -> Z) n :
  combine (seq 0 n) (map f (seq 0 n)) = map (fun i => (i, f i)) (seq 0 n).
Proof.
  generalize 0. induction n as [| n IH]; intros s; simpl; [reflexivity |].
  now rewrite IH.
Qed.

Lemma filter_map_swap {A B} (g : A -> B) (p : B -> bool) (l : list A) :
  filter p (map g l) = map g (filter (fun x => p (g x)) l).
Proof.
  induction l as [| x l IH]; simpl; [reflexivity |].
  destruct (p (g x)); simpl; now rewrite IH.
Qed.

Lemma month_days_of_year (o ms : Z) (n dim : nat) :
  (o <= ms)%Z -> (ms - o + Z.of_nat dim <= Z.of_nat n)%Z ->
  month_days_of (map (fun i => (o + Z.of_nat i)%Z) (seq 0 n)) ms (ms + Z.of_nat dim)
  = seq (Z.to_nat (ms - o)) dim.
Proof.
  intros H1 H2. unfold month_days_of.
  rewrite length_map, length_seq, combine_seq_map, filter_map_swap, map_map. cbn [fst snd].
  rewrite map_id.
  rewrite <- (filter_range (Z.to_nat (ms - o)) dim (n := n)) by lia.
  apply filter_ext. intros i.
  destruct (Z.leb_spec ms (o + Z.of_nat i)), (Z.ltb_spec (o + Z.of_nat i) (ms + Z.of_nat dim)),
    (Nat.leb_spec (Z.to_nat (ms - o)) i), (Nat.ltb_spec i (Z.to_nat (ms - o) + dim));
    try lia; reflexivity.
Qed.

(** ** Loops whose body appends once or raises *)

Section Loops.
Context {X : Type}.
Variable body : X -> M St unit.
Variable ok : X -> bool.
Hypothesis body_ok :
  forall x st, ok x = true -> exists st', body x st = (st', inr tt) /\ grown 1 st st'.
Hypothesis body_fails :
  forall x st, ok x = false -> exists st' e, body x st = (st', inl e) /\ grown 0 st st'.

Lemma for_each_all_ok (l : list X) : forall st,
  forallb ok l = true ->
  exists st', for_each l body st = (st', inr tt) /\ grown (length l) st st'.
Proof.
  induction l as [| x l IH]; intros st H.
  - exists st. split; [reflexivity | apply grown_refl].
  - simpl in H. apply andb_prop in H as [Hx Hl].
    destruct (@body_ok x st Hx) as (st1 & E1 & G1).
    destruct (IH st1 Hl) as (st2 & E2 & G2).
    exists st2. split.
    + simpl. unfold bind. now rewrite E1.
    + change (length (x :: l)) with (1 + length l). eapply grown_trans; eauto.
Qed.

Lemma for_each_first_failure (l1 l2 : list X) x : forall st,
  forallb ok l1 = true -> ok x = false ->
  exists st' e, for_each (l1 ++ x :: l2) body st = (st', inl e)
                /\ grown (length l1) st st'.
Proof.
  induction l1 as [| y l1 IH]; intros st H Hx.
  - destruct (@body_fails x st Hx) as (st1 & e & E1 & G1).
    exists st1, e. split; [| exact G1].
    simpl. unfold bind. now rewrite E1.
  - simpl in H. apply andb_prop in H as [Hy Hl].
    destruct (@body_ok y st Hy) as (st1 & E1 & G1).
    destruct (IH st1 Hl Hx) as (st2 & e & E2 & G2).
    exists st2, e. split.
    + simpl. unfold bind. now rewrite E1.
    + change (length (y :: l1)) with (1 + length l1). eapply grown_trans; eauto.
Qed.


End Loops.

End YearDailyLoop.

Module YearDailyMonths.
Import NumPy Py Calendar CalendarFacts Year YearDaily Instances YearDailySeries YearDailyLoop.
Import CalendarNotions YearDailyNotions.





Lemma edp_days_eq model dates f107_values month_days :
  edp_days model dates f107_values month_days
  = for_each month_days (edp_day model dates f107_values).
Proof. reflexivity. Qed.

Lemma edp_day_ok model dates f107_values i st :
  day_ok model dates f107_values i = true ->
  exists st', edp_day model dates f107_values i st = (st', inr tt) /\ grown 1 st st'.
Proof.
  unfold day_ok, edp_day. run_py.
  destruct (list_index dates i) as [e | date]; [discriminate |].
  destruct (IRI_density_1day model date _) as [e | Nm]; [discriminate |].
  destruct (extract_nm Nm) as [e | nm]; [discriminate |]. intros _.
  eexists. split; [reflexivity |]. unfold grown. simpl. rewrite !length_app. simpl. lia.
Qed.

Lemma edp_day_fails model dates f107_values i st :
  day_ok model dates f107_values i = false ->
  exists st' e, edp_day model dates f107_values i st = (st', inl e) /\ grown 0 st st'.
Proof.
  unfold day_ok, edp_day. run_py.
  destruct (list_index dates i) as [e | date].
  - intros _. eexists _, _. split; [reflexivity | apply grown_refl].
  - destruct (IRI_density_1day model date _) as [e | Nm].
    + intros _. eexists _, _. split; [reflexivity |]. unfold grown. simpl. lia.
    + destruct (extract_nm Nm) as [e | nm]; [| discriminate].
      intros _. eexists _, _. split; [reflexivity |]. unfold grown. simpl. lia.
Qed.

Lemma fill_nan_grown (l : list nat) st :
  exists st', fill_nan l st = (st', inr tt) /\ grown (length l) st st'.
Proof.
  unfold fill_nan.
  apply (for_each_all_ok (fun _ : nat => append3 NaN NaN NaN) (fun _ => true)).
  - intros x st0 _. apply append3_grown.
  - clear. induction l; simpl; auto.
Qed.

(** Lines 152-179: one call, then one entry per day; or an exception
    before anything is appended. *)
Lemma monthly_days_grown model month f107_values l avg st :
  (exists st', monthly_days model month f107_values l avg st = (st', inr tt)
               /\ grown (length l) st st')
  \/ (exists st' e, monthly_days model month f107_values l avg st = (st', inl e)
                    /\ grown 0 st st').
Proof.
  unfold monthly_days. run_py.
  destruct (IRI_monthly_mean_par model month) as [e | Nm].
  - right. eexists _, _. split; [reflexivity |]. unfold grown. simpl. lia.
  - destruct (extract_monthly Nm) as [e | [[nm_avg nm_min] nm_max]].
    + right. eexists _, _. split; [reflexivity |]. unfold grown. simpl. lia.
    + left.
      match goal with
      | |- context [for_each l ?b ?s] =>
          destruct (for_each_all_ok b (fun _ => true)
                      (fun x st0 _ => append3_grown _ _ _ st0) l s) as (st' & E & G)
      end.
      { clear. induction l; simpl; auto. }
      exists st'. split; [exact E |].
      unfold grown in *. simpl in G. exact G.
Qed.

Lemma bind_lift_inr {S A B} (x : A) (k : A -> M S B) : bind (lift (inr x)) k = k x.
Proof. reflexivity. Qed.


Lemma month_len_pos y month : (1 <= month <= 12)%Z -> 28 <= month_len y month <= 31.
Proof. intros H. unfold month_len. pose proof (days_in_month_pos y H). lia. Qed.

Lemma month_block_eq (args : Args) (model : Model) (f107_values : list R) (month : Z) :
  (1 <= year args <= 9998)%Z -> (1 <= month <= 12)%Z ->
  month_block args model (dates_of (year args)) f107_values month
  = bind (say (MsgMonth month)) (fun _ => month_try args model f107_values month).
Proof.
  intros Hy Hm. unfold month_block, month_try, month_work, month_except. cbv zeta.
  rewrite datetime_first_of_month by lia.
  change (if (month =? 12)%Z then datetime (year args + 1) 1 1
          else datetime (year args) (month + 1) 1)
    with (next_month_start (year args) month).
  rewrite month_span by lia. rewrite !bind_lift_inr.
  pose proof (month_offset (year args) Hm) as [O1 O2].
  pose proof (days_in_month_pos (year args) Hm) as Hd.
  replace (ymd2ord (year args) month 1 + days_in_month (year args) month)%Z
    with (ymd2ord (year args) month 1 + Z.of_nat (month_len (year args) month))%Z
    by (unfold month_len; lia).
  assert (Em : month_days_of (dates_of (year args)) (ymd2ord (year args) month 1)
                 (ymd2ord (year args) month 1 + Z.of_nat (month_len (year args) month))
               = seq (month_off (year args) month) (month_len (year args) month)).
  { unfold dates_of, month_off. apply month_days_of_year; unfold month_len; lia. }
  rewrite !Em.
  pose proof (month_len_pos (year args) Hm) as Hl.
  destruct (month_len (year args) month) as [| k] eqn:E; [lia |].
  reflexivity.
Qed.

Lemma say_grown m st : exists st', say m st = (st', inr tt) /\ grown 0 st st'.
Proof. apply emit_grown. Qed.

(** A month in the monthly-mean path: one entry per day, whether the
    model call went through or not. *)
Lemma month_try_monthly (args : Args) (model : Model) (f107_values : list R) (month : Z) st :
  use_edp args = false ->
  exists st', month_try args model f107_values month st = (st', inr tt)
              /\ grown (month_len (year args) month) st st'.
Proof.
  intros Hu. unfold month_try, month_work, month_except. cbv zeta. rewrite Hu.
  set (days := seq _ _).
  assert (Hl : length days = month_len (year args) month) by (apply length_seq).
  unfold try_except, bind.
  destruct (monthly_days_grown model month f107_values days
              (mean (map (fun i => nth i f107_values 0%R) days)) st)
    as [(st1 & E & G) | (st1 & e & E & G)]; rewrite E.
  - destruct (say_grown MsgOk st1) as (st2 & E2 & G2). rewrite E2.
    exists st2. split; [reflexivity |].
    rewrite <- Hl, <- (Nat.add_0_r (length days)). eapply grown_trans; eauto.
  - destruct (say_grown (MsgError month e) st1) as (st2 & E2 & G2). rewrite E2.
    destruct (fill_nan_grown days st2) as (st3 & E3 & G3). rewrite E3.
    exists st3. split; [reflexivity |].
    rewrite <- Hl. change (length days) with (0 + 0 + length days).
    eapply grown_trans; [eapply grown_trans |]; eauto.
Qed.

(** A month in the [--use-edp] path whose days all go through. *)
Lemma month_try_edp_ok (args : Args) (model : Model) (f107_values : list R) (month : Z) st :
  use_edp args = true ->
  forallb (day_ok model (dates_of (year args)) f107_values)
    (seq (month_off (year args) month) (month_len (year args) month)) = true ->
  exists st', month_try args model f107_values month st = (st', inr tt)
              /\ grown (month_len (year args) month) st st'.
Proof.
  intros Hu Hok. unfold month_try, month_work, month_except. cbv zeta. rewrite Hu, edp_days_eq.
  set (days := seq _ _) in *.
  assert (Hl : length days = month_len (year args) month) by (apply length_seq).
  unfold try_except, bind.
  destruct (for_each_all_ok _ _
              (edp_day_ok model (dates_of (year args)) f107_values) days st Hok)
    as (st1 & E & G).
  rewrite E.
  destruct (say_grown MsgOk st1) as (st2 & E2 & G2). rewrite E2.
  exists st2. split; [reflexivity |].
  rewrite <- Hl, <- (Nat.add_0_r (length days)). eapply grown_trans; eauto.
Qed.

(** A month in the [--use-edp] path where the model raises after
    [length before] days: those entries stay, and the handler adds one
    NaN for every day of the month. *)
Lemma month_try_edp_fails (args : Args) (model : Model) (f107_values : list R) (month : Z)
    (before after : list nat) (bad : nat) st :
  use_edp args = true ->
  seq (month_off (year args) month) (month_len (year args) month) = before ++ bad :: after ->
  forallb (day_ok model (dates_of (year args)) f107_values) before = true ->
  day_ok model (dates_of (year args)) f107_values bad = false ->
  exists st', month_try args model f107_values month st = (st', inr tt)
              /\ grown (length before + month_len (year args) month) st st'.
Proof.
  intros Hu Hs Hok Hbad. unfold month_try, month_work, month_except. cbv zeta. rewrite Hu, edp_days_eq.
  assert (Hl : length (seq (month_off (year args) month) (month_len (year args) month))
               = month_len (year args) month) by (apply length_seq).
  set (days := seq _ _) in *.
  unfold try_except, bind.
  destruct (for_each_first_failure _ _
              (edp_day_ok model (dates_of (year args)) f107_values)
              (edp_day_fails model (dates_of (year args)) f107_values)
              before after bad st Hok Hbad) as (st1 & e & E & G).
  rewrite <- Hs in E. rewrite E.
  destruct (say_grown (MsgError month e) st1) as (st2 & E2 & G2). rewrite E2.
  destruct (fill_nan_grown days st2) as (st3 & E3 & G3). rewrite E3.
  exists st3. split; [reflexivity |].
  rewrite <- Hl. replace (length before + length days)
    with (length before + 0 + length days) by lia.
  eapply grown_trans; [eapply grown_trans |]; eauto.
Qed.




End YearDailyMonths.

(** ** Year Daily Generator: the loop over the twelve months *)

Module YearDailyYear.
Import NumPy Py Calendar CalendarFacts Year YearDaily Instances.
Import CalendarNotions YearDailyNotions.
Import YearDailySeries YearDailyLoop YearDailyMonths.
Import Examples YearExamples.
Local Open Scope nat_scope.


Lemma month_block_monthly (args : Args) (model : Model) (f107_values : list R) (month : Z) st :
  (1 <= year args <= 9998)%Z -> (1 <= month <= 12)%Z -> use_edp args = false ->
  exists st',
    month_block args model (dates_of (year args)) f107_values month st = (st', inr tt)
    /\ grown (month_len (year args) month) st st'.
Proof.
  intros Hy Hm Hu. rewrite month_block_eq by assumption. unfold bind.
  destruct (say_grown (MsgMonth month) st) as (st1 & E1 & G1). rewrite E1.
  destruct (month_try_monthly args model f107_values month st1 Hu) as (st2 & E2 & G2).
  exists st2. split; [exact E2 |].
  change (month_len (year args) month) with (0 + month_len (year args) month).
  eapply grown_trans; eauto.
Qed.

Lemma month_block_edp_ok (args : Args) (model : Model) (f107_values : list R) (month : Z) st :
  (1 <= year args <= 9998)%Z -> (1 <= month <= 12)%Z -> use_edp args = true ->
  forallb (day_ok model (dates_of (year args)) f107_values)
    (seq (month_off (year args) month) (month_len (year args) month)) = true ->
  exists st',
    month_block args model (dates_of (year args)) f107_values month st = (st', inr tt)
    /\ grown (month_len (year args) month) st st'.
Proof.
  intros Hy Hm Hu Hok. rewrite month_block_eq by assumption. unfold bind.
  destruct (say_grown (MsgMonth month) st) as (st1 & E1 & G1). rewrite E1.
  destruct (month_try_edp_ok args model f107_values month st1 Hu Hok) as (st2 & E2 & G2).
  exists st2. split; [exact E2 |].
  change (month_len (year args) month) with (0 + month_len (year args) month).
  eapply grown_trans; eauto.
Qed.

Lemma month_block_edp_fails (args : Args) (model : Model) (f107_values : list R) (month : Z)
    (before after : list nat) (bad : nat) st :
  (1 <= year args <= 9998)%Z -> (1 <= month <= 12)%Z -> use_edp args = true ->
  seq (month_off (year args) month) (month_len (year args) month) = before ++ bad :: after ->
  forallb (day_ok model (dates_of (year args)) f107_values) before = true ->
  day_ok model (dates_of (year args)) f107_values bad = false ->
  exists st',
    month_block args model (dates_of (year args)) f107_values month st = (st', inr tt)
    /\ grown (length before + month_len (year args) month) st st'.
Proof.
  intros Hy Hm Hu Hs Hok Hbad. rewrite month_block_eq by assumption. unfold bind.
  destruct (say_grown (MsgMonth month) st) as (st1 & E1 & G1). rewrite E1.
  destruct (@month_try_edp_fails args model f107_values month before after bad st1
              Hu Hs Hok Hbad) as (st2 & E2 & G2).
  exists st2. split; [exact E2 |].
  change (length before + month_len (year args) month)
    with (0 + (length before + month_len (year args) month)).
  eapply grown_trans; eauto.
Qed.

(** A loop whose every turn ends normally and grows the series by a
    number of entries between two bounds. *)
Section Turns.
Variable X : Type.
Variable body : X -> M St unit.
Variables lo hi : X -> nat.

Lemma for_each_bounds (l : list X) :
  Forall (fun x => forall st, exists st' n,
            body x st = (st', inr tt) /\ grown n st st' /\ lo x <= n <= hi x) l ->
  forall st, exists st' n,
    for_each l body st = (st', inr tt) /\ grown n st st'
    /\ list_sum (map lo l) <= n <= list_sum (map hi l).
Proof.
  induction 1 as [| x l Hx _ IH]; intros st.
  - exists st, 0. split; [reflexivity |]. split; [apply grown_refl | simpl; lia].
  - destruct (Hx st) as (st1 & n1 & E1 & G1 & B1).
    destruct (IH st1) as (st2 & n2 & E2 & G2 & B2).
    exists st2, (n1 + n2). split.
    + cbn [for_each]. unfold bind. rewrite E1. exact E2.
    + split; [eapply grown_trans; eauto |]. cbn [map]. change (list_sum (lo x :: map lo l)) with (lo x + list_sum (map lo l)).
      change (list_sum (hi x :: map hi l)) with (hi x + list_sum (map hi l)). lia.
Qed.

End Turns.

Lemma months_range : Forall (fun m => (1 <= m <= 12)%Z) months.
Proof. unfold months. cbn. repeat constructor; lia. Qed.

(** The months of a year add up to the year. *)
Lemma sum_month_len (y : Z) :
  list_sum (map (month_len y) months) = days_in_year y.
Proof.
  unfold months, month_len, days_in_month, days_in_year. cbn [seq map list_sum fold_right].
  month_tables. destruct (is_leap y); reflexivity.
Qed.


(** Without [--use-edp] every series gets exactly one entry per day,
    failed months included. *)
Lemma month_loop_monthly (args : Args) (model : Model) (f107_values : list R) st :
  (1 <= year args <= 9998)%Z -> use_edp args = false ->
  exists st',
    month_loop args model (dates_of (year args)) f107_values st = (st', inr tt)
    /\ grown (days_in_year (year args)) st st'.
Proof.
  intros Hy Hu. unfold month_loop.
  destruct (@for_each_bounds Z (month_block args model (dates_of (year args)) f107_values)
              (month_len (year args)) (month_len (year args)) months)
    with (st := st) as (st' & n & E & G & B).
  - eapply Forall_impl; [| apply months_range].
    intros m Hm st0.
    destruct (month_block_monthly args model f107_values st0 Hy Hm Hu) as (st1 & E1 & G1).
    exists st1, (month_len (year args) m). split; [exact E1 |]. split; [exact G1 | lia].
  - exists st'. split; [exact E |].
    rewrite sum_month_len in B. replace (days_in_year (year args)) with n by lia. exact G.
Qed.

(** *** A model call that fails on 2 January *)

Lemma list_index_dates_of (y : Z) (i : nat) :
  i < days_in_year y -> list_index (dates_of y) i = inr (ymd2ord y 1 1 + Z.of_nat i)%Z.
Proof.
  intros Hi. unfold list_index, dates_of.
  rewrite nth_error_map.
  rewrite (@nth_error_nth' nat (seq 0 (days_in_year y)) i 0)
    by (rewrite length_seq; exact Hi).
  rewrite seq_nth by exact Hi. reflexivity.
Qed.

Lemma jan_2_fails (y : Z) (f107_values : list R) :
  day_ok (fails_on_jan_2 y) (dates_of y) f107_values 1 = false.
Proof.
  unfold day_ok. rewrite list_index_dates_of by (unfold days_in_year; destruct (is_leap y); lia).
  cbn [fails_on_jan_2 IRI_density_1day].
  replace (ymd2ord y 1 1 + Z.of_nat 1 =? ymd2ord y 1 2)%Z with true; [reflexivity |].
  symmetry. apply Z.eqb_eq. unfold ymd2ord. lia.
Qed.

Lemma other_days_pass (y : Z) (f107_values : list R) (i : nat) :
  i < days_in_year y -> i <> 1 ->
  day_ok (fails_on_jan_2 y) (dates_of y) f107_values i = true.
Proof.
  intros Hi Hne. unfold day_ok. rewrite list_index_dates_of by exact Hi.
  cbn [fails_on_jan_2 IRI_density_1day].
  replace (ymd2ord y 1 1 + Z.of_nat i =? ymd2ord y 1 2)%Z with false; [reflexivity |].
  symmetry. apply Z.eqb_neq. unfold ymd2ord. lia.
Qed.

Lemma january (y : Z) : month_off y 1 = 0 /\ month_len y 1 = 31.
Proof.
  unfold month_off, month_len, days_in_month. split; [lia |]. month_tables. reflexivity.
Qed.

Lemma later_months (y month : Z) :
  (2 <= month <= 12)%Z ->
  2 <= month_off y month /\ month_off y month + month_len y month <= days_in_year y.
Proof.
  intros Hm. destruct (@month_offset y month) as [H0 H1]; [lia |].
  pose proof (@days_in_month_pos y month) as Hp.
  unfold month_off, month_len. split; [| lia].
  unfold ymd2ord, days_before_month.
  assert (E : (month = 2 \/ month = 3 \/ month = 4 \/ month = 5 \/ month = 6
               \/ month = 7 \/ month = 8 \/ month = 9 \/ month = 10 \/ month = 11
               \/ month = 12)%Z) by lia.
  repeat (destruct E as [-> | E]; [month_tables; destruct (is_leap y); lia |]).
  subst. month_tables. destruct (is_leap y); lia.
Qed.


Lemma month_block_when_jan_2_fails (y : Z) (f107_values : list R) (month : Z) st :
  (1 <= y <= 9998)%Z -> (1 <= month <= 12)%Z ->
  exists st',
    month_block (edp_args y) (fails_on_jan_2 y) (dates_of y) f107_values month st
    = (st', inr tt)
    /\ grown (entries_when_jan_2_fails y month) st st'.
Proof.
  intros Hy Hm. unfold entries_when_jan_2_fails.
  destruct (Z.eqb_spec month 1) as [-> | Hne].
  - destruct (january y) as [Ho Hl].
    apply (@month_block_edp_fails (edp_args y) (fails_on_jan_2 y) f107_values 1
             [0] (seq 2 29) 1 st); try assumption; try reflexivity.
    + cbn [edp_args year]. rewrite Ho, Hl. reflexivity.
    + cbn [edp_args year forallb]. rewrite other_days_pass; [reflexivity | | lia].
      unfold days_in_year. destruct (is_leap y); lia.
    + apply jan_2_fails.
  - apply month_block_edp_ok; try assumption; try reflexivity.
    cbn [edp_args year]. apply forallb_forall. intros i Hi. apply in_seq in Hi.
    destruct (@later_months y month) as [H2 Hd]; [lia |].
    apply other_days_pass; lia.
Qed.

Lemma sum_entries_when_jan_2_fails (y : Z) :
  list_sum (map (entries_when_jan_2_fails y) months) = S (days_in_year y).
Proof.
  rewrite <- sum_month_len. unfold months, entries_when_jan_2_fails.
  cbn [seq map]. cbn [Z.of_nat Pos.of_succ_nat Pos.succ Z.eqb Pos.eqb]. reflexivity.
Qed.

Lemma month_loop_when_jan_2_fails (y : Z) (f107_values : list R) st :
  (1 <= y <= 9998)%Z ->
  exists st',
    month_loop (edp_args y) (fails_on_jan_2 y) (dates_of y) f107_values st = (st', inr tt)
    /\ grown (S (days_in_year y)) st st'.
Proof.
  intros Hy. unfold month_loop.
  destruct (@for_each_bounds Z
              (month_block (edp_args y) (fails_on_jan_2 y) (dates_of y) f107_values)
              (entries_when_jan_2_fails y) (entries_when_jan_2_fails y) months)
    with (st := st) as (st' & n & E & G & B).
  - eapply Forall_impl; [| apply months_range].
    intros m Hm st0.
    destruct (@month_block_when_jan_2_fails y f107_values m st0 Hy Hm) as (st1 & E1 & G1).
    exists st1, (entries_when_jan_2_fails y m). split; [exact E1 |]. split; [exact G1 | lia].
  - exists st'. split; [exact E |].
    rewrite sum_entries_when_jan_2_fails in B.
    replace (S (days_in_year y)) with n by lia. exact G.
Qed.

End YearDailyYear.

(** ** Year Monthly Generator: what a month stores *)

Module YearPlotFacts.
Import NumPy Py Calendar CalendarFacts Year YearPlot Instances.
Import CalendarNotions YearPlotNotions.
Local Open Scope nat_scope.

Ltac run_py :=
  unfold say, call, emit, append_date, append_f107, append_nmf2, append_min, append_max,
    set_min_val, set_max_val;
  unfold bind, ret, lift, raise, try_except, modify, gets;
  cbn beta iota.










Lemma stored_refl f v mn mx st : stored [] f v mn mx st st.
Proof. unfold stored. cbn [length repeat]. rewrite !app_nil_r. tauto. Qed.

Lemma stored_trans ds1 ds2 f v mn mx st st' st'' :
  stored ds1 f v mn mx st st' -> stored ds2 f v mn mx st' st'' ->
  stored (ds1 ++ ds2) f v mn mx st st''.
Proof.
  unfold stored. intros (A1 & A2 & A3 & A4 & A5) (B1 & B2 & B3 & B4 & B5).
  rewrite B1, B2, B3, B4, B5, A1, A2, A3, A4, A5.
  rewrite length_app, !repeat_app, <- !app_assoc. tauto.
Qed.

Lemma stored_after st0 ds f v mn mx st st' :
  same_series st0 st -> stored ds f v mn mx st st' -> stored ds f v mn mx st0 st'.
Proof.
  unfold stored, same_series. intros (A1 & A2 & A3 & A4 & A5) (B1 & B2 & B3 & B4 & B5).
  rewrite B1, B2, B3, B4, B5, A1, A2, A3, A4, A5. tauto.
Qed.

Lemma stored_before st0 ds f v mn mx st st' :
  stored ds f v mn mx st st' -> same_series st' st0 -> stored ds f v mn mx st st0.
Proof.
  unfold stored, same_series. intros (A1 & A2 & A3 & A4 & A5) (B1 & B2 & B3 & B4 & B5).
  rewrite B1, B2, B3, B4, B5, A1, A2, A3, A4, A5. tauto.
Qed.

Lemma emit_same e st : same_series st (fst (emit e st)) /\ same_locals st (fst (emit e st)).
Proof. unfold same_series, same_locals. cbn. tauto. Qed.

Lemma valid_day (y month day : Z) :
  (1 <= y <= 9999)%Z -> (1 <= month <= 12)%Z -> (1 <= day <= days_in_month y month)%Z ->
  valid_date y month day = true.
Proof.
  intros Hy Hm Hd. unfold valid_date, MINYEAR, MAXYEAR.
  repeat (apply andb_true_intro; split); apply Z.leb_le; lia.
Qed.

Lemma datetime_at_day (y month day h : Z) :
  (1 <= y <= 9999)%Z -> (1 <= month <= 12)%Z -> (1 <= day <= days_in_month y month)%Z ->
  (0 <= h <= 23)%Z ->
  datetime_at y month day h = inr (ymd2ord y month day, h).
Proof.
  intros Hy Hm Hd Hh. unfold datetime_at. rewrite valid_day by assumption.
  rewrite (proj2 (Z.leb_le 0 h)), (proj2 (Z.leb_le h 23)) by lia. reflexivity.
Qed.

Lemma days_of_range (dim : Z) : Forall (fun d => (1 <= d <= dim)%Z) (days_of dim).
Proof.
  unfold days_of. apply Forall_forall. intros d Hd.
  apply in_map_iff in Hd as (k & <- & Hk). apply in_seq in Hk. lia.
Qed.

Lemma length_days_of (dim : Z) : length (days_of dim) = Z.to_nat dim.
Proof. unfold days_of. now rewrite length_map, length_seq. Qed.

(** Lines 160-166: the handler stores one NaN per day in each series. *)
Lemma store_nan_loop (args : Args) (month : Z) (f : R) (l : list Z) :
  (1 <= year args <= 9999)%Z -> (1 <= month <= 12)%Z -> (0 <= hour args <= 23)%Z ->
  Forall (fun d => (1 <= d <= days_in_month (year args) month)%Z) l ->
  forall st, exists st',
    for_each l (store_nan args month f) st = (st', inr tt)
    /\ log st' = log st /\ same_locals st st'
    /\ stored (stamps args month l) f NaN NaN NaN st st'.
Proof.
  intros Hy Hm Hh. induction 1 as [| d l Hd _ IH]; intros st.
  - exists st. split; [reflexivity |]. split; [reflexivity |].
    split; [split; reflexivity | apply stored_refl].
  - cbn [for_each]. unfold bind at 1. unfold store_nan at 1.
    rewrite datetime_at_day by assumption. run_py.
    match goal with
    | |- context [for_each l _ ?s] => destruct (IH s) as (st' & E & L & (K1 & K2) & G)
    end.
    exists st'. split; [exact E |]. split; [rewrite L; reflexivity |].
    split; [split; [rewrite K1 | rewrite K2]; reflexivity |].
    change (stamps args month (d :: l))
      with ([(ymd2ord (year args) month d, hour args)] ++ stamps args month l).
    eapply stored_trans; [| exact G].
    unfold stored. cbn. tauto.
Qed.

(** Lines 133-155: a day that goes through stores the month's value. *)
Lemma store_day_ok (args : Args) (month : Z) (f : R) (nm_data : ndarray R) (d : Z)
    (x : R) (cmn cmx : cell) st :
  (1 <= year args <= 9999)%Z -> (1 <= month <= 12)%Z -> (0 <= hour args <= 23)%Z ->
  (1 <= d <= days_in_month (year args) month)%Z ->
  to_float nm_data = inr x ->
  day_cells x (nm_min_val st) (nm_max_val st) = Some (cmn, cmx) ->
  exists st',
    store_day args month f nm_data d st = (st', inr tt)
    /\ log st' = log st /\ same_locals st st'
    /\ stored [(ymd2ord (year args) month d, hour args)] f (float_cell x) cmn cmx st st'.
Proof.
  intros Hy Hm Hh Hd Hx Hc. unfold store_day.
  rewrite datetime_at_day by assumption. rewrite Hx. run_py.
  unfold day_cells in Hc.
  destruct (nm_min_val st) as [a |] eqn:Ea; destruct (nm_max_val st) as [b |] eqn:Eb;
    cbn [nm_min_val nm_max_val]; rewrite ?Ea, ?Eb.
  - destruct (to_float a) as [e | lo]; [discriminate |].
    destruct (to_float b) as [e | hi]; [discriminate |].
    injection Hc as <- <-.
    eexists. split; [reflexivity |]. split; [reflexivity |].
    unfold stored, same_locals. cbn. rewrite Ea, Eb. tauto.
  - injection Hc as <- <-.
    eexists. split; [reflexivity |]. split; [reflexivity |].
    unfold stored, same_locals. cbn. rewrite Ea, Eb. tauto.
  - injection Hc as <- <-.
    eexists. split; [reflexivity |]. split; [reflexivity |].
    unfold stored, same_locals. cbn. rewrite Ea, Eb. tauto.
  - injection Hc as <- <-.
    eexists. split; [reflexivity |]. split; [reflexivity |].
    unfold stored, same_locals. cbn. rewrite Ea, Eb. tauto.
Qed.

Lemma store_day_loop (args : Args) (month : Z) (f : R) (nm_data : ndarray R)
    (x : R) (cmn cmx : cell) (l : list Z) :
  (1 <= year args <= 9999)%Z -> (1 <= month <= 12)%Z -> (0 <= hour args <= 23)%Z ->
  to_float nm_data = inr x ->
  Forall (fun d => (1 <= d <= days_in_month (year args) month)%Z) l ->
  forall st,
    day_cells x (nm_min_val st) (nm_max_val st) = Some (cmn, cmx) ->
    exists st',
      for_each l (store_day args month f nm_data) st = (st', inr tt)
      /\ log st' = log st /\ same_locals st st'
      /\ stored (stamps args month l) f (float_cell x) cmn cmx st st'.
Proof.
  intros Hy Hm Hh Hx. induction 1 as [| d l Hd _ IH]; intros st Hc.
  - exists st. split; [reflexivity |]. split; [reflexivity |].
    split; [split; reflexivity | apply stored_refl].
  - destruct (@store_day_ok args month f nm_data d x cmn cmx st Hy Hm Hh Hd Hx Hc)
      as (st1 & E1 & L1 & (K1 & K1') & G1).
    assert (Hc1 : day_cells x (nm_min_val st1) (nm_max_val st1) = Some (cmn, cmx)).
    { rewrite K1, K1'. exact Hc. }
    destruct (IH st1 Hc1) as (st2 & E2 & L2 & (K2 & K2') & G2).
    exists st2. split.
    + cbn [for_each]. unfold bind. rewrite E1. exact E2.
    + split; [congruence |]. split; [split; congruence |].
      change (stamps args month (d :: l))
        with ([(ymd2ord (year args) month d, hour args)] ++ stamps args month l).
      eapply stored_trans; eauto.
Qed.

Lemma plot_bind_lift_inr {A B} (a : A) (k : A -> M St B) : bind (lift (inr a)) k = k a.
Proof. reflexivity. Qed.

(** Lines 80-166 in a year and month of the calendar. *)
Lemma plot_month_block_eq (args : Args) (rng : Rng) (model : Model) (month : Z) :
  (1 <= year args <= 9998)%Z -> (1 <= month <= 12)%Z ->
  month_block args rng model month
  = bind (say (MsgMonth month)) (fun _ => month_try args rng model month).
Proof.
  intros Hy Hm. unfold month_block, month_try, month_body, month_handler. cbv zeta.
  change (if (month =? 12)%Z then datetime (year args + 1) 1 1
          else datetime (year args) (month + 1) 1)
    with (next_month_start (year args) month).
  rewrite month_span by lia. rewrite datetime_first_of_month by lia.
  rewrite !plot_bind_lift_inr.
  replace (ymd2ord (year args) month 1 + days_in_month (year args) month
           - ymd2ord (year args) month 1)%Z
    with (days_in_month (year args) month) by lia.
  reflexivity.
Qed.

End YearPlotFacts.

(** ** Year Monthly Generator: a month, and the twelve of them *)

Module YearPlotMonths.
Import NumPy Py Calendar CalendarFacts Year YearPlot Instances YearPlotFacts.
Import CalendarNotions YearPlotNotions.
Local Open Scope nat_scope.

Lemma length_stamps args month l : length (stamps args month l) = length l.
Proof. apply length_map. Qed.

Lemma month_days_range (y month : Z) :
  Forall (fun d => (1 <= d <= days_in_month y month)%Z) (days_of (days_in_month y month)).
Proof. apply days_of_range. Qed.

(** Lines 157-166: the handler prints and stores one NaN per day. *)
Lemma month_handler_stores (args : Args) (rng : Rng) (month : Z) (e : exn) st :
  (1 <= year args <= 9999)%Z -> (1 <= month <= 12)%Z -> (0 <= hour args <= 23)%Z ->
  exists st',
    month_handler args rng month e st = (st', inr tt)
    /\ log st' = log st ++ [Print (MsgError month e)]
    /\ stored (stamps args month (days_of (days_in_month (year args) month)))
         (month_f107_of args rng month) NaN NaN NaN st st'.
Proof.
  intros Hy Hm Hh. unfold month_handler, bind.
  destruct (say (MsgError month e) st) as [st1 [e1 | []]] eqn:E1; [discriminate |].
  injection E1 as E1.
  destruct (@store_nan_loop args month (month_f107_of args rng month) _ Hy Hm Hh
              (month_days_range (year args) month) st1) as (st2 & E2 & L2 & _ & G2).
  exists st2. split; [exact E2 |]. split.
  - rewrite L2, <- E1. reflexivity.
  - eapply stored_after; [| exact G2]. rewrite <- E1. unfold same_series. cbn. tauto.
Qed.




(** A month whose model call raises: one NaN per day in each series. *)
Lemma month_block_model_fails (args : Args) (rng : Rng) (model : Model) (month : Z)
    (e : exn) st :
  (1 <= year args <= 9998)%Z -> (1 <= month <= 12)%Z -> (0 <= hour args <= 23)%Z ->
  IRI_monthly_mean_par model month = inl e ->
  exists st',
    month_block args rng model month st = (st', inr tt)
    /\ log st' = log st ++ [Print (MsgMonth month); Call (ml_IRI_monthly_mean_par month);
                            Print (MsgError month e)]
    /\ stored (stamps args month (days_of (days_in_month (year args) month)))
         (month_f107_of args rng month) NaN NaN NaN st st'.
Proof.
  intros Hy Hm Hh He. rewrite plot_month_block_eq by assumption.
  unfold bind at 1.
  destruct (say (MsgMonth month) st) as [st1 [e1 | []]] eqn:E1; [discriminate |].
  injection E1 as E1.
  unfold month_try, try_except, month_body. rewrite He. run_py.
  match goal with
  | |- context [month_handler args rng month e ?s] =>
      destruct (@month_handler_stores args rng month e s) as (st3 & E3 & L3 & G3);
        try assumption; try lia
  end.
  exists st3. split; [exact E3 |]. split.
  { rewrite L3, <- E1. cbn [log]. rewrite <- !app_assoc. reflexivity. }
  eapply stored_after; [| exact G3]. rewrite <- E1. unfold same_series. cbn. tauto.
Qed.

(** Lines 108-129 touch none of the five lists. *)
Lemma extract_same_series (Nm : ndarray R) st : same_series st (fst (extract Nm st)).
Proof.
  unfold extract. cbv zeta. run_py.
  repeat match goal with
         | |- context [match ?x with _ => _ end] => destruct x
         end;
    unfold same_series; cbn; tauto.
Qed.

(** Lines 133-155: a day adds to [all_nmf2] the value of [nm_data], or
    nothing when it raises before. *)
Lemma store_day_nmf2 (args : Args) (month : Z) (f : R) (nm_data : ndarray R) (d : Z) st :
  exists k, all_nmf2 (fst (store_day args month f nm_data d st))
            = all_nmf2 st ++ repeat (value_cell nm_data) k.
Proof.
  unfold store_day, value_cell. run_py.
  destruct (datetime_at _ _ _ _) as [e | date].
  - exists 0. cbn. now rewrite app_nil_r.
  - destruct (to_float nm_data) as [e | x].
    + exists 0. cbn. now rewrite app_nil_r.
    + exists 1. cbn [nm_min_val nm_max_val].
      repeat match goal with
             | |- context [match ?x with _ => _ end] => destruct x
             end; reflexivity.
Qed.

Lemma store_day_loop_nmf2 (args : Args) (month : Z) (f : R) (nm_data : ndarray R)
    (l : list Z) : forall st,
  exists k, all_nmf2 (fst (for_each l (store_day args month f nm_data) st))
            = all_nmf2 st ++ repeat (value_cell nm_data) k.
Proof.
  induction l as [| d l IH]; intros st.
  - exists 0. cbn. now rewrite app_nil_r.
  - cbn [for_each]. unfold bind.
    destruct (store_day_nmf2 args month f nm_data d st) as (k1 & E1).
    destruct (store_day args month f nm_data d st) as [st1 [e | []]].
    + exists k1. exact E1.
    + destruct (IH st1) as (k2 & E2). exists (k1 + k2).
      rewrite E2. cbn [fst] in E1. rewrite E1, repeat_app, app_assoc. reflexivity.
Qed.

(** Lines 100-155: everything the [try] part adds to [all_nmf2] is one
    and the same value. *)
Lemma month_body_nmf2 (args : Args) (rng : Rng) (model : Model) (month : Z) st :
  exists v k, all_nmf2 (fst (month_body args rng model month st))
              = all_nmf2 st ++ repeat v k.
Proof.
  unfold month_body. unfold bind at 1. unfold call, emit, modify.
  unfold bind at 1. unfold lift at 1.
  destruct (IRI_monthly_mean_par model month) as [e | Nm].
  - exists NaN, 0. cbn. now rewrite app_nil_r.
  - unfold bind.
    match goal with |- context [extract Nm ?s] => set (s1 := s) end.
    pose proof (extract_same_series Nm s1) as (_ & _ & S3 & _).
    destruct (extract Nm s1) as [s2 [e | nm_data]].
    + exists NaN, 0. cbn [fst] in *. rewrite S3. cbn. now rewrite app_nil_r.
    + destruct (store_day_loop_nmf2 args month (month_f107_of args rng month) nm_data
                  (days_of (days_in_month (year args) month)) s2) as (k & E).
      exists (value_cell nm_data), k. rewrite E. cbn [fst] in S3. rewrite S3. reflexivity.
Qed.

(** A month never stores two different values: every entry it adds to
    [all_nmf2] is NaN or one value [v]. *)
Lemma month_block_one_value (args : Args) (rng : Rng) (model : Model) (month : Z) st :
  (1 <= year args <= 9998)%Z -> (1 <= month <= 12)%Z -> (0 <= hour args <= 23)%Z ->
  exists st' v new,
    month_block args rng model month st = (st', inr tt)
    /\ all_nmf2 st' = all_nmf2 st ++ new
    /\ Forall (fun c => c = NaN \/ c = v) new.
Proof.
  intros Hy Hm Hh. rewrite plot_month_block_eq by assumption.
  unfold bind at 1.
  destruct (say (MsgMonth month) st) as [st1 [e1 | []]] eqn:E1; [discriminate |].
  injection E1 as E1.
  assert (S1 : all_nmf2 st1 = all_nmf2 st) by (rewrite <- E1; reflexivity).
  unfold month_try, try_except.
  destruct (month_body_nmf2 args rng model month st1) as (v & k & Eb).
  destruct (month_body args rng model month st1) as [st2 [e | []]]; cbn [fst] in Eb.
  - destruct (@month_handler_stores args rng month e st2) as (st3 & E3 & _ & G3);
      try assumption; try lia.
    destruct G3 as (_ & _ & G3 & _).
    exists st3, v, (repeat v k ++ repeat NaN
                      (length (stamps args month (days_of (days_in_month (year args) month))))).
    split; [exact E3 |]. split.
    + rewrite G3, Eb, S1, <- app_assoc. reflexivity.
    + apply Forall_app. split; apply Forall_forall; intros c Hc;
        apply repeat_spec in Hc; subst; auto.
  - exists st2, v, (repeat v k). split; [reflexivity |]. split.
    + rewrite Eb, S1. reflexivity.
    + apply Forall_forall. intros c Hc. apply repeat_spec in Hc. subst. auto.
Qed.

(** Lines 111-116 on an array of three axes with more than one solar
    level. *)
Lemma extract_three_axes (Nm nm_data a b : ndarray R) (s0 s1 s2 : nat) st :
  shape Nm = [s0; s1; s2] -> 1 < s2 ->
  getitem Nm [At 0; At 0; At 1] = inr nm_data ->
  getitem Nm [At 0; At 0; At 0] = inr a ->
  getitem Nm [At 0; At 0; At (-1)] = inr b ->
  exists st',
    extract Nm st = (st', inr nm_data)
    /\ log st' = log st ++ [Print (MsgShape [s0; s1; s2])]
    /\ same_series st st'
    /\ nm_min_val st' = Some a /\ nm_max_val st' = Some b.
Proof.
  intros Hs H2 Ed Ea Eb. unfold extract. cbv zeta. rewrite Hs.
  cbn [length Nat.eqb nth]. rewrite (proj2 (Nat.ltb_lt 1 s2) H2).
  rewrite Ed, Ea, Eb. run_py.
  eexists. split; [reflexivity |]. unfold same_series. cbn. tauto.
Qed.

(** A month that goes through, on such an array: every day of the month
    gets the same three numbers, the value [Nm[0, 0, 1]] between the
    bounds [Nm[0, 0, 0]] and [Nm[0, 0, -1]]. *)
Lemma month_block_repeats (args : Args) (rng : Rng) (model : Model) (month : Z)
    (Nm nm_data a b : ndarray R) (s0 s1 s2 : nat) (x lo hi : R) st :
  (1 <= year args <= 9998)%Z -> (1 <= month <= 12)%Z -> (0 <= hour args <= 23)%Z ->
  IRI_monthly_mean_par model month = inr Nm ->
  shape Nm = [s0; s1; s2] -> 1 < s2 ->
  getitem Nm [At 0; At 0; At 1] = inr nm_data ->
  getitem Nm [At 0; At 0; At 0] = inr a ->
  getitem Nm [At 0; At 0; At (-1)] = inr b ->
  to_float nm_data = inr x -> to_float a = inr lo -> to_float b = inr hi ->
  exists st',
    month_block args rng model month st = (st', inr tt)
    /\ log st' = log st ++ [Print (MsgMonth month); Call (ml_IRI_monthly_mean_par month);
                            Print (MsgShape [s0; s1; s2])]
    /\ stored (stamps args month (days_of (days_in_month (year args) month)))
         (month_f107_of args rng month) (float_cell x) (float_cell lo) (float_cell hi)
         st st'.
Proof.
  intros Hy Hm Hh HN Hs H2 Ed Ea Eb Hx Hlo Hhi. rewrite plot_month_block_eq by assumption.
  unfold bind at 1.
  destruct (say (MsgMonth month) st) as [st1 [e1 | []]] eqn:E1; [discriminate |].
  injection E1 as E1.
  unfold month_try, try_except, month_body. rewrite HN.
  unfold bind at 1. unfold call, emit, modify. unfold bind at 1. unfold lift at 1.
  unfold bind.
  match goal with |- context [extract Nm ?s] => set (s1' := s) end.
  destruct (@extract_three_axes Nm nm_data a b s0 s1 s2 s1' Hs H2 Ed Ea Eb)
    as (st2 & E2 & L2 & S2 & Ma & Mb).
  rewrite E2.
  assert (Hc : day_cells x (nm_min_val st2) (nm_max_val st2)
               = Some (float_cell lo, float_cell hi)).
  { rewrite Ma, Mb. unfold day_cells. rewrite Hlo, Hhi. reflexivity. }
  destruct (@store_day_loop args month (month_f107_of args rng month) nm_data x
              (float_cell lo) (float_cell hi)
              (days_of (days_in_month (year args) month))) with (st := st2)
    as (st3 & E3 & L3 & _ & G3); try assumption; try lia.
  { apply month_days_range. }
  rewrite E3. exists st3. split; [reflexivity |]. split.
  { rewrite L3, L2. subst s1'. rewrite <- E1. cbn [log]. rewrite <- !app_assoc. reflexivity. }
  eapply stored_after; [| exact G3].
  destruct S2 as (A1 & A2 & A3 & A4 & A5).
  unfold same_series. rewrite A1, A2, A3, A4, A5. subst s1'. rewrite <- E1. cbn. tauto.
Qed.

End YearPlotMonths.

(** ** The CSV files of the two year generators *)

Module YearCsvFacts.
Import NumPy Py Text Year Instances.
Import YearCsvNotions.
Local Open Scope nat_scope.








End YearCsvFacts.

Module YearDailyCsv.
Import NumPy Py Text Year YearDaily Instances YearCsvFacts.
Import YearCsvNotions YearDailyNotions.
Local Open Scope nat_scope.

Ltac run_py :=
  unfold say, call, emit;
  unfold bind, ret, lift, raise, try_except, modify, gets;
  cbn beta iota.









End YearDailyCsv.

Module YearPlotCsv.
Import NumPy Py Text Year YearPlot Instances YearCsvFacts.
Import YearCsvNotions YearPlotNotions.
Local Open Scope nat_scope.

Ltac run_py :=
  unfold say, call, emit;
  unfold bind, ret, lift, raise, try_except, modify, gets;
  cbn beta iota.









End YearPlotCsv.

(** ** Claims on the two year generators *)

Module YearPlotClaims.
Import NumPy Py Calendar CalendarFacts Year YearPlot Instances.
Import CalendarNotions YearPlotNotions.
Import YearPlotFacts YearPlotMonths Examples YearExamples.
Local Open Scope nat_scope.

Lemma model_calls_snoc (l : list event) (month : Z) (sh : list nat) :
  filter is_model_call
    (l ++ [Print (MsgMonth month); Call (ml_IRI_monthly_mean_par month);
           Print (MsgShape sh)])
  = filter is_model_call l ++ [Call (ml_IRI_monthly_mean_par month)].
Proof. rewrite filter_app. reflexivity. Qed.

Lemma month_length (args : Args) (month : Z) :
  length (stamps args month (days_of (days_in_month (year args) month)))
  = month_len (year args) month.
Proof. now rewrite length_stamps, length_days_of. Qed.

(** C5 (amended).  The Year Monthly Generator makes one call per month,
    to the monthly-mean routine, and stores for every day of the month
    the same value, the mean level [Nm[0, 0, 1]] of the array returned,
    as it is: the minimum [Nm[0, 0, 0]] and the maximum [Nm[0, 0, -1]]
    are stored beside it and do not enter it.  Whatever the model
    returns, the entries a month adds to [all_nmf2] are NaN or one and
    the same value. *)
Theorem year_plot_repeats_monthly_value (args : Args) (rng : Rng) (model : Model)
    (month : Z) (Nm nm_data a b : ndarray R) (s0 s1 s2 : nat) (x lo hi : R) (st : St) :
  (1 <= year args <= 9998)%Z -> (1 <= month <= 12)%Z -> (0 <= hour args <= 23)%Z ->
  IRI_monthly_mean_par model month = inr Nm ->
  shape Nm = [s0; s1; s2] -> 1 < s2 ->
  getitem Nm [At 0; At 0; At 1] = inr nm_data ->
  getitem Nm [At 0; At 0; At 0] = inr a ->
  getitem Nm [At 0; At 0; At (-1)] = inr b ->
  to_float nm_data = inr x -> to_float a = inr lo -> to_float b = inr hi ->
  (exists st',
     month_block args rng model month st = (st', inr tt)
     /\ filter is_model_call (log st')
        = filter is_model_call (log st) ++ [Call (ml_IRI_monthly_mean_par month)]
     /\ all_nmf2 st' = all_nmf2 st ++ repeat (float_cell x) (month_len (year args) month)
     /\ model_min st' = model_min st ++ repeat (float_cell lo) (month_len (year args) month)
     /\ model_max st' = model_max st ++ repeat (float_cell hi) (month_len (year args) month))
  /\ (forall (other : Model) (st0 : St),
        exists st1 v new,
          month_block args rng other month st0 = (st1, inr tt)
          /\ all_nmf2 st1 = all_nmf2 st0 ++ new
          /\ Forall (fun c => c = NaN \/ c = v) new).
Proof.
  intros Hy Hm Hh HN Hs H2 Ed Ea Eb Hx Hlo Hhi. split.
  - destruct (@month_block_repeats args rng model month Nm nm_data a b s0 s1 s2 x lo hi st)
      as (st' & E & L & (_ & _ & G3 & G4 & G5)); try assumption.
    exists st'. split; [exact E |]. rewrite month_length in *.
    split; [rewrite L; apply model_calls_snoc |]. auto.
  - intros other st0. now apply month_block_one_value.
Qed.

(** C5 witness: January 2022 with the levels 1, 2 and 4. *)
Lemma year_plot_repeats_monthly_value_witness :
  exists st',
    month_block plot_args still_rng levels_model 1 init = (st', inr tt)
    /\ all_nmf2 st' = repeat (float_cell 2) 31
    /\ model_min st' = repeat (float_cell 1) 31
    /\ model_max st' = repeat (float_cell 4) 31.
Proof.
  destruct (@year_plot_repeats_monthly_value plot_args still_rng levels_model 1
              Nm_levels (scalar 2%R) (scalar 1%R) (scalar 4%R) 1 1 3 2%R 1%R 4%R init)
    as [(st' & E & _ & G3 & G4 & G5) _];
    try reflexivity; try (cbn; lia).
  exists st'. split; [exact E |]. auto.
Defined.

(** C5 counterexample: in January 2022 the model reports the minimum 1,
    the mean 2 and the maximum 4; the 31 days all get the value 2. *)
Lemma year_plot_january_is_flat :
  all_nmf2 (fst (month_block plot_args still_rng levels_model 1 init))
  = repeat (float_cell 2) 31
  /\ model_min (fst (month_block plot_args still_rng levels_model 1 init))
     = repeat (float_cell 1) 31
  /\ model_max (fst (month_block plot_args still_rng levels_model 1 init))
     = repeat (float_cell 4) 31.
Proof.
  destruct (@month_block_repeats plot_args still_rng levels_model 1
              Nm_levels (scalar 2%R) (scalar 1%R) (scalar 4%R) 1 1 3 2%R 1%R 4%R init)
    as (st' & E & _ & (_ & _ & G3 & G4 & G5)); try reflexivity; try (cbn; lia).
  rewrite E. cbn [fst]. rewrite month_length in *. auto.
Qed.

End YearPlotClaims.

Module YearCsvClaims.
Import NumPy Py Text Year Instances YearCsvFacts Examples YearExamples.
Import YearCsvNotions.
Local Open Scope nat_scope.



End YearCsvClaims.

Module YearDailyClaims.
Import NumPy Py Calendar CalendarFacts Year YearDaily Instances.
Import CalendarNotions YearDailyNotions.
Import YearDailySeries YearDailyLoop YearDailyMonths YearDailyYear Examples YearExamples.
Local Open Scope nat_scope.

Lemma grown_from_init n st :
  grown n init st ->
  length (nmf2_values st) = n /\ length (nmf2_min st) = n /\ length (nmf2_max st) = n.
Proof. unfold grown, init. cbn. lia. Qed.

(** C8.  The loop over the twelve months always completes.  Without
    [--use-edp] the three series of the Year Daily Generator end with one
    entry per day of the year, failed months included; in the Year
    Monthly Generator a month whose model call raises adds one NaN per
    day to each of the five lists.  With [--use-edp] the claim fails: when
    the model raises on 2 January, the entries of 1 January are already
    in the lists and the handler adds a NaN for every day of January, so
    that each series ends one entry longer than the year has days. *)
Theorem year_series_lengths (rng : Rng) (y : Z) :
  (1 <= y <= 9998)%Z ->
  exists dates f107_values st',
    generate_f107_timeseries rng y = inr (dates, f107_values)
    /\ length dates = days_in_year y
    /\ month_loop (edp_args y) (fails_on_jan_2 y) dates f107_values init = (st', inr tt)
    /\ length (nmf2_values st') = S (days_in_year y)
    /\ length (nmf2_min st') = S (days_in_year y)
    /\ length (nmf2_max st') = S (days_in_year y)
    /\ (forall (args : Args) (model : Model),
          year args = y -> use_edp args = false ->
          exists st'',
            month_loop args model dates f107_values init = (st'', inr tt)
            /\ length (nmf2_values st'') = days_in_year y
            /\ length (nmf2_min st'') = days_in_year y
            /\ length (nmf2_max st'') = days_in_year y)
    /\ (forall (pargs : YearPlot.Args) (prng : YearPlot.Rng) (pmodel : YearPlot.Model)
               (month : Z) (e : exn) (pst : YearPlot.St),
          YearPlot.year pargs = y -> (1 <= month <= 12)%Z ->
          (0 <= YearPlot.hour pargs <= 23)%Z ->
          YearPlot.IRI_monthly_mean_par pmodel month = inl e ->
          exists pst',
            YearPlot.month_block pargs prng pmodel month pst = (pst', inr tt)
            /\ YearPlot.log pst'
               = YearPlot.log pst
                 ++ [Print (MsgMonth month); Call (ml_IRI_monthly_mean_par month);
                     Print (MsgError month e)]
            /\ YearPlotNotions.stored
                 (YearPlotNotions.stamps pargs month
                    (YearPlot.days_of (days_in_month y month)))
                 (YearPlot.month_f107_of pargs prng month) NaN NaN NaN pst pst').
Proof.
  intros Hy. eexists _, _.
  rewrite generate_f107_timeseries_value by lia.
  change (map (fun i => (ymd2ord y 1 1 + Z.of_nat i)%Z) (seq 0 (days_in_year y)))
    with (dates_of y).
  destruct (@month_loop_when_jan_2_fails y
              (map (fun t => clip (f107_raw rng (days_in_year y) t) 70 250)
                   (seq 0 (days_in_year y))) init Hy) as (st' & E & G).
  exists st'. split; [reflexivity |].
  split; [unfold dates_of; now rewrite length_map, length_seq |].
  split; [exact E |].
  apply grown_from_init in G as (G1 & G2 & G3).
  split; [exact G1 |]. split; [exact G2 |]. split; [exact G3 |]. split.
  - intros args model Ey Hu. subst y.
    destruct (@month_loop_monthly args model
                (map (fun t => clip (f107_raw rng (days_in_year (year args)) t) 70 250)
                     (seq 0 (days_in_year (year args)))) init Hy Hu) as (st'' & E' & G').
    exists st''. split; [exact E' |]. now apply grown_from_init.
  - intros pargs prng pmodel month e pst Ey Hm Hh He. subst y.
    now apply (@YearPlotMonths.month_block_model_fails pargs prng pmodel month e pst).
Qed.

(** C8 witness: the year 2022. *)
Lemma year_series_lengths_witness :
  exists dates f107_values st',
    generate_f107_timeseries calm_rng 2022 = inr (dates, f107_values)
    /\ length dates = 365
    /\ month_loop (edp_args 2022) (fails_on_jan_2 2022) dates f107_values init
       = (st', inr tt)
    /\ length (nmf2_values st') = 366.
Proof.
  destruct (@year_series_lengths calm_rng 2022 ltac:(lia))
    as (dates & f107_values & st' & E & Hd & El & Hv & _).
  exists dates, f107_values, st'. auto.
Defined.

End YearDailyClaims.

(** ** Where exceptions are caught *)

Module ErrorHandlingClaims.
Import NumPy Py Calendar Year Instances.
Import CalendarNotions RunnerNotions.
Import Runner RunnerFacts RunnerShape RunnerFlow RunnerFlowFacts.
Import YearDailyMonths YearDailyYear YearPlotMonths Examples YearExamples.
Local Open Scope nat_scope.

Section Claim.
Context {F : Type} {AF : Arith F}.


End Claim.



End ErrorHandlingClaims.

(** * More on the runner: what a run writes, which routine it calls *)

Module RunnerRuns.
Import NumPy NumPyFacts TrapezoidFacts Py Runner RunnerFacts RunnerShape RunnerVtec.
Import RunnerFlow RunnerFlowFacts RunnerNotions Examples Instances.

Ltac asked_event :=
  unfold integration_call; try destruct (np_has_trapezoid _);
  unfold saves_only_asked; cbn [saved flat_map app];
  let n := fresh "n" in
  let H := fresh "H" in
  intros n H;
  repeat match goal with
         | E : (_ && _)%bool = true |- _ => apply andb_prop in E as [? ?]
         end;
  first [ contradiction
        | destruct H as [<- | []]; unfold asked; tauto ].

Ltac asked_step :=
  lazymatch goal with
  | |- keeps _ (emit _) => apply keeps_emit; asked_event
  | |- keeps _ (if ?b then _ else _) => destruct b eqn:?
  | _ => keeps_step
  end.

Section Facts.
Context {F : Type} {AF : Arith F}.

Lemma saves_only_asked_app (args : Args) (l l' : @St F) :
  saves_only_asked args l -> saves_only_asked args l' -> saves_only_asked args (l ++ l').
Proof.
  unfold saves_only_asked. intros H H' n. rewrite saved_app. intros Hin.
  apply in_app_or in Hin as [Hin | Hin]; auto.
Qed.

Lemma stages_save_only_asked (args : Args) (w : @World F)
    (r : flow (dict * dict * option (ndarray F) * bool)) :
  keeps (saves_only_asked args) (stages args w r).
Proof.
  assert (P_nil : saves_only_asked args (@nil (@event F))) by (intros n []).
  pose proof (@saves_only_asked_app args) as P_app.
  unfold stages, global_stage, extract_global, extract_global_body, extract_global_handler,
    plot_global, vtec_stage, vtec_body, vtec_handler, vtec_tec_data, integrate, fit_to_grid,
    single_stage, extract_single, profiles_stage, profiles_body, profiles_handler,
    extract_profiles.
  unfold say, call.
  repeat asked_step.
Qed.


(** X1.  Whatever the model returns, a run writes only figures that the
    flags ask for: a map of foF2, hmF2 or NmF2 only in global-map mode
    and only when [--parameters] names it (or names [all]); the vTEC map
    only in global-map mode with [--vtec]; the time-series figure only
    for a single location; the profile figure only with [--profiles]. *)
Theorem run_saves_only_what_was_asked (args : Args) (w : @World F) (n : string) :
  In n (saved (fst (run args w))) -> asked args n.
Proof.
  destruct (main_log args w) as (l0 & l1 & l2 & E & _ & H0 & _ & (_ & _ & H1) & H2).
  rewrite E, !saved_app, H0, H1. cbn [app].
  destruct H2 as [-> | (r & _ & E2)]; [intros [] |].
  destruct (stages_save_only_asked args w r (l0 ++ l1)) as (l2' & E2' & H2').
  rewrite E2 in E2'. apply app_inv_head in E2'. subst l2'. apply H2'.
Qed.



End Facts.

(** X1 witness: the global run of the examples writes the vTEC map, and
    [--vtec] is among its flags. *)
Lemma run_saves_only_what_was_asked_witness : asked args_global "vTEC".
Proof.
  apply (@run_saves_only_what_was_asked Q Q_Arith args_global (world_of edp_day (2, 2))).
  vm_compute. auto.
Defined.


End RunnerRuns.

(** * More on the runner: the profile stage, the hour *)

Module RunnerProfiles.
Import NumPy NumPyFacts TrapezoidFacts Py Runner RunnerFacts RunnerShape RunnerVtec.
Import RunnerFlow RunnerFlowFacts RunnerNotions Examples Instances.

Section Facts.
Context {F : Type} {AF : Arith F}.
Variable d0 : F.



(** X5.  [--hour] is a Python index into the time axis.  In global-map
    mode, with two-axis arrays of [n0] hours that fit the mesh: a
    negative hour from [-n0] to [-1] counts from the end and selects the
    row [n0 + hour]; an hour of [n0] or more, or below [-n0], raises an
    IndexError that the stage catches, and the run returns without a
    figure. *)
Theorem hour_is_a_python_index (args : Args) (w : @World F) (f2 : @dict F) (s : @St F)
    (n0 n1 : nat) :
  wf (fo f2) -> wf (hm f2) -> wf (Nm f2) ->
  shape (hm f2) = shape (fo f2) -> shape (Nm f2) = shape (fo f2) ->
  shape (fo f2) = [n0; n1] -> n1 = grid_size w ->
  ((- Z.of_nat n0 <= hour args < 0)%Z ->
     extract_global args w f2 s
     = (s, inr (Next (mk_nd (grid_shape w)
                        (row_at d0 (fo f2) (Z.to_nat (hour args + Z.of_nat n0)) n1),
                      mk_nd (grid_shape w)
                        (row_at d0 (hm f2) (Z.to_nat (hour args + Z.of_nat n0)) n1),
                      mk_nd (grid_shape w)
                        (row_at d0 (Nm f2) (Z.to_nat (hour args + Z.of_nat n0)) n1)))))
  /\ ((hour args < - Z.of_nat n0 \/ Z.of_nat n0 <= hour args)%Z ->
      forall edp has_edp,
        global_stage args w f2 edp has_edp s
        = (s ++ [Print MsgCreatingGlobal;
                 Print (MsgErrorExtracting IndexError (shape (fo f2)))],
           inr Return)).
Proof.
  intros Wf Wh Wn Sh Sn Hs Hn. split.
  - intros Hh. apply extract_global_2 with (n0 := n0); try assumption.
    unfold norm_index.
    destruct ((0 <=? hour args) && (hour args <? Z.of_nat n0))%Z eqn:E1.
    + apply andb_prop in E1 as [A B]. lia.
    + destruct ((- Z.of_nat n0 <=? hour args) && (hour args <? 0))%Z eqn:E2;
        [reflexivity |].
      apply andb_false_iff in E2 as [A | A]; lia.
  - intros Hh edp has_edp. unfold global_stage. run_py.
    rewrite extract_global_bad_hour with (n0 := n0) (sh := [n1]);
      [| exact Hs | apply norm_index_none; exact Hh | now left].
    rewrite <- app_assoc. reflexivity.
Qed.

(** X18.  In global-map mode the hour's row of the model output must
    have as many entries as the mesh has points.  When it has not, the
    [reshape] raises a ValueError; the stage catches it, prints the
    error with the shape of [f2['fo']], and [main] returns at once: no
    map is written and the later stages (vTEC, profiles) do not run. *)
Theorem mesh_mismatch_stops_the_run (args : Args) (w : @World F) (f2 : @dict F)
    (edp : option (ndarray F)) (has_edp : bool) (s : @St F) (n0 n1 h : nat) :
  wf (fo f2) -> wf (hm f2) -> wf (Nm f2) ->
  shape (hm f2) = shape (fo f2) -> shape (Nm f2) = shape (fo f2) ->
  shape (fo f2) = [n0; n1] ->
  norm_index (hour args) n0 = Some h ->
  n1 <> grid_size w ->
  global_stage args w f2 edp has_edp s
  = (s ++ [Print MsgCreatingGlobal;
           Print (MsgErrorExtracting (ValueError "cannot reshape array") (shape (fo f2)))],
     inr Return)
  /\ (forall e_peak,
        global_map args = true ->
        stages args w (Next (f2, e_peak, edp, has_edp)) s
        = (s ++ [Print MsgCreatingGlobal;
                 Print (MsgErrorExtracting (ValueError "cannot reshape array")
                          (shape (fo f2)))], inr tt)).
Proof.
  intros Wf Wh Wn Sh Sn Hs Hh Hn.
  assert (G : global_stage args w f2 edp has_edp s
              = (s ++ [Print MsgCreatingGlobal;
                       Print (MsgErrorExtracting (ValueError "cannot reshape array")
                                (shape (fo f2)))], inr Return)).
  { unfold global_stage, extract_global, extract_global_body, extract_global_handler.
    run_py. unfold ndim. rewrite Hs. cbn [length Nat.eqb].
    rewrite Hs in Sh, Sn.
    rewrite (getitem_row d0 (hour args) Hs Wf Hh).
    rewrite (getitem_row d0 (hour args) Sh Wh Hh).
    rewrite (getitem_row d0 (hour args) Sn Wn Hh).
    unfold reshape, size, grid_shape. cbn [shape prod_shape fold_right].
    rewrite ?Nat.mul_1_r.
    unfold grid_size in Hn. apply Nat.eqb_neq in Hn. rewrite Hn.
    rewrite <- ?app_assoc. rewrite <- Hs. reflexivity. }
  split; [exact G |].
  intros e_peak Hg. unfold stages. rewrite Hg. unfold bind at 1. rewrite G. reflexivity.
Qed.

End Facts.


(** X5 witness: hour -1 on the two-hour arrays of the examples. *)
Lemma hour_is_a_python_index_witness :
  snd (extract_global
         {| global_map := true; hour := -1; parameters := ["all"%string];
            daily := false; profiles := false; vtec := false |}
         (world_of edp_day (2, 2)) f2_global [])
  = inr (Next (mk_nd [2; 2] (row_at 0%Q two_by_four 1 4),
               mk_nd [2; 2] (row_at 0%Q two_by_four 1 4),
               mk_nd [2; 2] (row_at 0%Q two_by_four 1 4))).
Proof.
  rewrite (proj1 (@hour_is_a_python_index Q Q_Arith 0%Q _ (world_of edp_day (2, 2))
                    f2_global [] 2 4 eq_refl eq_refl eq_refl eq_refl eq_refl eq_refl
                    eq_refl)) by (cbn; lia).
  reflexivity.
Defined.

(** X18 witness: rows of four entries on a mesh of 3 x 3 points. *)
Lemma mesh_mismatch_stops_the_run_witness :
  saved (fst (global_stage args_global (world_of edp_day (3, 3)) f2_global
                (Some edp_day) true [])) = []
  /\ snd (global_stage args_global (world_of edp_day (3, 3)) f2_global
             (Some edp_day) true []) = inr Return.
Proof.
  rewrite (proj1 (@mesh_mismatch_stops_the_run Q Q_Arith 0%Q args_global
                    (world_of edp_day (3, 3)) f2_global (Some edp_day) true [] 2 4 1
                    eq_refl eq_refl eq_refl eq_refl eq_refl eq_refl eq_refl
                    ltac:(vm_compute; lia))).
  split; reflexivity.
Defined.

End RunnerProfiles.

(** * The mesh of the runner *)

Module RunnerGridFacts.
Import NumPy RunnerGrid.
Local Open Scope Z_scope.

Lemma length_arange (start stop step : Z) :
  length (arange start stop step) = Z.to_nat ((stop - start + step - 1) / step).
Proof. unfold arange. now rewrite length_map, length_seq. Qed.

Lemma nth_map_from_0 (f : nat -> Z) (n i : nat) (d : Z) :
  (i < n)%nat -> nth i (map f (seq 0 n)) d = f i.
Proof.
  intros Hi. rewrite nth_indep with (d' := f 0%nat) by (now rewrite length_map, length_seq).
  rewrite (map_nth f (seq 0 n) 0%nat i), seq_nth by exact Hi. reflexivity.
Qed.

Lemma nth_arange (start stop step : Z) (i : nat) :
  (i < length (arange start stop step))%nat ->
  nth i (arange start stop step) 0 = start + step * Z.of_nat i.
Proof.
  rewrite length_arange. intros Hi. unfold arange.
  now rewrite nth_map_from_0 by exact Hi.
Qed.

Lemma in_arange (start stop step x : Z) :
  In x (arange start stop step) ->
  exists i, (i < length (arange start stop step))%nat /\ x = start + step * Z.of_nat i.
Proof.
  rewrite length_arange. unfold arange. intros H.
  apply in_map_iff in H as (i & <- & Hi). apply in_seq in Hi.
  exists i. split; [lia | reflexivity].
Qed.

(** The number of values of [np.arange] is the quotient rounded up. *)
Lemma ceil_bounds (a d : Z) :
  0 < d -> 0 <= a ->
  let n := (a + d - 1) / d in
  0 <= n /\ d * (n - 1) < a /\ a <= d * n.
Proof.
  intros Hd Ha n.
  pose proof (Z.div_mod (a + d - 1) d ltac:(lia)) as E.
  pose proof (Z.mod_pos_bound (a + d - 1) d Hd) as B.
  fold n in E. split; [apply Z.div_pos; lia |]. nia.
Qed.

Lemma ceil_succ (a d : Z) : 0 < d -> (a + d + d - 1) / d = (a + d - 1) / d + 1.
Proof.
  intros Hd. replace (a + d + d - 1) with (a + d - 1 + 1 * d) by ring.
  now rewrite Z.div_add by lia.
Qed.

Lemma ceil_exact (a d : Z) : 0 < d -> 0 <= a -> (d * ((a + d - 1) / d) = a <-> a mod d = 0).
Proof.
  intros Hd Ha. split.
  - intros E. rewrite <- E, Z.mul_comm. apply Z.mod_mul. lia.
  - intros E. apply Z.div_exact in E; [| lia].
    set (k := a / d) in *.
    assert (Hk : (a + d - 1) / d = k).
    { symmetry. apply Z.div_unique with (r := d - 1); [lia |]. rewrite E at 1. ring. }
    rewrite Hk. lia.
Qed.

(** An entry of a list made of blocks of one length. *)
Lemma nth_flat_map_blocks {A B} (f : A -> list B) (n : nat) (ys : list A) (da : A) (d : B) :
  (forall y, length (f y) = n) ->
  forall i j, (i < length ys)%nat -> (j < n)%nat ->
  nth (i * n + j) (flat_map f ys) d = nth j (f (nth i ys da)) d.
Proof.
  intros Hf. induction ys as [| y ys IH]; intros i j Hi Hj; [simpl in Hi; lia |].
  cbn [flat_map]. destruct i as [| i].
  - cbn [Nat.mul Nat.add nth]. rewrite app_nth1 by (rewrite Hf; exact Hj). reflexivity.
  - rewrite app_nth2 by (rewrite Hf; lia). rewrite Hf.
    replace (S i * n + j - n)%nat with (i * n + j)%nat by lia.
    cbn [nth]. apply IH; simpl in Hi; lia.
Qed.

Lemma length_flat_map_blocks {A B} (f : A -> list B) (n : nat) (ys : list A) :
  (forall y, length (f y) = n) -> length (flat_map f ys) = (length ys * n)%nat.
Proof.
  intros Hf. induction ys as [| y ys IH]; [reflexivity |].
  cbn [flat_map length]. rewrite length_app, Hf, IH. lia.
Qed.

(** X6.  The global mesh for a resolution of [d] whole degrees.  There
    are [ceil(360 / d)] longitudes, from -180 and below 180, and
    [ceil(180 / d) + 1] latitudes from -90; the last latitude is
    [-90 + d * ceil(180 / d)], which is the pole 90 exactly when [d]
    divides 180 and lies beyond it otherwise.  The two mesh arrays have
    the shape (latitudes, longitudes), one row per latitude:
    [alon_2d[i, j]] is longitude [j] and [alat_2d[i, j]] is latitude [i];
    the flattened arrays passed to the model have one entry per mesh
    point. *)
Theorem global_mesh_of_resolution (d : Z) :
  0 < d ->
  let nlon := Z.to_nat ((360 + d - 1) / d) in
  let nlat := S (Z.to_nat ((180 + d - 1) / d)) in
  grid_of d = (nlat, nlon)
  /\ (forall x, In x (lons d) -> -180 <= x < 180)
  /\ nth 0 (lats d) 0 = -90
  /\ nth (nlat - 1) (lats d) 0 = -90 + d * ((180 + d - 1) / d)
  /\ 90 <= nth (nlat - 1) (lats d) 0
  /\ (nth (nlat - 1) (lats d) 0 = 90 <-> 180 mod d = 0)
  /\ shape (alon_2d d) = [nlat; nlon] /\ shape (alat_2d d) = [nlat; nlon]
  /\ wf (alon_2d d) /\ wf (alat_2d d)
  /\ size (alon d) = (nlat * nlon)%nat /\ size (alat d) = (nlat * nlon)%nat
  /\ (forall i j, (i < nlat)%nat -> (j < nlon)%nat ->
        get 0 (alon_2d d) [i; j] = -180 + d * Z.of_nat j
        /\ get 0 (alat_2d d) [i; j] = -90 + d * Z.of_nat i).
Proof.
  intros Hd nlon nlat.
  destruct (ceil_bounds (a := 360) Hd ltac:(lia)) as (L0 & L1 & L2).
  destruct (ceil_bounds (a := 180) Hd ltac:(lia)) as (M0 & M1 & M2).
  assert (Hlon : length (lons d) = nlon).
  { unfold lons. rewrite length_arange. subst nlon. f_equal; f_equal; ring. }
  assert (Hlat : length (lats d) = nlat).
  { unfold lats. rewrite length_arange. subst nlat.
    replace (90 + d - -90 + d - 1) with (180 + d + d - 1) by ring.
    rewrite ceil_succ by exact Hd. lia. }
  assert (Hlast : nth (nlat - 1) (lats d) 0 = -90 + d * ((180 + d - 1) / d)).
  { unfold lats. rewrite nth_arange by (fold (lats d); rewrite Hlat; lia).
    subst nlat. f_equal; f_equal; lia. }
  split; [unfold grid_of; now rewrite Hlon, Hlat |].
  split.
  { intros x Hx. unfold lons in Hx. apply in_arange in Hx as (i & Hi & ->).
    fold (lons d) in Hi. rewrite Hlon in Hi. subst nlon. nia. }
  split; [unfold lats; rewrite nth_arange by (fold (lats d); rewrite Hlat; lia); lia |].
  split; [exact Hlast |].
  split; [rewrite Hlast; lia |].
  split.
  { rewrite Hlast. rewrite <- (ceil_exact (a := 180) Hd) by lia. lia. }
  unfold alon, alat, alon_2d, alat_2d, meshgrid, flatten, wf, size.
  cbn [fst snd shape data prod_shape fold_right]. rewrite Hlon, Hlat, !Nat.mul_1_r.
  split; [reflexivity |]. split; [reflexivity |].
  split.
  { rewrite (length_flat_map_blocks (fun _ => lons d) (n := nlon)) by (intros; exact Hlon).
    now rewrite Hlat. }
  split.
  { rewrite (length_flat_map_blocks (fun y => repeat y nlon) (n := nlon))
      by (intros; apply repeat_length).
    now rewrite Hlat. }
  split; [reflexivity |]. split; [reflexivity |].
  intros i j Hi Hj. unfold get. cbn [shape data offset prod_shape fold_right].
  rewrite !Nat.mul_1_r, Nat.add_0_r. split.
  - rewrite (nth_flat_map_blocks (fun _ => lons d) (n := nlon) (lats d) 0 0)
      by (try (intros; exact Hlon); lia).
    unfold lons. apply nth_arange. fold (lons d). lia.
  - rewrite (nth_flat_map_blocks (fun y => repeat y nlon) (n := nlon) (lats d) 0 0)
      by (try (intros; apply repeat_length); lia).
    rewrite nth_repeat_lt by exact Hj.
    unfold lats. apply nth_arange. fold (lats d). lia.
Qed.

(** X6 witness: the default resolution of 5 degrees gives 37 x 72 points,
    and 7 degrees puts the last latitude at 92. *)
Lemma global_mesh_of_resolution_witness :
  grid_of 5 = (37%nat, 72%nat) /\ nth 26 (lats 7) 0 = 92.
Proof.
  destruct (@global_mesh_of_resolution 5 ltac:(lia)) as (G & _).
  destruct (@global_mesh_of_resolution 7 ltac:(lia)) as (_ & _ & _ & L & _).
  split; [exact G | exact L].
Defined.

End RunnerGridFacts.

(** * More on the Year Daily Generator *)

Module YearDailyMore.
Import NumPy Py Calendar CalendarFacts Year YearDaily Instances.
Import CalendarNotions YearDailyNotions.
Import YearDailySeries YearDailyLoop YearDailyMonths YearDailyYear Examples YearExamples.
Local Open Scope nat_scope.

Lemma month_indices_value (y month : Z) :
  (1 <= y <= 9998)%Z -> (1 <= month <= 12)%Z ->
  month_indices y month = inr (seq (month_off y month) (month_len y month)).
Proof.
  intros Hy Hm. unfold month_indices.
  rewrite datetime_first_of_month, month_span by lia.
  pose proof (month_offset y Hm) as [O1 O2].
  pose proof (days_in_month_pos y Hm) as Hd.
  replace (ymd2ord y month 1 + days_in_month y month)%Z
    with (ymd2ord y month 1 + Z.of_nat (month_len y month))%Z
    by (unfold month_len; lia).
  f_equal. unfold dates_of, month_off. apply month_days_of_year; unfold month_len; lia.
Qed.

Lemma month_off_next (y month : Z) :
  (1 <= month <= 11)%Z ->
  month_off y (month + 1) = month_off y month + month_len y month.
Proof.
  intros Hm. unfold month_off, month_len, ymd2ord, days_before_month, days_in_month.
  assert (E : (month = 1 \/ month = 2 \/ month = 3 \/ month = 4 \/ month = 5 \/ month = 6
               \/ month = 7 \/ month = 8 \/ month = 9 \/ month = 10 \/ month = 11)%Z)
    by lia.
  repeat (destruct E as [-> | E]; [month_tables; destruct (is_leap y); lia |]).
  subst. month_tables. destruct (is_leap y); lia.
Qed.

Lemma concat_consecutive (off len : nat -> nat) (n : nat) : forall k,
  (forall i, k <= i -> S i < k + n -> off (S i) = off i + len i) ->
  concat (map (fun i => seq (off i) (len i)) (seq k n))
  = seq (off k) (list_sum (map len (seq k n))).
Proof.
  induction n as [| n IH]; intros k H; [reflexivity |].
  cbn [seq map concat]. change (list_sum (len k :: map len (seq (S k) n)))
    with (len k + list_sum (map len (seq (S k) n))).
  rewrite seq_app. f_equal.
  destruct n as [| n]; [reflexivity |].
  rewrite IH by (intros i Hi Hi'; apply H; lia).
  rewrite (H k) by lia. reflexivity.
Qed.

(** The runs of the twelve months, end to end. *)
Lemma month_runs_concat (y : Z) :
  concat (map (fun m => seq (month_off y m) (month_len y m)) months)
  = seq 0 (days_in_year y).
Proof.
  unfold months. rewrite map_map.
  rewrite (concat_consecutive (fun i => month_off y (Z.of_nat i))
             (fun i => month_len y (Z.of_nat i))).
  - rewrite <- (sum_month_len y). unfold months. rewrite map_map.
    destruct (january y) as [E _]. cbn beta. change (Z.of_nat 1) with 1%Z.
    rewrite E. reflexivity.
  - intros i Hi Hi'. replace (Z.of_nat (S i)) with (Z.of_nat i + 1)%Z by lia.
    apply month_off_next. lia.
Qed.

(** X7.  In a year of the calendar the month blocks of the loop cut the
    list of dates into twelve runs of consecutive indices, each of 28 to
    31 days, which put end to end are all the days of the year, each
    once and in order: no day is left out and none is processed in two
    months. *)
Theorem months_partition_the_year (y : Z) :
  (1 <= y <= 9998)%Z ->
  exists blocks : list (list nat),
    map (month_indices y) months = map inr blocks
    /\ length blocks = 12
    /\ Forall (fun b => 28 <= length b <= 31) blocks
    /\ concat blocks = seq 0 (days_in_year y).
Proof.
  intros Hy.
  exists (map (fun m => seq (month_off y m) (month_len y m)) months).
  split.
  { rewrite map_map. apply map_ext_in. intros m Hm.
    apply month_indices_value; [exact Hy |].
    pose proof months_range as R. rewrite Forall_forall in R. now apply R. }
  split; [reflexivity |].
  split.
  { apply Forall_forall. intros b Hb. apply in_map_iff in Hb as (m & <- & Hm).
    pose proof months_range as R. rewrite Forall_forall in R.
    pose proof (days_in_month_pos y (R m Hm)) as Hd.
    rewrite length_seq. unfold month_len. lia. }
  apply month_runs_concat.
Qed.

(** X7 witness: the year 2022. *)
Lemma months_partition_the_year_witness :
  exists blocks : list (list nat),
    map (month_indices 2022) months = map inr blocks /\ concat blocks = seq 0 365.
Proof.
  destruct (@months_partition_the_year 2022 ltac:(lia)) as (blocks & E & _ & _ & C).
  exists blocks. auto.
Defined.

(** ** The last year of the calendar *)

Lemma for_each_stops {S X : Type} (body : X -> M S unit) (x : X) (l1 l2 : list X) :
  (forall s, exists s' e, body x s = (s', inl e)) ->
  forall s, exists s' e, for_each (l1 ++ x :: l2) body s = (s', inl e).
Proof.
  intros Hx. induction l1 as [| y l1 IH]; intros s.
  - cbn [app for_each]. unfold bind. destruct (Hx s) as (s' & e & E). rewrite E. eauto.
  - cbn [app for_each]. unfold bind.
    destruct (body y s) as [s1 [e | []]]; [eauto |]. apply IH.
Qed.

Lemma months_end_with_december : months = map Z.of_nat (seq 1 11) ++ 12%Z :: [].
Proof. reflexivity. Qed.

Lemma daily_december_9999 (args : Args) (model : Model) dates f107_values st :
  year args = 9999%Z ->
  exists st',
    month_block args model dates f107_values 12 st
    = (st', inl (ValueError "date out of range")).
Proof.
  intros Hy. unfold month_block. rewrite Hy.
  change (datetime 9999 12 1) with (inr exn 3652029%Z).
  change (if (12 =? 12)%Z then datetime (9999 + 1) 1 1 else datetime 9999 (12 + 1) 1)
    with (inl Z (ValueError "date out of range")).
  unfold bind, say, emit, modify, lift. eexists. reflexivity.
Qed.

Lemma plot_december_9999 (args : YearPlot.Args) (rng : YearPlot.Rng)
    (model : YearPlot.Model) st :
  YearPlot.year args = 9999%Z ->
  exists st',
    YearPlot.month_block args rng model 12 st
    = (st', inl (ValueError "date out of range")).
Proof.
  intros Hy. unfold YearPlot.month_block. rewrite Hy.
  change (if (12 =? 12)%Z then datetime (9999 + 1) 1 1 else datetime 9999 (12 + 1) 1)
    with (inl Z (ValueError "date out of range")).
  unfold bind, YearPlot.say, YearPlot.emit, modify, lift. eexists. reflexivity.
Qed.

(** X8.  For the year 9999 neither year generator completes.  The first
    day of the month after December is [datetime(10000, 1, 1)], which
    raises a ValueError; the line stands before the [try] of the month,
    so the exception leaves the loop and [main], and no plot and no CSV
    file is reached. *)
Theorem year_9999_stops_in_december (fmt : Format)
    (dargs : Args) (rng : Rng) (dmodel : Model)
    (pargs : YearPlot.Args) (prng : YearPlot.Rng) (pmodel : YearPlot.Model) :
  year dargs = 9999%Z -> YearPlot.year pargs = 9999%Z ->
  (forall dates f107_values st, exists st',
      month_block dargs dmodel dates f107_values 12 st
      = (st', inl (ValueError "date out of range")))
  /\ (forall st, exists st' e, main fmt dargs rng dmodel st = (st', inl e))
  /\ (forall st, exists st',
        YearPlot.month_block pargs prng pmodel 12 st
        = (st', inl (ValueError "date out of range")))
  /\ (forall st, exists st' e, YearPlot.main fmt pargs prng pmodel st = (st', inl e)).
Proof.
  intros Hd Hp. split; [| split; [| split]].
  - intros dates f107_values st. now apply daily_december_9999.
  - intros st. unfold main.
    rewrite generate_f107_timeseries_value by lia.
    rewrite bind_lift_inr. unfold month_loop. unfold bind at 1.
    rewrite months_end_with_december.
    match goal with
    | |- context [for_each _ ?b st] =>
        destruct (@for_each_stops St Z b 12%Z (map Z.of_nat (seq 1 11)) []) with (s := st)
          as (st' & e & E)
    end.
    { intros s. destruct (@daily_december_9999 dargs dmodel
                            (map (fun i => (ymd2ord (year dargs) 1 1 + Z.of_nat i)%Z)
                                 (seq 0 (days_in_year (year dargs))))
                            (map (fun t => clip (f107_raw rng (days_in_year (year dargs)) t)
                                             70 250)
                                 (seq 0 (days_in_year (year dargs)))) s Hd) as (s' & E).
      eauto. }
    rewrite E. eauto.
  - intros st. now apply plot_december_9999.
  - intros st. unfold YearPlot.main, YearPlot.month_loop. unfold bind at 1.
    change YearPlot.months with (map Z.of_nat (seq 1 11) ++ 12%Z :: []).
    destruct (@for_each_stops YearPlot.St Z (YearPlot.month_block pargs prng pmodel) 12%Z
                (map Z.of_nat (seq 1 11)) []) with (s := st) as (st' & e & E).
    { intros s. destruct (@plot_december_9999 pargs prng pmodel s Hp) as (s' & E). eauto. }
    rewrite E. eauto.
Qed.

(** X8 witness *)
Lemma year_9999_stops_in_december_witness :
  (exists st' e, main letters (edp_args 9999) calm_rng (fails_on_jan_2 9999) init
                 = (st', inl e))
  /\ (exists st' e, YearPlot.main letters plot_args_9999 still_rng levels_model
                      YearPlot.init = (st', inl e)).
Proof.
  destruct (@year_9999_stops_in_december letters (edp_args 9999) calm_rng
              (fails_on_jan_2 9999) plot_args_9999 still_rng levels_model
              eq_refl eq_refl) as (_ & H2 & _ & H4).
  split; [apply H2 | apply H4].
Defined.

(** ** One solar level only *)

Lemma fill_nan_values (l : list nat) : forall st,
  exists st',
    fill_nan l st = (st', inr tt)
    /\ log st' = log st
    /\ nmf2_values st' = nmf2_values st ++ repeat NaN (length l)
    /\ nmf2_min st' = nmf2_min st ++ repeat NaN (length l)
    /\ nmf2_max st' = nmf2_max st ++ repeat NaN (length l).
Proof.
  unfold fill_nan. induction l as [| i l IH]; intros st.
  - exists st. cbn. rewrite !app_nil_r. auto.
  - cbn [for_each]. unfold bind at 1. unfold append3 at 1, modify at 1.
    match goal with |- context [for_each l _ ?s] => destruct (IH s) as (st' & E & L & A & B & C) end.
    exists st'. split; [exact E |]. rewrite L, A, B, C. cbn [log nmf2_values nmf2_min nmf2_max].
    cbn [length repeat]. rewrite <- !app_assoc. auto.
Qed.

Lemma extract_monthly_one_level (Nm : ndarray R) (a b : nat) :
  shape Nm = [a; b; 1] -> extract_monthly Nm = inl IndexError.
Proof.
  intros Hs. unfold extract_monthly, ndim, getitem. rewrite Hs.
  cbn [length Nat.eqb getitem_shape].
  destruct (norm_index 0 a); [| reflexivity].
  destruct (norm_index 0 b); reflexivity.
Qed.

(** X9.  The monthly-mean path of the Year Daily Generator reads the
    middle solar level [f2['Nm'][0, 0, 1]] of a three-axis array without
    looking at the length of the last axis.  When the model returns one
    level only the extraction raises an IndexError; the month's handler
    prints it and the month is stored as NaN, one entry per day in each
    series. *)
Theorem monthly_path_needs_two_solar_levels (args : Args) (model : Model)
    (f107_values : list R) (month : Z) (Nm : ndarray R) (a b : nat) (st : St) :
  use_edp args = false ->
  IRI_monthly_mean_par model month = inr Nm ->
  shape Nm = [a; b; 1] ->
  extract_monthly Nm = inl IndexError
  /\ exists st',
       month_try args model f107_values month st = (st', inr tt)
       /\ log st' = log st ++ [Call (ml_IRI_monthly_mean_par month);
                               Print (MsgError month IndexError)]
       /\ nmf2_values st' = nmf2_values st ++ repeat NaN (month_len (year args) month)
       /\ nmf2_min st' = nmf2_min st ++ repeat NaN (month_len (year args) month)
       /\ nmf2_max st' = nmf2_max st ++ repeat NaN (month_len (year args) month).
Proof.
  intros Hu HN Hs. pose proof (extract_monthly_one_level Nm Hs) as HE.
  split; [exact HE |].
  unfold month_try, month_work, month_except, monthly_days. cbv zeta. rewrite Hu.
  unfold try_except, bind, call, say, emit, modify, lift. rewrite HN, HE.
  match goal with
  | |- context [fill_nan ?l ?s] =>
      destruct (fill_nan_values l s) as (st' & E & L & A & B & C)
  end.
  exists st'. split; [exact E |]. rewrite L, A, B, C, length_seq.
  cbn [log nmf2_values nmf2_min nmf2_max]. rewrite <- !app_assoc. auto.
Qed.

(** X9 witness: January 2022 with one level. *)
Lemma monthly_path_needs_two_solar_levels_witness :
  exists st',
    month_try (monthly_args 2022) one_level_model [] 1 init = (st', inr tt)
    /\ nmf2_values st' = repeat NaN 31.
Proof.
  destruct (@monthly_path_needs_two_solar_levels (monthly_args 2022) one_level_model []
              1 Nm_one_level 1 1 init eq_refl eq_refl eq_refl)
    as (_ & st' & E & _ & V & _).
  exists st'. split; [exact E | exact V].
Defined.

(** ** The bands of the lower panel *)




End YearDailyMore.

(** * The colour of a band; the names of the files *)

Module YearDailyBandFacts.
Import YearDailyBands.
Local Open Scope R_scope.


End YearDailyBandFacts.

Module YearFileNames.
Import NumPy Py Text Year Instances YearCsvFacts Examples YearExamples.
Local Open Scope string_scope.

Lemma append_inv_head (a b c : string) : a ++ b = a ++ c -> b = c.
Proof.
  induction a as [| x a IH]; cbn; intros H; [exact H |].
  injection H as H. now apply IH.
Qed.

Lemma os_path_join_inj (dir n1 n2 : string) :
  String.prefix "/" n1 = false -> String.prefix "/" n2 = false ->
  os_path_join dir n1 = os_path_join dir n2 -> n1 = n2.
Proof.
  intros H1 H2. unfold os_path_join. rewrite H1, H2.
  destruct (String.eqb dir "" || ends_with_sep dir); intros E.
  - now apply append_inv_head in E.
  - apply append_inv_head in E. now apply (append_inv_head "/") in E.
Qed.

(** X12.  The two year generators name their files alike.  For the same
    location, year and output directory the Year Daily Generator without
    [--use-edp] writes its plot and its CSV file to the very paths of
    the Year Monthly Generator, although the two CSV headers differ; with
    [--use-edp] the suffix [_daily] keeps the paths apart. *)
Theorem year_generators_share_paths (fmt : Format)
    (dargs : YearDaily.Args) (pargs : YearPlot.Args) :
  YearDaily.lat dargs = YearPlot.lat pargs ->
  YearDaily.lon dargs = YearPlot.lon pargs ->
  YearDaily.year dargs = YearPlot.year pargs ->
  YearDaily.output dargs = YearPlot.output pargs ->
  (YearDaily.use_edp dargs = false ->
     YearDaily.csv_path fmt dargs = YearPlot.csv_path fmt pargs
     /\ os_path_join (YearDaily.output dargs) (YearDaily.plot_name fmt dargs)
        = os_path_join (YearPlot.output pargs) (YearPlot.plot_name fmt pargs))
  /\ (YearDaily.use_edp dargs = true ->
      YearDaily.csv_path fmt dargs <> YearPlot.csv_path fmt pargs
      /\ os_path_join (YearDaily.output dargs) (YearDaily.plot_name fmt dargs)
         <> os_path_join (YearPlot.output pargs) (YearPlot.plot_name fmt pargs))
  /\ YearDaily.csv_header <> YearPlot.csv_header.
Proof.
  intros Hlat Hlon Hy Ho. split; [| split].
  - intros Hu.
    unfold YearDaily.csv_path, YearPlot.csv_path, YearDaily.csv_name, YearPlot.csv_name,
      YearDaily.plot_name, YearPlot.plot_name, YearDaily.location_name,
      YearPlot.location_name, YearDaily.suffix.
    rewrite Hu, Hlat, Hlon, Hy, Ho. split; reflexivity.
  - intros Hu.
    unfold YearDaily.csv_path, YearPlot.csv_path. rewrite Ho.
    split; intros E; apply os_path_join_inj in E; try reflexivity;
      unfold YearDaily.csv_name, YearPlot.csv_name, YearDaily.plot_name,
        YearPlot.plot_name, YearDaily.location_name, YearPlot.location_name,
        YearDaily.suffix in E;
      rewrite Hu, Hlat, Hlon, Hy in E;
      repeat (apply append_inv_head in E);
      discriminate E.
  - discriminate.
Qed.

(** X12 witness: the default location in 2022. *)
Lemma year_generators_share_paths_witness :
  YearDaily.csv_path letters (monthly_args 2022) = YearPlot.csv_path letters plot_args
  /\ YearDaily.csv_path letters (edp_args 2022) <> YearPlot.csv_path letters plot_args.
Proof.
  split.
  - apply (@year_generators_share_paths letters (monthly_args 2022) plot_args
             eq_refl eq_refl eq_refl eq_refl). reflexivity.
  - apply (@year_generators_share_paths letters (edp_args 2022) plot_args
             eq_refl eq_refl eq_refl eq_refl). reflexivity.
Defined.

End YearFileNames.

(** * More on the Year Monthly Generator *)

Module YearPlotMore.
Import NumPy Py Calendar CalendarFacts Year YearPlot Instances.
Import CalendarNotions YearPlotNotions YearPlotFacts YearPlotMonths Examples YearExamples.
Local Open Scope nat_scope.

Section Invariant.
Variable I : St -> Prop.

Lemma preserves_ret {A} (a : A) : preserves I (ret a).
Proof. intros st H. exact H. Qed.

Lemma preserves_lift {A} (r : exn + A) : preserves I (lift r).
Proof. intros st H. exact H. Qed.

Lemma preserves_gets {A} (f : St -> A) : preserves I (gets f).
Proof. intros st H. exact H. Qed.

Lemma preserves_modify (f : St -> St) : (forall st, I st -> I (f st)) -> preserves I (modify f).
Proof. intros Hf st H. now apply Hf. Qed.

Lemma preserves_bind {A B} (m : M St A) (k : A -> M St B) :
  preserves I m -> (forall a, preserves I (k a)) -> preserves I (bind m k).
Proof.
  intros Hm Hk st H. unfold bind. specialize (Hm st H).
  destruct (m st) as [st1 [e | a]]; cbn [fst] in *; [exact Hm |]. now apply Hk.
Qed.

Lemma preserves_try_except {A} (body : M St A) (handler : exn -> M St A) :
  preserves I body -> (forall e, preserves I (handler e)) ->
  preserves I (try_except body handler).
Proof.
  intros Hb Hh st H. unfold try_except. specialize (Hb st H).
  destruct (body st) as [st1 [e | a]]; cbn [fst] in *; [| exact Hb]. now apply Hh.
Qed.

Lemma preserves_for_each {X} (l : list X) (body : X -> M St unit) :
  (forall x, preserves I (body x)) -> preserves I (for_each l body).
Proof.
  intros Hb. induction l as [| x l IH]; [apply preserves_ret |].
  cbn [for_each]. apply preserves_bind; [apply Hb | intros _; exact IH].
Qed.

End Invariant.

Ltac in_step_modify :=
  apply preserves_modify;
  let st := fresh "st" in
  let H := fresh "H" in
  intros st H; unfold in_step in *; cbn; rewrite ?length_app; cbn; lia.

Ltac in_step_go :=
  lazymatch goal with
    | |- preserves _ (ret _) => apply preserves_ret
    | |- preserves _ (lift _) => apply preserves_lift
    | |- preserves _ (gets _) => apply preserves_gets
    | |- preserves _ (modify _) => in_step_modify
    | |- preserves _ (bind _ _) => apply preserves_bind; [| intros ?]
    | |- preserves _ (try_except _ _) => apply preserves_try_except; [| intros ?]
    | |- preserves _ (for_each _ _) => apply preserves_for_each; intros ?
    | |- preserves _ (if ?b then _ else _) => destruct b
    | |- preserves _ (match ?x with _ => _ end) => destruct x
    end.

Ltac in_step_cases :=
  repeat match goal with
         | |- context [match ?x with _ => _ end] => destruct x
         end;
  unfold in_step in *; cbn; rewrite ?length_app; cbn; lia.

(** Lines 133-155: a day appends to the lists in their order, so that
    an exception on the way leaves them in step. *)
Lemma store_day_in_step (args : Args) (month : Z) (f : R) (nm_data : ndarray R) (d : Z) :
  preserves in_step (store_day args month f nm_data d).
Proof.
  intros st H. unfold store_day. run_py. in_step_cases.
Qed.

Lemma store_nan_in_step (args : Args) (month : Z) (f : R) (d : Z) :
  preserves in_step (store_nan args month f d).
Proof.
  intros st H. unfold store_nan. run_py. in_step_cases.
Qed.

Lemma month_block_in_step (args : Args) (rng : Rng) (model : Model) (month : Z) :
  preserves in_step (month_block args rng model month).
Proof.
  unfold month_block, extract.
  unfold say, call, emit, set_min_val, set_max_val.
  cbv zeta.
  repeat lazymatch goal with
    | |- preserves _ (store_day _ _ _ _ _) => apply store_day_in_step
    | |- preserves _ (store_nan _ _ _ _) => apply store_nan_in_step
    | _ => progress in_step_go
    end.
Qed.

Lemma month_loop_in_step (args : Args) (rng : Rng) (model : Model) :
  preserves in_step (month_loop args rng model).
Proof.
  unfold month_loop. apply preserves_for_each. intros month. apply month_block_in_step.
Qed.

(** X13.  Whatever the model returns or raises, in whichever month, and
    whether the loop over the months completes or not, the five lists
    of the Year Monthly Generator stay in step in one direction:
    [all_f107] is as long as [all_dates], and [all_nmf2], [model_min]
    and [model_max] are each no longer than the list before.  So a row
    of the CSV file, which is written for every index of [all_dates],
    can only run short of a value, never of a date. *)
Theorem year_plot_lists_stay_in_step (fmt : Format) (args : Args) (rng : Rng)
    (model : Model) (st : St) :
  in_step st ->
  in_step (fst (month_loop args rng model st))
  /\ (forall month, in_step (fst (month_block args rng model month st)))
  /\ in_step (fst (main fmt args rng model st)).
Proof.
  intros H. split; [| split].
  - now apply month_loop_in_step.
  - intros month. now apply month_block_in_step.
  - assert (P : preserves in_step (main fmt args rng model)); [| now apply P].
    unfold main, plot, write_csv, csv_row.
    unfold say, call, emit. cbv zeta.
    repeat lazymatch goal with
      | |- preserves _ (month_loop _ _ _) => apply month_loop_in_step
      | _ => progress in_step_go
      end.
Qed.

(** X13 witness: from the empty lists. *)
Lemma year_plot_lists_stay_in_step_witness :
  in_step (fst (month_loop plot_args still_rng levels_model init)).
Proof.
  apply (@year_plot_lists_stay_in_step letters plot_args still_rng levels_model init).
  unfold in_step, init. cbn. lia.
Defined.

(** ** The flux of a month *)

Section Relation.
Variable Rl : St -> St -> Prop.
Hypothesis Rl_refl : forall st, Rl st st.
Hypothesis Rl_trans : forall a b c, Rl a b -> Rl b c -> Rl a c.

Lemma follows_ret {A} (a : A) : follows Rl (ret a).
Proof. intros st. apply Rl_refl. Qed.

Lemma follows_lift {A} (r : exn + A) : follows Rl (lift r).
Proof. intros st. apply Rl_refl. Qed.

Lemma follows_gets {A} (f : St -> A) : follows Rl (gets f).
Proof. intros st. apply Rl_refl. Qed.

Lemma follows_bind {A B} (m : M St A) (k : A -> M St B) :
  follows Rl m -> (forall a, follows Rl (k a)) -> follows Rl (bind m k).
Proof.
  intros Hm Hk st. unfold bind. specialize (Hm st).
  destruct (m st) as [st1 [e | a]]; cbn [fst] in *; [exact Hm |].
  eapply Rl_trans; [exact Hm | apply Hk].
Qed.

Lemma follows_try_except {A} (body : M St A) (handler : exn -> M St A) :
  follows Rl body -> (forall e, follows Rl (handler e)) ->
  follows Rl (try_except body handler).
Proof.
  intros Hb Hh st. unfold try_except. specialize (Hb st).
  destruct (body st) as [st1 [e | a]]; cbn [fst] in *; [| exact Hb].
  eapply Rl_trans; [exact Hb | apply Hh].
Qed.

Lemma follows_for_each {X} (l : list X) (body : X -> M St unit) :
  (forall x, follows Rl (body x)) -> follows Rl (for_each l body).
Proof.
  intros Hb. induction l as [| x l IH]; [apply follows_ret |].
  cbn [for_each]. apply follows_bind; [apply Hb | intros _; exact IH].
Qed.

End Relation.

Lemma only_f107_refl (f : R) st : only_f107 f st st.
Proof. exists 0. cbn. now rewrite app_nil_r. Qed.

Lemma only_f107_trans (f : R) a b c :
  only_f107 f a b -> only_f107 f b c -> only_f107 f a c.
Proof.
  intros (k & E) (k' & E'). exists (k + k'). now rewrite E', E, repeat_app, app_assoc.
Qed.

Lemma month_block_only_f107 (args : Args) (rng : Rng) (model : Model) (month : Z) :
  follows (only_f107 (month_f107_of args rng month)) (month_block args rng model month).
Proof.
  pose proof (only_f107_refl (month_f107_of args rng month)) as Rl_refl.
  pose proof (@only_f107_trans (month_f107_of args rng month)) as Rl_trans.
  unfold month_block, extract, store_day, store_nan.
  unfold say, call, emit, append_date, append_f107, append_nmf2, append_min, append_max,
    set_min_val, set_max_val.
  cbv zeta.
  repeat lazymatch goal with
    | |- follows _ (ret _) => apply follows_ret; assumption
    | |- follows _ (lift _) => apply follows_lift; assumption
    | |- follows _ (gets _) => apply follows_gets; assumption
    | |- follows _ (modify _) =>
        let st := fresh "st" in
        intros st; cbn [fst modify];
        first [ exists 0; cbn; now rewrite app_nil_r | exists 1; reflexivity ]
    | |- follows _ (bind _ _) => apply follows_bind; [assumption | | intros ?]
    | |- follows _ (try_except _ _) => apply follows_try_except; [assumption | | intros ?]
    | |- follows _ (for_each _ _) =>
        apply follows_for_each; [assumption | assumption | intros ?]
    | |- follows _ (if ?b then _ else _) => destruct b
    | |- follows _ (match ?x with _ => _ end) => destruct x
    end.
Qed.

(** X17.  The F10.7 of a month.  With [--f107-constant c] and [c] not
    zero, the value is [c] as given, whatever its size; a constant of 0
    counts as not given.  Without a constant the value is
    [110 + 30 sin(2 pi (month - 1) / 12) + 10 randn()] clipped to
    [70, 200].  Whatever the model does in the month, every entry that
    the month adds to [all_f107] is this one value. *)
Theorem f107_of_a_month (args : Args) (rng : Rng) (model : Model) (month : Z) (st : St) :
  (forall c, f107_constant args = Some c -> c <> 0%R -> month_f107_of args rng month = c)
  /\ (f107_constant args = None \/ f107_constant args = Some 0%R ->
      month_f107_of args rng month
      = clip (110 + 30 * sin (2 * PI * IZR (month - 1) / 12) + 10 * randn rng month) 70 200
      /\ (70 <= month_f107_of args rng month <= 200)%R)
  /\ (exists k,
        all_f107 (fst (month_block args rng model month st))
        = all_f107 st ++ repeat (month_f107_of args rng month) k).
Proof.
  split; [| split].
  - intros c Hc Hn. unfold month_f107_of. rewrite Hc.
    destruct (Req_dec_T c 0); [contradiction | reflexivity].
  - intros Hc.
    assert (E : month_f107_of args rng month
                = clip (110 + 30 * sin (2 * PI * IZR (month - 1) / 12)
                        + 10 * randn rng month) 70 200).
    { unfold month_f107_of. destruct Hc as [-> | ->]; [reflexivity |].
      destruct (Req_dec_T 0 0); [reflexivity | contradiction]. }
    split; [exact E |]. rewrite E. apply YearDailySeries.clip_bounds. lra.
  - apply month_block_only_f107.
Qed.

End YearPlotMore.

(** * The Year Monthly Generator, month by month and over the year *)

Module YearPlotYear.
Import NumPy Py Calendar CalendarFacts Year YearPlot Instances.
Import CalendarNotions YearPlotNotions YearPlotFacts YearPlotMonths Examples YearExamples.
Local Open Scope nat_scope.

(** The state in which the extraction of a month starts. *)
Lemma month_block_after_extract (args : Args) (rng : Rng) (model : Model) (month : Z)
    (Nm nm_data : ndarray R) (x : R) (cmn cmx : cell) (st st2 : St) :
  (1 <= year args <= 9998)%Z -> (1 <= month <= 12)%Z -> (0 <= hour args <= 23)%Z ->
  IRI_monthly_mean_par model month = inr Nm ->
  extract Nm (fst (call (ml_IRI_monthly_mean_par month) (fst (say (MsgMonth month) st))))
  = (st2, inr nm_data) ->
  same_series st st2 ->
  to_float nm_data = inr x ->
  day_cells x (nm_min_val st2) (nm_max_val st2) = Some (cmn, cmx) ->
  exists st',
    month_block args rng model month st = (st', inr tt)
    /\ stored (stamps args month (days_of (days_in_month (year args) month)))
         (month_f107_of args rng month) (float_cell x) cmn cmx st st'
    /\ same_locals st2 st'.
Proof.
  intros Hy Hm Hh HN E2 S2 Hx Hc. rewrite plot_month_block_eq by assumption.
  unfold month_try, try_except, month_body. rewrite HN.
  unfold say, call, emit, modify in *. cbn [fst] in E2.
  unfold bind, lift. rewrite E2.
  destruct (@store_day_loop args month (month_f107_of args rng month) nm_data x cmn cmx
              (days_of (days_in_month (year args) month))) with (st := st2)
    as (st3 & E3 & L3 & K3 & G3); try assumption; try lia.
  { apply month_days_range. }
  rewrite E3. exists st3. split; [reflexivity |]. split; [| exact K3].
  eapply stored_after; [exact S2 | exact G3].
Qed.

(** Lines 118-121 on a two-axis array with one column: the bounds are
    not bound. *)
Lemma extract_one_column (Nm nm_data : ndarray R) (s0 : nat) st :
  shape Nm = [s0; 1] ->
  getitem Nm [At 0; At 0] = inr nm_data ->
  extract Nm st
  = ({| log := log st ++ [Print (MsgShape [s0; 1])]; all_dates := all_dates st;
        all_f107 := all_f107 st; all_nmf2 := all_nmf2 st; model_min := model_min st;
        model_max := model_max st; nm_min_val := nm_min_val st;
        nm_max_val := nm_max_val st |}, inr nm_data).
Proof.
  intros Hs Ed. unfold extract. cbv zeta. rewrite Hs.
  cbn [length Nat.eqb nth]. rewrite Ed. reflexivity.
Qed.

(** X14.  A month whose [f2['Nm']] has two axes and one column binds no
    bounds of its own.  The bounds stored for its days are then those
    that an earlier month left in the variables [nm_min_val] and
    [nm_max_val], when there was one; only when none has bound them are
    they 0.7 and 1.3 times the value. *)
Theorem one_column_month_reuses_bounds (args : Args) (rng : Rng) (model : Model)
    (month : Z) (Nm nm_data : ndarray R) (s0 : nat) (x : R) (st : St) :
  (1 <= year args <= 9998)%Z -> (1 <= month <= 12)%Z -> (0 <= hour args <= 23)%Z ->
  IRI_monthly_mean_par model month = inr Nm ->
  shape Nm = [s0; 1] ->
  getitem Nm [At 0; At 0] = inr nm_data ->
  to_float nm_data = inr x ->
  (forall a b lo hi,
      nm_min_val st = Some a -> nm_max_val st = Some b ->
      to_float a = inr lo -> to_float b = inr hi ->
      exists st',
        month_block args rng model month st = (st', inr tt)
        /\ stored (stamps args month (days_of (days_in_month (year args) month)))
             (month_f107_of args rng month)
             (float_cell x) (float_cell lo) (float_cell hi) st st')
  /\ (nm_min_val st = None \/ nm_max_val st = None ->
      exists st',
        month_block args rng model month st = (st', inr tt)
        /\ stored (stamps args month (days_of (days_in_month (year args) month)))
             (month_f107_of args rng month)
             (float_cell x) (float_cell (x * (7 / 10))%R) (float_cell (x * (13 / 10))%R)
             st st').
Proof.
  intros Hy Hm Hh HN Hs Ed Hx.
  assert (G : forall cmn cmx,
             day_cells x (nm_min_val st) (nm_max_val st) = Some (cmn, cmx) ->
             exists st',
               month_block args rng model month st = (st', inr tt)
               /\ stored (stamps args month (days_of (days_in_month (year args) month)))
                    (month_f107_of args rng month) (float_cell x) cmn cmx st st').
  { intros cmn cmx Hc.
    destruct (@month_block_after_extract args rng model month Nm nm_data x cmn cmx st
                _ Hy Hm Hh HN (@extract_one_column Nm nm_data s0 _ Hs Ed))
      as (st' & E & G & _);
      try assumption.
    - unfold same_series. cbn. tauto.
    - exists st'. auto. }
  split.
  - intros a b lo hi Ha Hb Hlo Hhi. apply G.
    unfold day_cells. rewrite Ha, Hb, Hlo, Hhi. reflexivity.
  - intros Hn. apply G. unfold day_cells.
    destruct Hn as [-> | ->]; [reflexivity |]. destruct (nm_min_val st); reflexivity.
Qed.

(** X14 witness: January 2022 on [[5]], no bounds bound before. *)
Lemma one_column_month_reuses_bounds_witness :
  exists st',
    month_block plot_args still_rng column_model 1 init = (st', inr tt)
    /\ all_nmf2 st' = repeat (float_cell 5) 31
    /\ model_min st' = repeat (float_cell (5 * (7 / 10))%R) 31
    /\ model_max st' = repeat (float_cell (5 * (13 / 10))%R) 31.
Proof.
  destruct (@one_column_month_reuses_bounds plot_args still_rng column_model 1
              Nm_column (scalar 5%R) 1 5%R init) as [_ H];
    try reflexivity; try (cbn; lia).
  destruct (H (or_introl eq_refl)) as (st' & E & (_ & _ & G3 & G4 & G5)).
  exists st'. split; [exact E |]. auto.
Defined.

Lemma to_float_scale (a : ndarray R) (x k : R) :
  to_float a = inr x -> to_float (scale a k) = inr (x * k)%R.
Proof.
  unfold to_float, list_index, scale. cbn [data].
  destruct (data a) as [| y d]; cbn; [discriminate |]. intros [= ->]. reflexivity.
Qed.

(** Lines 111-116 on a three-axis array with one solar level. *)
Lemma extract_one_level (Nm nm_data : ndarray R) (s0 s1 : nat) st :
  shape Nm = [s0; s1; 1] ->
  getitem Nm [At 0; At 0; At 0] = inr nm_data ->
  extract Nm st
  = ({| log := log st ++ [Print (MsgShape [s0; s1; 1])]; all_dates := all_dates st;
        all_f107 := all_f107 st; all_nmf2 := all_nmf2 st; model_min := model_min st;
        model_max := model_max st; nm_min_val := Some nm_data;
        nm_max_val := Some (scale nm_data (13 / 10)%R) |}, inr nm_data).
Proof.
  intros Hs Ed. unfold extract. cbv zeta. rewrite Hs.
  cbn [length Nat.eqb nth Nat.ltb Nat.leb]. rewrite Ed. reflexivity.
Qed.

(** X15.  The Year Monthly Generator looks at the length of the last
    axis before it reads the middle solar level.  On a three-axis array
    with one level only it takes that level, [f2['Nm'][0, 0, 0]], as the
    value of every day of the month; the minimum stored beside it is the
    same number, and the maximum is 1.3 times it.  (The Year Daily
    Generator raises on the same array.) *)
Theorem one_level_month_is_its_own_minimum (args : Args) (rng : Rng) (model : Model)
    (month : Z) (Nm nm_data : ndarray R) (s0 s1 : nat) (x : R) (st : St) :
  (1 <= year args <= 9998)%Z -> (1 <= month <= 12)%Z -> (0 <= hour args <= 23)%Z ->
  IRI_monthly_mean_par model month = inr Nm ->
  shape Nm = [s0; s1; 1] ->
  getitem Nm [At 0; At 0; At 0] = inr nm_data ->
  to_float nm_data = inr x ->
  exists st',
    month_block args rng model month st = (st', inr tt)
    /\ stored (stamps args month (days_of (days_in_month (year args) month)))
         (month_f107_of args rng month)
         (float_cell x) (float_cell x) (float_cell (x * (13 / 10))%R) st st'.
Proof.
  intros Hy Hm Hh HN Hs Ed Hx.
  destruct (@month_block_after_extract args rng model month Nm nm_data x
              (float_cell x) (float_cell (x * (13 / 10))%R) st
              _ Hy Hm Hh HN (@extract_one_level Nm nm_data s0 s1 _ Hs Ed))
    as (st' & E & G & _); try assumption.
  - unfold same_series. cbn. tauto.
  - cbn [nm_min_val nm_max_val]. unfold day_cells.
    rewrite Hx, (@to_float_scale nm_data x (13 / 10)%R Hx). reflexivity.
  - exists st'. auto.
Qed.

(** X15 witness: January 2022 on [[[3]]]. *)
Lemma one_level_month_is_its_own_minimum_witness :
  exists st',
    month_block plot_args still_rng one_level_plot_model 1 init = (st', inr tt)
    /\ all_nmf2 st' = repeat (float_cell 3) 31
    /\ model_min st' = repeat (float_cell 3) 31.
Proof.
  destruct (@one_level_month_is_its_own_minimum plot_args still_rng one_level_plot_model 1
              (mk_nd [1; 1; 1] [3%R]) (scalar 3%R) 1 1 3%R init)
    as (st' & E & (_ & _ & G3 & G4 & _));
    try reflexivity; try (cbn; lia).
  exists st'. split; [exact E |]. auto.
Defined.

(** ** The whole year *)

Lemma map_seq_shift {A} (f g : nat -> A) (n : nat) : forall a b,
  (forall k, k < n -> f (a + k) = g (b + k)) -> map f (seq a n) = map g (seq b n).
Proof.
  induction n as [| n IH]; intros a b H; [reflexivity |].
  cbn [seq map]. f_equal.
  - specialize (H 0 ltac:(lia)). now rewrite !Nat.add_0_r in H.
  - apply IH. intros k Hk. specialize (H (S k) ltac:(lia)).
    now rewrite <- !Nat.add_succ_comm in H.
Qed.

(** The dates a month stores are its days of the year. *)
Lemma stamps_of_month (args : Args) (month : Z) :
  (1 <= month <= 12)%Z ->
  stamps args month (days_of (days_in_month (year args) month))
  = map (fun i => ((ymd2ord (year args) 1 1 + Z.of_nat i)%Z, hour args))
        (seq (month_off (year args) month) (month_len (year args) month)).
Proof.
  intros Hm. unfold stamps, days_of. rewrite map_map.
  fold (month_len (year args) month).
  apply map_seq_shift. intros k Hk. f_equal.
  pose proof (month_offset (year args) Hm) as [O1 _].
  unfold month_off. unfold ymd2ord in *. lia.
Qed.

Lemma month_loop_of_levels (args : Args) (rng : Rng) (model : Model) (x lo hi : Z -> R)
    (l : list Z) :
  (1 <= year args <= 9998)%Z -> (0 <= hour args <= 23)%Z ->
  Forall (fun m => (1 <= m <= 12)%Z /\ levels model m (x m) (lo m) (hi m)) l ->
  forall st, exists st',
    for_each l (month_block args rng model) st = (st', inr tt)
    /\ all_dates st'
       = all_dates st
         ++ flat_map (fun m => stamps args m (days_of (days_in_month (year args) m))) l
    /\ all_f107 st'
       = all_f107 st
         ++ flat_map (fun m => repeat (month_f107_of args rng m) (month_len (year args) m)) l
    /\ all_nmf2 st'
       = all_nmf2 st
         ++ flat_map (fun m => repeat (float_cell (x m)) (month_len (year args) m)) l
    /\ model_min st'
       = model_min st
         ++ flat_map (fun m => repeat (float_cell (lo m)) (month_len (year args) m)) l
    /\ model_max st'
       = model_max st
         ++ flat_map (fun m => repeat (float_cell (hi m)) (month_len (year args) m)) l.
Proof.
  intros Hy Hh. induction 1 as [| m l (Hm & Hl) _ IH]; intros st.
  - exists st. cbn. rewrite !app_nil_r. auto 10.
  - destruct Hl as (Nm & nm_data & a & b & s0 & s1 & s2 & HN & Hs & H2 & Ed & Ea & Eb
                    & Hx & Hlo & Hhi).
    destruct (@month_block_repeats args rng model m Nm nm_data a b s0 s1 s2
                (x m) (lo m) (hi m) st Hy Hm Hh HN Hs H2 Ed Ea Eb Hx Hlo Hhi)
      as (st1 & E1 & _ & (A1 & A2 & A3 & A4 & A5)).
    rewrite length_stamps, length_days_of in A2, A3, A4, A5.
    fold (month_len (year args) m) in A2, A3, A4, A5.
    destruct (IH st1) as (st2 & E2 & B1 & B2 & B3 & B4 & B5).
    exists st2. split.
    + cbn [for_each]. unfold bind. rewrite E1. exact E2.
    + rewrite B1, B2, B3, B4, B5, A1, A2, A3, A4, A5. cbn [flat_map].
      rewrite <- !app_assoc. auto 10.
Qed.

Lemma length_flat_map_repeat {A} (c : Z -> A) (len : Z -> nat) (l : list Z) :
  length (flat_map (fun m => repeat (c m) (len m)) l) = list_sum (map len l).
Proof.
  induction l as [| m l IH]; [reflexivity |].
  cbn [flat_map map]. rewrite length_app, repeat_length, IH. reflexivity.
Qed.

(** X16.  A year in which the model answers every month with three-axis
    arrays of at least two solar levels.  The loop ends normally;
    [all_dates] holds the days of the year from 1 January on, each once
    and in order, at [args.hour]; every list has one entry per day; and
    the values of a month are the month's middle level, between the
    month's first and last level, repeated for each of its days. *)
Theorem year_of_levels_is_complete (args : Args) (rng : Rng) (model : Model)
    (x lo hi : Z -> R) :
  (1 <= year args <= 9998)%Z -> (0 <= hour args <= 23)%Z ->
  (forall m, (1 <= m <= 12)%Z -> levels model m (x m) (lo m) (hi m)) ->
  exists st',
    month_loop args rng model init = (st', inr tt)
    /\ all_dates st' = year_stamps args
    /\ all_f107 st'
       = flat_map (fun m => repeat (month_f107_of args rng m) (month_len (year args) m))
           months
    /\ all_nmf2 st'
       = flat_map (fun m => repeat (float_cell (x m)) (month_len (year args) m)) months
    /\ model_min st'
       = flat_map (fun m => repeat (float_cell (lo m)) (month_len (year args) m)) months
    /\ model_max st'
       = flat_map (fun m => repeat (float_cell (hi m)) (month_len (year args) m)) months
    /\ length (all_dates st') = days_in_year (year args)
    /\ length (all_f107 st') = days_in_year (year args)
    /\ length (all_nmf2 st') = days_in_year (year args)
    /\ length (model_min st') = days_in_year (year args)
    /\ length (model_max st') = days_in_year (year args).
Proof.
  intros Hy Hh Hl.
  assert (R : Forall (fun m => (1 <= m <= 12)%Z /\ levels model m (x m) (lo m) (hi m))
                months).
  { apply Forall_forall. intros m Hm.
    pose proof YearDailyYear.months_range as Rg. rewrite Forall_forall in Rg.
    split; [now apply Rg | apply Hl; now apply Rg]. }
  destruct (@month_loop_of_levels args rng model x lo hi months Hy Hh R init)
    as (st' & E & A1 & A2 & A3 & A4 & A5).
  cbn [init all_dates all_f107 all_nmf2 model_min model_max app] in *.
  assert (D : all_dates st' = year_stamps args).
  { rewrite A1. unfold year_stamps.
    rewrite <- (YearDailyMore.month_runs_concat (year args)).
    rewrite concat_map, map_map, flat_map_concat_map. f_equal.
    apply map_ext_in. intros m Hm. apply stamps_of_month.
    pose proof YearDailyYear.months_range as Rg. rewrite Forall_forall in Rg.
    now apply Rg. }
  exists st'. split; [exact E |]. split; [exact D |].
  split; [exact A2 |]. split; [exact A3 |]. split; [exact A4 |]. split; [exact A5 |].
  rewrite D, A2, A3, A4, A5. unfold year_stamps.
  rewrite length_map, length_seq, !length_flat_map_repeat.
  change YearPlot.months with YearDaily.months.
  rewrite (YearDailyYear.sum_month_len (year args)). auto.
Qed.

(** X16 witness: the year 2022 with the levels 1, 2 and 4 in every month. *)
Lemma year_of_levels_is_complete_witness :
  exists st',
    month_loop plot_args still_rng levels_model init = (st', inr tt)
    /\ length (all_dates st') = 365
    /\ length (all_nmf2 st') = 365.
Proof.
  destruct (@year_of_levels_is_complete plot_args still_rng levels_model
              (fun _ => 2%R) (fun _ => 1%R) (fun _ => 4%R))
    as (st' & E & _ & _ & _ & _ & _ & L1 & _ & L3 & _); try (cbn; lia).
  - intros m Hm. exists Nm_levels, (scalar 2%R), (scalar 1%R), (scalar 4%R), 1, 1, 3.
    repeat split; try reflexivity. lia.
  - exists st'. split; [exact E |]. split; [exact L1 | exact L3].
Defined.

End YearPlotYear.
